(** * Air-quality collectors: a shallow embedding and its properties

    The repository holds two collectors.  [data_collector.py] talks to an
    OpenAQ-style service: [get_locations] looks locations up and
    [fetch_air_quality_data] pages through the measurements of one
    location, parameter by parameter, and reshapes the accumulated rows
    with [_process_data].  [collect_data.py] fetches EPA daily data once
    and writes a CSV file.

    The embedding keeps the shape of the Python code.  Functions that log,
    sleep, print or talk to the network live in a small monad [M] that
    threads the chronological list of events and may raise an exception;
    [try ... except] is the combinator [try_except].  The remote service is
    a function from requests to responses.  The few [requests] and [pandas]
    operations the code calls are modelled next to the code, each with the
    behaviour of the library it stands for written in its comment. *)

From Stdlib Require Import List Ascii String ZArith QArith Bool Lia Permutation.
From Equations Require Import Equations.
Import ListNotations.

Local Open Scope string_scope.
Local Open Scope Z_scope.
Local Open Scope list_scope.

Set Implicit Arguments.

(** ** Values, dictionaries, exceptions *)

(** A Python object as the program meets it: what a JSON document decodes
    to and what a cell of a table holds.  [VNull] is [None] (and [NaN],
    [NaT], JSON [null]); a timestamp (nanoseconds since the epoch) is what
    [to_datetime] produces.  Numbers are exact rationals; the rounding of
    binary floating point is not modelled.  A dict is the list of its
    items in insertion order; its keys are taken to be distinct, as they
    are in every dict. *)
#[warnings="-register-all"]
Inductive Value : Type :=
| VNull
| VNum (q : Q)
| VStr (s : string)
| VTimestamp (t : Z)
| VDict (d : list (string * Value))
| VBool (b : bool)
| VList (l : list Value).

(** A Python [dict] with string keys, in insertion order. *)
Definition Dict (V : Type) : Type := list (string * V).

(** A JSON object of the services, and a row of a table. *)
Definition Row : Type := Dict Value.

Fixpoint dict_get {V : Type} (k : string) (d : Dict V) : option V :=
  match d with
  | [] => None
  | (k', v) :: d' => if String.eqb k k' then Some v else dict_get k d'
  end.

(** [d.get(k, default)] *)
Definition dict_get_default {V : Type} (k : string) (d : Dict V) (default : V) : V :=
  match dict_get k d with
  | Some v => v
  | None => default
  end.

Definition keys {V : Type} (d : Dict V) : list string := map fst d.

Definition mem (s : string) (l : list string) : bool := existsb (String.eqb s) l.

(** Distinct elements in order of first appearance. *)
Definition distinct (l : list string) : list string :=
  fold_left (fun acc s => if mem s acc then acc else acc ++ [s]) l [].

(** The exceptions the modelled code can meet.  The first three are
    [requests.exceptions.RequestException]s: a transport failure carries no
    response; an [HTTPError] raised by [raise_for_status] carries the
    response, of which the handlers read the text; [JSONDecodeError] is
    what [response.json()] raises for a body that is not JSON (since
    [requests] 2.27 a [RequestException] and a [ValueError] at once,
    without response).  [OutsideModel] stands for the behaviour of an
    operation on an operand this model does not describe. *)
Inductive Exn : Type :=
| ConnectionError
| HTTPError (status_code : Z) (text : string)
| JSONDecodeError
| KeyError (missing : list string)
| TypeError (what : string)
| ValueError (what : string)
| AttributeError (what : string)
| OutsideModel (what : string).

Definition is_RequestException (e : Exn) : bool :=
  match e with
  | ConnectionError | HTTPError _ _ | JSONDecodeError => true
  | _ => false
  end.

Definition is_ValueError (e : Exn) : bool :=
  match e with
  | ValueError _ | JSONDecodeError => true
  | _ => false
  end.

(** [except Exception] *)
Definition is_Exception (e : Exn) : bool := true.

Inductive Result (A : Type) : Type :=
| Ok (a : A)
| Raise (e : Exn).

Arguments Ok {A} a.
Arguments Raise {A} e.

Definition rbind {A B : Type} (r : Result A) (k : A -> Result B) : Result B :=
  match r with
  | Ok a => k a
  | Raise e => Raise e
  end.

(** [d[k]] *)
Definition getitem (k : string) (d : Dict Value) : Result Value :=
  match dict_get k d with
  | Some v => Ok v
  | None => Raise (KeyError [k])
  end.

Fixpoint rmap {A B : Type} (f : A -> Result B) (l : list A) : Result (list B) :=
  match l with
  | [] => Ok []
  | a :: l' => rbind (f a) (fun b => rbind (rmap f l') (fun bs => Ok (b :: bs)))
  end.

(** ** Python objects

    The operations the code applies to what a reply decodes to, each with
    the exception Python raises for an operand of the wrong kind. *)

(** [bool(v)], the test of [if v] and [if not v]. *)
Definition truthy (v : Value) : bool :=
  match v with
  | VNull => false
  | VBool b => b
  | VNum q => negb (Qeq_bool q 0%Q)
  | VStr EmptyString => false
  | VList [] => false
  | VDict [] => false
  | _ => true
  end.

(** [v.get(k, default)]: only a dict has the method. *)
Definition py_get (k : string) (v default : Value) : Result Value :=
  match v with
  | VDict d => Ok (dict_get_default k d default)
  | _ => Raise (AttributeError "object has no attribute 'get'")
  end.

(** [v[k]] for a string [k]: a lookup in a dict; strings and lists take
    integer indices, the other objects none. *)
Definition py_getitem (k : string) (v : Value) : Result Value :=
  match v with
  | VDict d => getitem k d
  | VStr _ | VList _ => Raise (TypeError "indices must be integers")
  | _ => Raise (TypeError "object is not subscriptable")
  end.

(** [k in v] for a string [k]: a key of a dict, an element of a list, a
    substring of a string. *)
Definition py_contains (k : string) (v : Value) : Result bool :=
  match v with
  | VDict d => Ok (mem k (keys d))
  | VList l => Ok (existsb (fun x => match x with
                                     | VStr s => String.eqb s k
                                     | _ => false
                                     end) l)
  | VStr s => Ok (match String.index 0 k s with
                  | Some _ => true
                  | None => false
                  end)
  | _ => Raise (TypeError "argument is not iterable")
  end.

(** [for x in v]: the elements of a list, the keys of a dict, the
    characters of a string (of an ASCII string, here). *)
Definition py_iter (v : Value) : Result (list Value) :=
  match v with
  | VList l => Ok l
  | VDict d => Ok (map VStr (keys d))
  | VStr s => Ok (map (fun c => VStr (String c EmptyString)) (list_ascii_of_string s))
  | _ => Raise (TypeError "object is not iterable")
  end.

(** [len(v)] *)
Definition py_len (v : Value) : Result Z :=
  match v with
  | VList l => Ok (Z.of_nat (List.length l))
  | VDict d => Ok (Z.of_nat (List.length d))
  | VStr s => Ok (Z.of_nat (String.length s))
  | _ => Raise (TypeError "object has no len()")
  end.

(** The dicts of a list all of whose elements are dicts. *)
Fixpoint records_of (l : list Value) : option (list Row) :=
  match l with
  | [] => Some []
  | VDict d :: l' =>
      match records_of l' with
      | Some records => Some (d :: records)
      | None => None
      end
  | _ :: _ => None
  end.

(** ** Tables ([pandas.DataFrame])

    A table is its list of column labels and its rows; every row built by
    the operations below lists exactly the columns of its table, in their
    order. *)
Record DataFrame : Type := mkDataFrame {
  columns : list string;
  rows : list Row
}.

Definition cell (c : string) (r : Row) : Value := dict_get_default c r VNull.

Definition reindex (cols : list string) (r : Row) : Row :=
  map (fun c => (c, cell c r)) cols.

(** [pd.DataFrame()] *)
Definition empty_frame : DataFrame := mkDataFrame [] [].

(** [pd.DataFrame(records)] for a list of dicts: one row per dict, the
    columns are the keys in order of first appearance, a key missing from a
    dict gives a missing cell. *)
Definition pd_DataFrame (records : list Row) : DataFrame :=
  let cols := distinct (flat_map keys records) in
  mkDataFrame cols (map (reindex cols) records).

(** The records [pd.DataFrame(v)] makes a table of, for any object [v]:
    the dicts of a list of dicts, none for [None]; [ValueError]
    ("DataFrame constructor not properly called!") for a string, a number
    or a boolean.  The tables [pandas] makes of a dict and of a list
    holding anything but dicts are not modelled. *)
Definition table_records (v : Value) : Result (list Row) :=
  match v with
  | VNull => Ok []
  | VList l =>
      match records_of l with
      | Some records => Ok records
      | None => Raise (OutsideModel "table of a list that holds other than dicts")
      end
  | VDict _ => Raise (OutsideModel "table of a dict")
  | _ => Raise (ValueError "DataFrame constructor not properly called!")
  end.

(** [pd.DataFrame(v)] *)
Definition pd_DataFrame_of (v : Value) : Result DataFrame :=
  rbind (table_records v) (fun records => Ok (pd_DataFrame records)).

(** [df.empty]: true when any axis has length zero, so also for a table
    with rows and no column. *)
Definition empty (df : DataFrame) : bool :=
  match columns df, rows df with
  | [], _ => true
  | _, [] => true
  | _, _ => false
  end.

(** [len(df)] *)
Definition len (df : DataFrame) : Z := Z.of_nat (List.length (rows df)).

(** [df[c] = ...] with one value per row: overwrites the column, or appends
    it as the last one. *)
Definition assign_column (c : string) (f : Row -> Value) (df : DataFrame) : DataFrame :=
  let cols := if mem c (columns df) then columns df else columns df ++ [c] in
  mkDataFrame cols
    (map (fun r => map (fun c' => (c', if String.eqb c' c then f r else cell c' r)) cols)
         (rows df)).

(** [df[c] = v] with a scalar [v]. *)
Definition set_column (c : string) (v : Value) (df : DataFrame) : DataFrame :=
  assign_column c (fun _ => v) df.

(** [df[[c1, ..., cn]]]: [KeyError] naming the labels that are not columns. *)
Definition getitem_columns (cs : list string) (df : DataFrame) : Result DataFrame :=
  match filter (fun c => negb (mem c (columns df))) cs with
  | [] => Ok (mkDataFrame cs (map (reindex cs) (rows df)))
  | missing => Raise (KeyError missing)
  end.

(** [pd.concat(dfs, ignore_index=True)]: the rows of all tables over the
    union of their columns; [ValueError] when there is nothing to
    concatenate. *)
Definition pd_concat (dfs : list DataFrame) : Result DataFrame :=
  match dfs with
  | [] => Raise (ValueError "No objects to concatenate")
  | _ =>
      let cols := distinct (flat_map columns dfs) in
      Ok (mkDataFrame cols (flat_map (fun df => map (reindex cols) (rows df)) dfs))
  end.

(** ** The HTTP boundary ([requests]) *)

Record Request : Type := mkRequest {
  url : string;
  params : Dict Value;
  headers : Dict string
}.

(** The body of a reply as [response.json()] finds it: the object it
    decodes to (any JSON value), or [None] when it is not JSON. *)
Definition Body : Type := option Value.

Record HttpResponse : Type := mkHttpResponse {
  status_code : Z;
  text : string;
  json : Body
}.

(** What one [requests.get] call meets: no reply at all (connection
    refused, timeout, ...: a [RequestException] without response) or the
    final reply with its status. *)
Inductive Response : Type :=
| NoReply
| Reply (r : HttpResponse).

(** The remote service answers by the request alone. *)
Definition Server : Type := Request -> Response.

(** ** Events and the monad of the collectors *)

Inductive Level : Type := LvInfo | LvWarning | LvError.

(** The content of the log and console lines, kept structured. *)
Inductive Message : Type :=
| MsgApiKeyPrefix (prefix : string)
| MsgMakingRequest (u : string)
| MsgWithParams (p : Dict Value)
| MsgUsingHeaders (h : Dict string)
| MsgStatusCode (code : Z)
| MsgResponseHeaders
| MsgNoLocations (city country : string)
| MsgFoundLocations (n : Z) (city country : string)
| MsgLocationsError (city country : string) (e : Exn)
| MsgResponseText (t : string)
| MsgFetched (n : Z) (parameter : string) (location_id : Value) (page : Z)
| MsgFetchError (parameter : string) (location_id : Value) (page : Z) (e : Exn)
| MsgNoData (parameter : string) (location_id : Value)
| MsgLookingUp (city country : string)
| MsgSkippingCity (city : string)
| MsgFetchingLocation (city : string) (location_name location_id : Value)
| MsgSaved (city : string) (location_name : Value) (path : string)
| MsgNoneCollected (city : string) (location_name : Value)
| MsgError (e : Exn)
| MsgSetApiKey
| MsgUnexpected (e : Exn)
| MsgGettingStations
| MsgFoundStations (n : Z)
| MsgFetchingEpa
| MsgEpaStatus (code : Z)
| MsgEpaResponse (t : string)
| MsgEpaException (e : Exn)
| MsgDataSaved (path : string)
| MsgSummaryHeader
| MsgTotal (total : Z)
| MsgParametersHeader
| MsgStationsHeader
| MsgValueCounts (column : string) (df : DataFrame)
| MsgNoMeasurements.

Inductive Event : Type :=
| HttpGet (req : Request)
| Logged (lvl : Level) (msg : Message)
| Slept (milliseconds : Z)
| Printed (msg : Message)
| MadeDirs (path : string)
| CsvWritten (path : string) (df : DataFrame).

(** A computation reads the events so far and returns a value or an
    exception together with the events extended by its own. *)
Definition M (A : Type) : Type := list Event -> Result A * list Event.

Definition ret {A : Type} (a : A) : M A := fun tr => (Ok a, tr).

Definition raise {A : Type} (e : Exn) : M A := fun tr => (Raise e, tr).

Definition bind {A B : Type} (m : M A) (k : A -> M B) : M B :=
  fun tr =>
    match m tr with
    | (Ok a, tr') => k a tr'
    | (Raise e, tr') => (Raise e, tr')
    end.

Definition lift {A : Type} (r : Result A) : M A := fun tr => (r, tr).

Definition emit (ev : Event) : M unit := fun tr => (Ok tt, tr ++ [ev]).

(** [try: body except <class>: handler] *)
Definition try_except {A : Type} (body : M A) (catches : Exn -> bool)
    (handler : Exn -> M A) : M A :=
  fun tr =>
    match body tr with
    | (Ok a, tr') => (Ok a, tr')
    | (Raise e, tr') => if catches e then handler e tr' else (Raise e, tr')
    end.

Declare Scope monad_scope.
Delimit Scope monad_scope with monad.
Notation "x <- m ;; k" := (bind m (fun x => k))
  (at level 61, m at next level, right associativity) : monad_scope.
Notation "m ;; k" := (bind m (fun _ => k))
  (at level 61, right associativity) : monad_scope.
Local Open Scope monad_scope.

Fixpoint for_each {A : Type} (l : list A) (body : A -> M unit) : M unit :=
  match l with
  | [] => ret tt
  | a :: l' => body a ;; for_each l' body
  end.

Definition log (lvl : Level) (msg : Message) : M unit := emit (Logged lvl msg).

(** [requests.get(url, params=..., headers=...)] *)
Definition requests_get (server : Server) (req : Request) : M HttpResponse :=
  emit (HttpGet req) ;;
  match server req with
  | NoReply => raise ConnectionError
  | Reply r => ret r
  end.

(** [response.raise_for_status()]: [requests] raises [HTTPError] for the
    client errors 400..499 and the server errors 500..599, for no other
    status. *)
Definition raise_for_status (r : HttpResponse) : M unit :=
  if (400 <=? status_code r) && (status_code r <? 600)
  then raise (HTTPError (status_code r) (text r))
  else ret tt.

(** [response.json()] *)
Definition response_json (r : HttpResponse) : Result Value :=
  match json r with
  | Some v => Ok v
  | None => Raise JSONDecodeError
  end.

(** [hasattr(e.response, 'text')]: the response of a transport failure
    and of a decoding failure is [None]. *)
Definition response_text (e : Exn) : option string :=
  match e with
  | HTTPError _ t => Some t
  | _ => None
  end.

(** ** Reshaping ([DataFrame.pivot_table], [reset_index], [to_datetime]) *)

Definition distinct_by {A : Type} (eqb : A -> A -> bool) (l : list A) : list A :=
  fold_left (fun acc x => if existsb (eqb x) acc then acc else acc ++ [x]) l [].

Fixpoint insert_sorted {A : Type} (leb : A -> A -> bool) (x : A) (l : list A) : list A :=
  match l with
  | [] => [x]
  | y :: l' => if leb x y then x :: l else y :: insert_sorted leb x l'
  end.

Definition sort {A : Type} (leb : A -> A -> bool) (l : list A) : list A :=
  fold_right (insert_sorted leb) [] l.

(** The values that can label a group: present and hashable.  A number is
    kept in lowest terms, so that equal numbers are equal labels. *)
Inductive Label : Type :=
| LNum (q : Q)
| LStr (s : string)
| LTimestamp (t : Z).

Definition label_eqb (a b : Label) : bool :=
  match a, b with
  | LNum p, LNum q => Z.eqb (Qnum p) (Qnum q) && Pos.eqb (Qden p) (Qden q)
  | LStr s, LStr t => String.eqb s t
  | LTimestamp s, LTimestamp t => Z.eqb s t
  | _, _ => false
  end.

(** Numbers before strings before timestamps (a column of one kind, the
    case [pandas] can sort, is in its usual order). *)
Definition label_leb (a b : Label) : bool :=
  match a, b with
  | LNum p, LNum q => Qle_bool p q
  | LNum _, _ => true
  | LStr _, LNum _ => false
  | LStr s, LStr t => String.leb s t
  | LStr _, LTimestamp _ => true
  | LTimestamp s, LTimestamp t => Z.leb s t
  | LTimestamp _, _ => false
  end.

Fixpoint key_eqb (k1 k2 : list Label) : bool :=
  match k1, k2 with
  | [], [] => true
  | a :: k1', b :: k2' => label_eqb a b && key_eqb k1' k2'
  | _, _ => false
  end.

(** Lexicographic order of composite keys. *)
Fixpoint key_leb (k1 k2 : list Label) : bool :=
  match k1, k2 with
  | [], _ => true
  | _ :: _, [] => false
  | a :: k1', b :: k2' => if label_eqb a b then key_leb k1' k2' else label_leb a b
  end.

Definition value_of_label (l : Label) : Value :=
  match l with
  | LNum q => VNum q
  | LStr s => VStr s
  | LTimestamp t => VTimestamp t
  end.

(** A cell of a grouping column: [None] for a missing cell (its row is left
    out of every group, [dropna=True]); a dict or a list cannot be hashed.
    Booleans, which Python hashes like the numbers 0 and 1, are not
    modelled as labels. *)
Definition label_of (v : Value) : Result (option Label) :=
  match v with
  | VNull => Ok None
  | VNum q => Ok (Some (LNum (Qred q)))
  | VStr s => Ok (Some (LStr s))
  | VTimestamp t => Ok (Some (LTimestamp t))
  | VDict _ | VList _ => Raise (TypeError "unhashable type")
  | VBool _ => Raise (OutsideModel "boolean label")
  end.

(** A cell of the column whose values become column labels.  The tables of
    this program hold strings there; other labels are not modelled. *)
Definition column_label_of (v : Value) : Result (option string) :=
  match v with
  | VNull => Ok None
  | VStr s => Ok (Some s)
  | VDict _ | VList _ => Raise (TypeError "unhashable type")
  | VNum _ | VTimestamp _ | VBool _ =>
      Raise (OutsideModel "column label that is not a string")
  end.

(** A cell of the aggregated column: a number, or missing (skipped by the
    mean); strings and objects cannot be averaged.  The means of
    timestamps and of booleans are not modelled. *)
Definition numeric_of (v : Value) : Result (option Q) :=
  match v with
  | VNull => Ok None
  | VNum q => Ok (Some q)
  | VStr _ | VDict _ | VList _ =>
      Raise (TypeError "agg function failed [how->mean,dtype->object]")
  | VTimestamp _ | VBool _ => Raise (OutsideModel "mean of timestamps or booleans")
  end.

Fixpoint all_some {A : Type} (l : list (option A)) : option (list A) :=
  match l with
  | [] => Some []
  | None :: _ => None
  | Some a :: l' =>
      match all_some l' with
      | Some l'' => Some (a :: l'')
      | None => None
      end
  end.

Definition option_to_list {A : Type} (o : option A) : list A :=
  match o with
  | Some a => [a]
  | None => []
  end.

Definition is_some {A : Type} (o : option A) : bool :=
  match o with
  | Some _ => true
  | None => false
  end.

(** What a row contributes to the pivot: its composite key, its column
    label and its value. *)
Record Entry : Type := mkEntry {
  entry_key : list Label;
  entry_column : string;
  entry_value : option Q
}.

(** The group of a row: its composite key and its column label, [None]
    when one of these cells is missing.  The grouping reads these cells of
    every row. *)
Definition group_of (index : list string) (cols : string) (r : Row)
  : Result (option (list Label * string)) :=
  rbind (rmap (fun c => label_of (cell c r)) index) (fun ks =>
  rbind (column_label_of (cell cols r)) (fun c =>
  Ok match all_some ks, c with
     | Some k, Some c' => Some (k, c')
     | _, _ => None
     end)).

(** The entry of a row, given its group: the value of a row is read only
    when the row has a group, the other rows having been left out. *)
Definition entry_of (vals : string) (g : option (list Label * string)) (r : Row)
  : Result (option Entry) :=
  match g with
  | Some (k, c) => rbind (numeric_of (cell vals r)) (fun v => Ok (Some (mkEntry k c v)))
  | None => Ok None
  end.

(** The arithmetic mean, in lowest terms. *)
Definition mean (vs : list Q) : Q :=
  Qred (fold_right Qplus 0%Q vs / inject_Z (Z.of_nat (List.length vs)))%Q.

Definition group_values (es : list Entry) (k : list Label) (c : string) : list Q :=
  flat_map (fun e =>
              if key_eqb (entry_key e) k && String.eqb (entry_column e) c
              then option_to_list (entry_value e) else []) es.

Definition group_mean (es : list Entry) (k : list Label) (c : string) : Value :=
  match group_values es k c with
  | [] => VNull
  | vs => VNum (mean vs)
  end.

(** The result of a pivot: the index (one composite key per row) and one
    column per label. *)
Record PivotTable : Type := mkPivotTable {
  index_names : list string;
  table_columns : list string;
  table_rows : list (list Label * Row)
}.

(** The entries of the groups that have a value, the sorted index and the
    sorted column labels of a pivot. *)
Definition kept_entries (es : list (option Entry)) : list Entry :=
  filter (fun e => is_some (entry_value e)) (flat_map option_to_list es).

Definition pivot_index (kept : list Entry) : list (list Label) :=
  sort key_leb (distinct_by key_eqb (map entry_key kept)).

Definition pivot_labels (kept : list Entry) : list string :=
  sort String.leb (distinct_by String.eqb (map entry_column kept)).

(** [df.pivot_table(index=index, columns=cols, values=vals, aggfunc='mean')]
    with the defaults [dropna=True], [sort=True]:
    - the rows are grouped by their cells in the grouping columns, rows
      with a missing cell there are left out;
    - the values of each (key, label) group are averaged, missing values
      skipped; a group without any value is dropped;
    - the remaining keys, sorted, are the index and the remaining labels,
      sorted, the columns; a cell without group is missing. *)
Definition pivot_table_mean (df : DataFrame) (index : list string) (cols vals : string)
  : Result PivotTable :=
  match filter (fun c => negb (mem c (columns df))) (index ++ [cols; vals]) with
  | [] =>
      rbind (rmap (group_of index cols) (rows df)) (fun groups =>
      rbind (rmap (fun gr => entry_of vals (fst gr) (snd gr)) (combine groups (rows df)))
            (fun es =>
      let kept := kept_entries es in
      let labels := pivot_labels kept in
      Ok (mkPivotTable index labels
            (map (fun k => (k, map (fun c => (c, group_mean kept k c)) labels))
                 (pivot_index kept)))))
  | missing => Raise (KeyError missing)
  end.

(** [table.reset_index()]: the index levels become the first columns;
    [ValueError] ("cannot insert ..., already exists") when a column already
    bears the name of a level. *)
Definition reset_index (t : PivotTable) : Result DataFrame :=
  match filter (fun c => mem c (index_names t)) (table_columns t) with
  | [] =>
      Ok (mkDataFrame (index_names t ++ table_columns t)
            (map (fun kr => combine (index_names t) (map value_of_label (fst kr)) ++ snd kr)
                 (table_rows t)))
  | c :: _ => Raise (ValueError ("cannot insert " ++ c ++ ", already exists"))
  end.

(** [df[c]]: the cells of a column, one per row. *)
Definition column_cells (c : string) (df : DataFrame) : list Value :=
  map (cell c) (rows df).

(** [df[c] = values] for a column that exists and one value per row. *)
Definition assign_values (c : string) (values : list Value) (df : DataFrame) : DataFrame :=
  mkDataFrame (columns df)
    (map (fun rv => map (fun cv => (fst cv, if String.eqb (fst cv) c then snd rv else snd cv))
                        (fst rv))
         (combine (rows df) values)).

(** The strings [pandas] reads as a missing date. *)
Definition is_nat_string (s : string) : bool :=
  mem s [EmptyString; "NaT"; "nat"; "NAT"; "nan"; "NaN"; "NAN"].

(** The element [pd.to_datetime] infers the format of a column from: the
    first one that is not missing, when that is a string. *)
Fixpoint format_source (values : list Value) : option string :=
  match values with
  | [] => None
  | VNull :: values' => format_source values'
  | VStr s :: values' => if is_nat_string s then format_source values' else Some s
  | _ :: _ => None
  end.

(** ** [data_collector.py] *)

Module DataCollector.

Record Collector : Type := mkCollector {
  base_url : string;
  api_key : string;
  self_headers : Dict string
}.

(** [AirQualityDataCollector.__init__], given the value of the environment
    variable [OPENAQ_API_KEY] after [load_dotenv()]. *)
Definition init (OPENAQ_API_KEY : option string) : M Collector :=
  match OPENAQ_API_KEY with
  | None | Some EmptyString =>
      raise (ValueError "OpenAQ API key not found. Please set OPENAQ_API_KEY in .env file")
  | Some key =>
      log LvInfo (MsgApiKeyPrefix (substring 0 8 key)) ;;
      ret (mkCollector "https://api.openaq.org/v3" key
             [("Accept", "application/json");
              ("User-Agent", "AirQualityDataCollector/1.0");
              ("X-API-Key", key)])
  end.

Definition default_parameters : list string :=
  ["pm25"; "pm10"; "o3"; "no2"; "so2"; "co"].

Definition default_max_pages : Z := 10.

Definition is_nil {A : Type} (l : list A) : bool :=
  match l with
  | [] => true
  | _ :: _ => false
  end.

(** The local variables of [fetch_air_quality_data] that the page loop
    updates. *)
Record Locals : Type := mkLocals {
  all_data : list DataFrame;
  total_results : Z
}.

(** How an iteration of the page loop ends: the loop goes on with the next
    page, or is left by [break]. *)
Inductive Control : Type := Continue | Break.

Section Collector.

(** The remote service, and the parser behind [pd.to_datetime]:
    [parse_datetime source s] is the instant the string [s] is read as in
    a column whose format [pandas] infers from the string [source]; the
    strings of a column without such an element ([source] is [None]) are
    read one by one.  It is [None] for a string that cannot be read that
    way, for which [pandas] raises [ValueError]. *)
Variable server : Server.
Variable parse_datetime : option string -> string -> option Z.

Variable self : Collector.

(** [get_locations(self, city, country="US", limit=10)]: what it returns
    is the object under [results], whatever that is, or the empty list. *)
Definition get_locations (city country : string) (limit : Z) : M Value :=
  let url := (base_url self ++ "/locations")%string in
  let params := [("city", VStr city); ("country", VStr country);
                 ("limit", VNum (inject_Z limit))] in
  try_except
    (log LvInfo (MsgMakingRequest url) ;;
     log LvInfo (MsgWithParams params) ;;
     log LvInfo (MsgUsingHeaders (self_headers self)) ;;
     response <- requests_get server (mkRequest url params (self_headers self)) ;;
     log LvInfo (MsgStatusCode (status_code response)) ;;
     log LvInfo MsgResponseHeaders ;;
     raise_for_status response ;;
     data <- lift (response_json response) ;;
     locations <- lift (py_get "results" data (VList [])) ;;
     (if negb (truthy locations)
      then log LvWarning (MsgNoLocations city country)
      else
        n <- lift (py_len locations) ;;
        log LvInfo (MsgFoundLocations n city country)) ;;
     ret locations)
    is_RequestException
    (fun e =>
       log LvError (MsgLocationsError city country e) ;;
       match response_text e with
       | Some t => log LvError (MsgResponseText t)
       | None => ret tt
       end ;;
       ret (VList [])).

(** *** [_process_data] *)

(** [lambda x: x['utc'] if isinstance(x, dict) and 'utc' in x else x] *)
Definition utc_of (x : Value) : Value :=
  match x with
  | VDict d =>
      match dict_get "utc" d with
      | Some v => v
      | None => x
      end
  | _ => x
  end.

(** One element of [pd.to_datetime]: a missing element stays missing, a
    timestamp stays, a string is read by the format of the column.  Dicts
    and lists are refused with an exception that depends on how the column
    is read; neither that nor numeric dates are modelled. *)
Definition convert (source : option string) (x : Value) : Result Value :=
  match x with
  | VNull => Ok VNull
  | VTimestamp t => Ok (VTimestamp t)
  | VStr s =>
      if is_nat_string s then Ok VNull
      else
        match parse_datetime source s with
        | Some t => Ok (VTimestamp t)
        | None => Raise (ValueError "time data doesn't match format")
        end
  | _ => Raise (OutsideModel "date that is neither a string nor a timestamp")
  end.

(** [pd.to_datetime] of a column: every string is read by the format
    inferred from the first element that is not missing.  What depends on
    the time zones of several elements is not modelled. *)
Definition to_datetime (values : list Value) : Result (list Value) :=
  rmap (convert (format_source values)) values.

Definition raw_columns : list string :=
  ["date"; "parameter"; "value"; "unit"; "location"; "city"; "country"].

Definition key_fields : list string := ["date"; "location"; "city"; "country"].

Definition _process_data (df : DataFrame) : Result DataFrame :=
  if empty df then Ok df
  else
    rbind (getitem_columns raw_columns df) (fun processed_df =>
    rbind (to_datetime (map utc_of (column_cells "date" processed_df))) (fun dates =>
    let processed_df := assign_values "date" dates processed_df in
    rbind (pivot_table_mean processed_df key_fields "parameter" "value") (fun table =>
    reset_index table))).

(** *** [fetch_air_quality_data] *)

Section Fetch.

(** The location id is whatever the caller read from a location
    record; the code only formats it into requests and log lines. *)
Variable location_id : Value.
Variables start_date end_date : string.
Variable max_pages : Z.

Definition measurements_request (parameter : string) (page : Z) : Request :=
  mkRequest (base_url self ++ "/measurements")%string
    [("location_id", location_id);
     ("parameter", VStr parameter);
     ("date_from", VStr start_date);
     ("date_to", VStr end_date);
     ("limit", VNum (inject_Z 100));
     ("page", VNum (inject_Z page))]
    (self_headers self).

(** The body of the [while] loop, [try] and [except] included; the
    increment of [page] is left to [page_loop].  What can raise a
    [RequestException] (the two [requests] calls and [json()]) comes
    before any update of the locals, so the handler resumes with the
    locals of the start of the iteration. *)
Definition iteration (parameter : string) (page : Z) (vars : Locals)
  : M (Control * Locals) :=
  try_except
    (response <- requests_get server (measurements_request parameter page) ;;
     raise_for_status response ;;
     data <- lift (response_json response) ;;
     results <- lift (py_get "results" data (VList [])) ;;
     if negb (truthy results) then ret (Break, vars)
     else
       df <- lift (pd_DataFrame_of results) ;;
       vars' <- (if negb (empty df)
                 then
                   let df := set_column "parameter" (VStr parameter) df in
                   log LvInfo (MsgFetched (len df) parameter location_id page) ;;
                   ret (mkLocals (all_data vars ++ [df]) (total_results vars + len df))
                 else ret vars) ;;
       n <- lift (py_len results) ;;
       if n <? 100 then ret (Break, vars')
       else emit (Slept 200) ;; ret (Continue, vars'))
    is_RequestException
    (fun e =>
       log LvError (MsgFetchError parameter location_id page e) ;;
       match response_text e with
       | Some t => log LvError (MsgResponseText t)
       | None => ret tt
       end ;;
       ret (Break, vars)).

(** [while page <= max_pages: ...] *)
Equations? page_loop (parameter : string) (page : Z) (vars : Locals)
    (tr : list Event) : Result Locals * list Event
    by wf (Z.to_nat (max_pages + 1 - page)) lt :=
  page_loop parameter page vars tr with Z_le_gt_dec page max_pages := {
    | right _ => (Ok vars, tr)
    | left _ with iteration parameter page vars tr := {
        | (Ok (Continue, vars'), tr') => page_loop parameter (page + 1) vars' tr'
        | (Ok (Break, vars'), tr') => (Ok vars', tr')
        | (Raise e, tr') => (Raise e, tr') } }.
Proof. lia. Qed.

(** The body of [for parameter in parameters]. *)
Definition parameter_loop (data : list DataFrame) (parameter : string)
  : M (list DataFrame) :=
  vars <- page_loop parameter 1 (mkLocals data 0) ;;
  (if total_results vars =? 0
   then log LvWarning (MsgNoData parameter location_id)
   else ret tt) ;;
  ret (all_data vars).

Fixpoint for_each_parameter (parameters : list string) (data : list DataFrame)
  : M (list DataFrame) :=
  match parameters with
  | [] => ret data
  | parameter :: rest =>
      data' <- parameter_loop data parameter ;;
      for_each_parameter rest data'
  end.

(** [fetch_air_quality_data(self, location_id, start_date, end_date,
    parameters=None, max_pages=10)] *)
Definition fetch_air_quality_data (parameters : option (list string)) : M DataFrame :=
  let parameters :=
    match parameters with
    | None => default_parameters
    | Some ps => ps
    end in
  data <- for_each_parameter parameters [] ;;
  if is_nil data then ret empty_frame
  else
    combined_df <- lift (pd_concat data) ;;
    processed_df <- lift (_process_data combined_df) ;;
    ret processed_df.

End Fetch.

End Collector.

(** [s.lower().replace(' ', '_')] on ASCII text. *)
Definition lower_char (c : Ascii.ascii) : Ascii.ascii :=
  let n := Ascii.nat_of_ascii c in
  if (Nat.leb 65 n && Nat.leb n 90)%bool then Ascii.ascii_of_nat (n + 32) else c.

Fixpoint slug (s : string) : string :=
  match s with
  | EmptyString => EmptyString
  | String c s' =>
      String (if Ascii.eqb c " " then "_"%char else lower_char c) (slug s')
  end.

(** [location_name.lower()]: only a string has the method. *)
Definition str_of (v : Value) : Result string :=
  match v with
  | VStr s => Ok s
  | _ => Raise (AttributeError "object has no attribute 'lower'")
  end.

Section Main.

Variable server : Server.
Variable parse_datetime : option string -> string -> option Z.

(** The environment variable and the two renderings of the clock
    ([datetime.now()] and thirty days before). *)
Variable OPENAQ_API_KEY : option string.
Variables start_date_str end_date_str : string.

Definition cities : list string := ["Los Angeles"; "New York"; "Chicago"].

(** The body of [for loc in locations]. *)
Definition collect_location (collector : Collector) (city : string) (loc : Value)
  : M unit :=
  location_id <- lift (py_getitem "id" loc) ;;
  location_name <- lift (py_getitem "name" loc) ;;
  log LvInfo (MsgFetchingLocation city location_name location_id) ;;
  df <- fetch_air_quality_data server parse_datetime collector location_id
          start_date_str end_date_str default_max_pages None ;;
  if negb (empty df)
  then
    let output_dir := "data/raw" in
    emit (MadeDirs output_dir) ;;
    name <- lift (str_of location_name) ;;
    let filename :=
      (output_dir ++ "/" ++ slug city ++ "_" ++ slug name ++ "_air_quality.csv")%string in
    emit (CsvWritten filename df) ;;
    log LvInfo (MsgSaved city location_name filename)
  else log LvWarning (MsgNoneCollected city location_name).

(** The body of [for city in cities]. *)
Definition collect_city (collector : Collector) (country city : string) : M unit :=
  log LvInfo (MsgLookingUp city country) ;;
  locations <- get_locations server collector city country 3 ;;
  if negb (truthy locations) then log LvWarning (MsgSkippingCity city)
  else
    locs <- lift (py_iter locations) ;;
    for_each locs (collect_location collector city).

Definition main : M unit :=
  try_except
    (collector <- init OPENAQ_API_KEY ;;
     let country := "US" in
     for_each cities (collect_city collector country))
    is_Exception
    (fun e =>
       if is_ValueError e
       then log LvError (MsgError e) ;; log LvError MsgSetApiKey
       else log LvError (MsgUnexpected e)).

End Main.

End DataCollector.

(** ** [collect_data.py] *)

Module CollectData.

Record Station : Type := mkStation {
  name : string;
  lat : Q;
  lon : Q
}.

Definition get_nyc_stations : Dict Station :=
  [("36-005-0112", mkStation "IS 52 - Bronx" (40813 # 1000) (- 73913 # 1000));
   ("36-081-0124", mkStation "PS 19 - Queens" (40743 # 1000) (- 73891 # 1000));
   ("36-047-0010", mkStation "PS 274 - Brooklyn" (40621 # 1000) (- 73912 # 1000));
   ("36-061-0014", mkStation "CCNY - Manhattan" (40819 # 1000) (- 73949 # 1000))].

(** [df[df[c].isin(values)]]: [KeyError] when [c] is not a column. *)
Definition filter_isin (c : string) (values : list string) (df : DataFrame)
  : Result DataFrame :=
  if mem c (columns df)
  then Ok (mkDataFrame (columns df)
             (filter (fun r => match cell c r with
                               | VStr s => mem s values
                               | _ => false
                               end) (rows df)))
  else Raise (KeyError [c]).

(** [df[c].map(d)] for one row: the image of the cell, missing when the
    cell is not a key of [d]. *)
Definition map_value (d : Dict string) (v : Value) : Value :=
  match v with
  | VStr s =>
      match dict_get s d with
      | Some s' => VStr s'
      | None => VNull
      end
  | _ => VNull
  end.

(** [df[c].value_counts()], as far as the program goes: it is printed. *)
Definition value_counts (c : string) (df : DataFrame) : Result Message :=
  if mem c (columns df) then Ok (MsgValueCounts c df) else Raise (KeyError [c]).

Section Epa.

Variable server : Server.

(** The renderings of [datetime.now()] the program uses: the bounds of the
    thirty-day window ([%Y%m%d]) and the stamp of the file name. *)
Variables bdate edate timestamp : string.

(** What the function returns is the decoded body, whatever that is, or
    [None]. *)
Definition fetch_epa_data : M Value :=
  let base_url := "https://aqs.epa.gov/data/api/dailyData/byState" in
  let params :=
    [("email", VStr "test@example.com");
     ("key", VStr "test");
     ("param", VStr "42101,42401,42602,44201,88101");
     ("bdate", VStr bdate);
     ("edate", VStr edate);
     ("state", VStr "36")] in
  try_except
    (response <- requests_get server (mkRequest base_url params []) ;;
     if status_code response =? 200 then lift (response_json response)
     else
       emit (Printed (MsgEpaStatus (status_code response))) ;;
       emit (Printed (MsgEpaResponse (text response))) ;;
       ret VNull)
    is_Exception
    (fun e => emit (Printed (MsgEpaException e)) ;; ret VNull).

(** [data and 'Data' in data], as the [if] reads it: the membership is
    tested only for a [data] that is true. *)
Definition has_data (data : Value) : Result bool :=
  if truthy data then py_contains "Data" data else Ok false.

Definition main : M unit :=
  emit (MadeDirs "data/raw") ;;
  emit (Printed MsgGettingStations) ;;
  let stations := get_nyc_stations in
  emit (Printed (MsgFoundStations (Z.of_nat (List.length stations)))) ;;
  emit (Printed MsgFetchingEpa) ;;
  data <- fetch_epa_data ;;
  found <- lift (has_data data) ;;
  if found : bool
  then
      records <- lift (py_getitem "Data" data) ;;
      df <- lift (pd_DataFrame_of records) ;;
      df <- lift (filter_isin "site_number" (keys stations) df) ;;
      let station_names := map (fun kv => (fst kv, name (snd kv))) stations in
      let df := assign_column "station_name"
                  (fun r => map_value station_names (cell "site_number" r)) df in
      let output_file := ("data/raw/nyc_air_quality_" ++ timestamp ++ ".csv")%string in
      emit (CsvWritten output_file df) ;;
      emit (Printed (MsgDataSaved output_file)) ;;
      emit (Printed MsgSummaryHeader) ;;
      emit (Printed (MsgTotal (len df))) ;;
      emit (Printed MsgParametersHeader) ;;
      counts <- lift (value_counts "parameter_name" df) ;;
      emit (Printed counts) ;;
      emit (Printed MsgStationsHeader) ;;
      counts <- lift (value_counts "station_name" df) ;;
      emit (Printed counts)
  else emit (Printed MsgNoMeasurements).

End Epa.

End CollectData.

(** ** Vocabulary of the statements

    Observations on a run of [fetch_air_quality_data], defined from the
    functions above: what a page request obtains, which frame a page adds,
    which requests a trace holds. *)

Import DataCollector.

Set Warnings "-notation-for-abbreviation".

(** The requests of a trace, in order. *)
Definition gets (tr : list Event) : list Request :=
  flat_map (fun ev => match ev with HttpGet r => [r] | _ => [] end) tr.

(** [page], [page + 1], ...: [n] page numbers. *)
Fixpoint pages_from (page : Z) (n : nat) : list Z :=
  match n with
  | O => []
  | S n' => page :: pages_from (page + 1) n'
  end.

Definition request_parameter (req : Request) : option string :=
  match dict_get "parameter" (params req) with
  | Some (VStr s) => Some s
  | _ => None
  end.

(** The requests of a trace that ask for [parameter]. *)
Definition requests_for (parameter : string) (tr : list Event) : list Request :=
  filter (fun req => match request_parameter req with
                     | Some s => String.eqb s parameter
                     | None => false
                     end) (gets tr).

Definition csv_tables (tr : list Event) : list DataFrame :=
  flat_map (fun ev => match ev with CsvWritten _ df => [df] | _ => [] end) tr.

Definition fresh : Locals := mkLocals [] 0.

(** A run that started from empty locals and an empty trace, replayed after
    [vars] and [tr]. *)
Definition extend (vars : Locals) (tr : list Event) (out : Result Locals * list Event)
  : Result Locals * list Event :=
  match out with
  | (Ok v, e) =>
      (Ok (mkLocals (all_data vars ++ all_data v) (total_results vars + total_results v)),
       tr ++ e)
  | (Raise x, e) => (Raise x, tr ++ e)
  end.

Section Vocabulary.

Variable server : Server.
Variable self : Collector.
Variable location_id : Value.
Variables start_date end_date : string.
Variable max_pages : Z.

Local Notation request := (measurements_request self location_id start_date end_date).

(** What the [try] block of an iteration obtains for a page: the records
    of [results] (none when [results] is false: an empty list, [null],
    ...), or the exception raised on the way, by [requests.get],
    [raise_for_status], [json()], [get] or the table constructor. *)
Definition page_outcome (parameter : string) (page : Z) : Result (list Row) :=
  fst ((response <- requests_get server (request parameter page) ;;
        raise_for_status response ;;
        data <- lift (response_json response) ;;
        results <- lift (py_get "results" data (VList [])) ;;
        if negb (truthy results) then ret [] else lift (table_records results)) []).

(** The frame an iteration appends to [all_data] for a page: none when
    [df.empty]. *)
Definition fetched (parameter : string) (results : list Row) : option DataFrame :=
  let df := pd_DataFrame results in
  if empty df then None else Some (set_column "parameter" (VStr parameter) df).

(** The service answers the pages [page], [page + 1], ... of [parameter]
    with the given lists of results. *)
Fixpoint served (parameter : string) (page : Z) (pages : list (list Row)) : Prop :=
  match pages with
  | [] => True
  | results :: rest =>
      page_outcome parameter page = Ok results /\ served parameter (page + 1) rest
  end.

Definition add_page (parameter : string) (results : list Row) (vars : Locals) : Locals :=
  match fetched parameter results with
  | Some df => mkLocals (all_data vars ++ [df]) (total_results vars + len df)
  | None => vars
  end.

Definition page_log (parameter : string) (page : Z) (results : list Row) : list Event :=
  match fetched parameter results with
  | Some df => [Logged LvInfo (MsgFetched (len df) parameter location_id page)]
  | None => []
  end.

Definition error_log (parameter : string) (page : Z) (e : Exn) : list Event :=
  Logged LvError (MsgFetchError parameter location_id page e) ::
  match response_text e with
  | Some t => [Logged LvError (MsgResponseText t)]
  | None => []
  end.

Definition frames (parameter : string) (pages : list (list Row)) : list DataFrame :=
  flat_map (fun results => option_to_list (fetched parameter results)) pages.

(** The events of a run of full pages. *)
Fixpoint full_events (parameter : string) (page : Z) (pages : list (list Row))
  : list Event :=
  match pages with
  | [] => []
  | results :: rest =>
      HttpGet (request parameter page) :: page_log parameter page results ++
      Slept 200 :: full_events parameter (page + 1) rest
  end.

(** What the loop of one parameter adds to [all_data] and to the trace
    when it runs on its own, and the exception that ends it, if any (a
    [RequestException] does not: it is handled inside the loop). *)
Definition contribution (parameter : string) : list DataFrame :=
  match fst (parameter_loop server self location_id start_date end_date max_pages
               [] parameter []) with
  | Ok data => data
  | Raise _ => []
  end.

Definition events_of (parameter : string) : list Event :=
  snd (parameter_loop server self location_id start_date end_date max_pages
         [] parameter []).

Definition failure (parameter : string) : option Exn :=
  match fst (parameter_loop server self location_id start_date end_date max_pages
               [] parameter []) with
  | Ok _ => None
  | Raise e => Some e
  end.

(** The parameters whose loops a call runs: those of the list up to the
    first whose loop raises, that one included; and the exception of that
    one. *)
Fixpoint ran (parameters : list string) : list string :=
  match parameters with
  | [] => []
  | parameter :: rest =>
      parameter :: match failure parameter with
                   | None => ran rest
                   | Some _ => []
                   end
  end.

Fixpoint first_failure (parameters : list string) : option Exn :=
  match parameters with
  | [] => None
  | parameter :: rest =>
      match failure parameter with
      | None => first_failure rest
      | Some e => Some e
      end
  end.

(** A parameter whose loop ends normally without having kept a frame. *)
Definition silent (parameter : string) : bool :=
  match failure parameter with
  | None => is_nil (contribution parameter)
  | Some _ => false
  end.

End Vocabulary.

(** The request of [get_locations]. *)
Definition locations_request (self : Collector) (city country : string) (limit : Z)
  : Request :=
  mkRequest (base_url self ++ "/locations")%string
    [("city", VStr city); ("country", VStr country); ("limit", VNum (inject_Z limit))]
    (self_headers self).

(** The request of [fetch_epa_data]. *)
Definition epa_request (bdate edate : string) : Request :=
  mkRequest "https://aqs.epa.gov/data/api/dailyData/byState"
    [("email", VStr "test@example.com");
     ("key", VStr "test");
     ("param", VStr "42101,42401,42602,44201,88101");
     ("bdate", VStr bdate);
     ("edate", VStr edate);
     ("state", VStr "36")]
    [].

(** A failed EPA fetch: no reply, or a status other than 200; and what
    [fetch_epa_data] prints for it. *)
Definition epa_failure (resp : Response) : Prop :=
  match resp with
  | NoReply => True
  | Reply r => status_code r <> 200
  end.

Definition epa_failure_report (resp : Response) : list Event :=
  match resp with
  | NoReply => [Printed (MsgEpaException ConnectionError)]
  | Reply r => [Printed (MsgEpaStatus (status_code r)); Printed (MsgEpaResponse (text r))]
  end.

(** The element the format of the dates of a raw table is inferred
    from. *)
Definition date_source (raw : list Row) : option string :=
  format_source (map (fun r => utc_of (cell "date" r)) raw).

Section ReshapeVocabulary.

Variable parse_datetime : option string -> string -> option Z.

(** The dates of the table are read by the format of [source]. *)
Variable source : option string.

(** What a raw row contributes to the pivot of [_process_data], read off
    its cells: nothing ([None]) when its date, location, city, country or
    parameter is missing, else its composite key, its parameter and its
    value, which may be missing.  The value is read only in the second
    case. *)
Definition raw_entry (r : Row) : Result (option Entry) :=
  rbind (convert parse_datetime source (utc_of (cell "date" r))) (fun d =>
  rbind (rmap label_of [d; cell "location" r; cell "city" r; cell "country" r]) (fun ks =>
  rbind (column_label_of (cell "parameter" r)) (fun c =>
  match all_some ks, c with
  | Some k, Some c' =>
      rbind (numeric_of (cell "value" r)) (fun v => Ok (Some (mkEntry k c' v)))
  | _, _ => Ok None
  end))).

(** A raw row that reaches the table: all four key fields are present, and
    so is its value; [k] is its composite key and [p] its parameter. *)
Definition measured (r : Row) (k : list Label) (p : string) : Prop :=
  exists v, raw_entry r = Ok (Some (mkEntry k p (Some v))).

End ReshapeVocabulary.

Section TableVocabulary.

(** The row of the reshaped table for the key [k]. *)
Definition table_row (kept : list Entry) (k : list Label) : Row :=
  combine key_fields (map value_of_label k) ++
  map (fun c => (c, group_mean kept k c)) (pivot_labels kept).

(** The reshaped table of the entries [es] of the raw rows. *)
Definition reshaped (es : list (option Entry)) : DataFrame :=
  let kept := kept_entries es in
  mkDataFrame (key_fields ++ pivot_labels kept) (map (table_row kept) (pivot_index kept)).

(** The composite key of a row of a table. *)
Definition composite_key (r : Row) : list Value := map (fun c => cell c r) key_fields.

End TableVocabulary.

(** *** The driver *)

(** The columns of a table are key fields or default parameters. *)
Definition default_columns (df : DataFrame) : Prop :=
  forall c, In c (columns df) -> In c key_fields \/ In c default_parameters.

(** An event that is not a CSV write, or writes a table of default columns. *)
Definition writes_default_columns (ev : Event) : Prop :=
  match ev with
  | CsvWritten _ df => default_columns df
  | _ => True
  end.

(** A computation only appends events, none of them a CSV write of
    another kind of table, and its value, if any, satisfies [Q]. *)
Definition sat {A : Type} (m : M A) (Q : A -> Prop) : Prop :=
  forall tr, exists evs,
    snd (m tr) = tr ++ evs /\ Forall writes_default_columns evs /\
    forall a, fst (m tr) = Ok a -> Q a.

(** The events of the measurement loops. *)
Definition is_fetch_event (ev : Event) : Prop :=
  match ev with
  | HttpGet _ | Logged _ _ | Slept _ => True
  | _ => False
  end.

(** ** Sample inputs

    A small world for the examples: a collector, a parser that knows two
    instants, measurement records and a service with one behaviour per
    parameter or city. *)

Module Sample.

Definition collector : Collector :=
  mkCollector "https://api.openaq.org/v3" "0123456789abcdef"
    [("Accept", "application/json");
     ("User-Agent", "AirQualityDataCollector/1.0");
     ("X-API-Key", "0123456789abcdef")].

Definition midnight : string := "2024-01-01T00:00:00Z".

(** The parser reads two instants in the format of [midnight], in a
    column whose format is inferred from a string of that format. *)
Definition parse (source : option string) (s : string) : option Z :=
  match source with
  | Some first =>
      if Nat.eqb (String.length first) (String.length midnight)
      then
        if String.eqb s midnight then Some 1704067200000000000
        else if String.eqb s "2024-01-01T01:00:00Z" then Some 1704070800000000000
        else None
      else None
  | None => None
  end.

(** A record of the measurements endpoint. *)
Definition measurement (value : Q) (city : Value) : Row :=
  [("date", VDict [("utc", VStr midnight); ("local", VStr "2023-12-31T16:00:00-08:00")]);
   ("value", VNum value);
   ("unit", VStr "ug/m3");
   ("location", VStr "Downtown");
   ("city", city);
   ("country", VStr "US")].

Definition los_angeles : Value := VStr "Los Angeles".

Definition full_page : list Row := repeat (measurement (inject_Z 12) los_angeles) 100.

Definition short_page : list Row :=
  [measurement (inject_Z 10) los_angeles; measurement (inject_Z 20) los_angeles].

Definition station : Row := [("id", VNum (inject_Z 8118)); ("name", VStr "Downtown")].

Definition reply (results : list Row) : Response :=
  Reply (mkHttpResponse 200 "OK" (Some (VDict [("results", VList (map VDict results))]))).

Definition request_page (req : Request) : option Z :=
  match dict_get "page" (params req) with
  | Some (VNum q) => Some (Qnum q)
  | _ => None
  end.

Definition is_page (req : Request) (parameter : string) (page : Z) : bool :=
  match request_parameter req, request_page req with
  | Some s, Some n => String.eqb s parameter && Z.eqb n page
  | _, _ => false
  end.

Definition is_city (req : Request) (city : string) : bool :=
  match dict_get "city" (params req) with
  | Some (VStr s) => String.eqb s city
  | _ => false
  end.

(** The service:
    - [pm25]: a full page, then a page of two measurements;
    - [pm10]: a full page, then status 503;
    - [o3]: one measurement whose city is missing;
    - [no2]: one record without any field;
    - [so2]: one measurement;
    - [unit]: one measurement;
    - the locations of Los Angeles: one station; of New York: no reply; of
      Chicago: status 404; of Boston: status 300 with one station;
    - the EPA endpoint: status 500;
    - anything else: no results. *)
Definition server : Server := fun req =>
  if is_page req "pm25" 1 then reply full_page
  else if is_page req "pm25" 2 then reply short_page
  else if is_page req "pm10" 1 then reply full_page
  else if is_page req "pm10" 2 then Reply (mkHttpResponse 503 "Service Unavailable" None)
  else if is_page req "o3" 1 then reply [measurement (inject_Z 7) VNull]
  else if is_page req "no2" 1 then reply [[]]
  else if is_page req "so2" 1 then reply [measurement (inject_Z 5) los_angeles]
  else if is_page req "unit" 1 then reply [measurement (inject_Z 3) los_angeles]
  else if is_city req "Los Angeles" then reply [station]
  else if is_city req "New York" then NoReply
  else if is_city req "Chicago" then Reply (mkHttpResponse 404 "Not Found" None)
  else if is_city req "Boston"
       then Reply (mkHttpResponse 300 "Multiple Choices"
                     (Some (VDict [("results", VList [VDict station])])))
  else if String.eqb (url req) "https://aqs.epa.gov/data/api/dailyData/byState"
       then Reply (mkHttpResponse 500 "Internal Server Error" None)
  else reply [].

Definition location_id : Value := VNum (inject_Z 8118).

(** A raw table as [fetch_air_quality_data] accumulates it, given the
    parameter of its rows. *)
Definition raw_table (parameter : string) (records : list Row) : DataFrame :=
  set_column "parameter" (VStr parameter) (pd_DataFrame records).

Definition key_cells : Row :=
  [("date", VTimestamp 1704067200000000000); ("location", VStr "Downtown");
   ("city", los_angeles); ("country", VStr "US")].

(** Two raw rows that collide: same key, same parameter, values 10 and 20. *)
Definition raw_row (value : Q) : Row :=
  measurement value los_angeles ++ [("parameter", VStr "pm25")].

Definition collided : DataFrame :=
  mkDataFrame ["date"; "value"; "unit"; "location"; "city"; "country"; "parameter"]
    [raw_row (inject_Z 10); raw_row (inject_Z 20)].

(** The tables these inputs are reshaped to. *)
Definition averaged : DataFrame :=
  mkDataFrame ["date"; "location"; "city"; "country"; "pm25"]
    [key_cells ++ [("pm25", VNum (inject_Z 15))]].

Definition so2_table : DataFrame :=
  mkDataFrame ["date"; "location"; "city"; "country"; "so2"]
    [key_cells ++ [("so2", VNum (inject_Z 5))]].

Definition unit_table : DataFrame :=
  mkDataFrame ["date"; "location"; "city"; "country"; "unit"]
    [key_cells ++ [("unit", VNum (inject_Z 3))]].

Definition start_date : string := "2024-01-01".
Definition end_date : string := "2024-01-31".

End Sample.


(** ** Vocabulary of the further properties *)

(** The pauses and the warnings of a trace, in order. *)
Definition sleeps (tr : list Event) : list Z :=
  flat_map (fun ev => match ev with Slept ms => [ms] | _ => [] end) tr.

Definition warnings (tr : list Event) : list Message :=
  flat_map (fun ev => match ev with Logged LvWarning msg => [msg] | _ => [] end) tr.

(** The parameters a call works through. *)
Definition requested (parameters : option (list string)) : list string :=
  match parameters with
  | Some ps => ps
  | None => default_parameters
  end.

(** The values the raw rows hold for a composite key and a parameter, in
    the order of the rows. *)
Definition values_at (parse_datetime : option string -> string -> option Z)
    (raw : list Row) (k : list Label) (p : string) : list Q :=
  flat_map (fun r => match raw_entry parse_datetime (date_source raw) r with
                     | Ok (Some e) =>
                         if key_eqb (entry_key e) k && String.eqb (entry_column e) p
                         then option_to_list (entry_value e)
                         else []
                     | _ => []
                     end) raw.

(** Each string is at most the next one, in the order of [String.leb]. *)
Fixpoint ascending (l : list string) : Prop :=
  match l with
  | a :: ((b :: _) as l') => String.leb a b = true /\ ascending l'
  | _ => True
  end.

(** The file the OpenAQ driver writes for a location of a city. *)
Definition collected_file (city name : string) : string :=
  "data/raw/" ++ slug city ++ "_" ++ slug name ++ "_air_quality.csv".

(** A request to one of the two OpenAQ endpoints that carries the key. *)
Definition openaq_request (key : string) (req : Request) : Prop :=
  dict_get "X-API-Key" (headers req) = Some key /\
  (url req = "https://api.openaq.org/v3/locations" \/
   url req = "https://api.openaq.org/v3/measurements").

(** What the OpenAQ driver may do, given the key of the environment:
    requests to OpenAQ with that key, and writes of tables that are not
    empty to the file of a location of one of its cities. *)
Definition driver_event (key : option string) (ev : Event) : Prop :=
  match ev with
  | HttpGet req => exists k, key = Some k /\ openaq_request k req
  | CsvWritten path df =>
      empty df = false /\
      exists city name, In city cities /\ path = collected_file city name
  | _ => True
  end.

(** A computation only appends events, all of them [good], and its value,
    if any, satisfies [Q]. *)
Definition yields {A : Type} (good : Event -> Prop) (m : M A) (Q : A -> Prop) : Prop :=
  forall tr, exists evs,
    snd (m tr) = tr ++ evs /\ Forall good evs /\
    forall a, fst (m tr) = Ok a -> Q a.

(** An ASCII capital letter. *)
Definition is_upper (c : Ascii.ascii) : bool :=
  (Nat.leb 65 (Ascii.nat_of_ascii c) && Nat.leb (Ascii.nat_of_ascii c) 90)%bool.

(** A record of one of the four stations of [get_nyc_stations]. *)
Definition is_station_record (r : Row) : bool :=
  match cell "site_number" r with
  | VStr s => mem s (keys CollectData.get_nyc_stations)
  | _ => false
  end.

(** The file the EPA driver writes. *)
Definition epa_file (timestamp : string) : string :=
  "data/raw/nyc_air_quality_" ++ timestamp ++ ".csv".

(** The records of a successful EPA fetch: a reply of status 200 whose
    body decodes to an object with the member [Data], a list of records
    or [null]. *)
Definition epa_records (resp : Response) : option (list Row) :=
  match resp with
  | Reply r =>
      if status_code r =? 200
      then
        match json r with
        | Some (VDict d) =>
            match dict_get "Data" d with
            | Some records =>
                match table_records records with
                | Ok rows => Some rows
                | Raise _ => None
                end
            | None => None
            end
        | _ => None
        end
      else None
  | NoReply => None
  end.

(** More sample services, for the examples of the further properties. *)
Module Cases.

(** Every request is answered with one record that holds a value and
    nothing else. *)
Definition bare : Server := fun _ => Sample.reply [[("value", VNum (inject_Z 1))]].

(** No request gets a reply. *)
Definition offline : Server := fun _ => NoReply.

(** Records of the EPA service: one of the Bronx station, one of a site
    that is not among the four stations. *)
Definition bronx : Row :=
  [("site_number", VStr "36-005-0112"); ("parameter_name", VStr "Ozone");
   ("arithmetic_mean", VNum (31 # 1000))].

Definition elsewhere : Row :=
  [("site_number", VStr "36-001-0012"); ("parameter_name", VStr "Ozone");
   ("arithmetic_mean", VNum (29 # 1000))].

(** The EPA service answers with the given records. *)
Definition epa (records : list Row) : Server :=
  fun _ => Reply (mkHttpResponse 200 "OK" (Some (VDict [("Data", VList (map VDict records))]))).

(** A raw table whose dates are flat strings. *)
Definition flat_dates : DataFrame :=
  mkDataFrame (columns Sample.collided)
    (map (fun r => ("date", VStr Sample.midnight) :: tl r) (rows Sample.collided)).

(** The two colliding rows in a table that has no column [unit]. *)
Definition without_unit : DataFrame :=
  let cols := ["date"; "value"; "location"; "city"; "country"; "parameter"] in
  mkDataFrame cols (map (reindex cols) (rows Sample.collided)).

(** Two colliding rows whose city is missing. *)
Definition nowhere : DataFrame :=
  mkDataFrame (columns Sample.collided)
    [Sample.measurement (inject_Z 10) VNull ++ [("parameter", VStr "pm25")];
     Sample.measurement (inject_Z 20) VNull ++ [("parameter", VStr "pm25")]].

(** The two colliding rows, the date of the second in another format. *)
Definition mixed_dates : DataFrame :=
  mkDataFrame (columns Sample.collided)
    [Sample.raw_row (inject_Z 10);
     ("date", VStr "01/01/2024 00:00") :: tl (Sample.raw_row (inject_Z 20))].

(** Replies of status 200: a body that is not JSON, a JSON array, and an
    object whose [results] is [null]. *)
Definition garbled : Server :=
  fun _ => Reply (mkHttpResponse 200 "<html>Bad Gateway</html>" None).

Definition listing : Server :=
  fun _ => Reply (mkHttpResponse 200 "[]" (Some (VList []))).

Definition null_results : Server :=
  fun _ => Reply (mkHttpResponse 200 "{results: null}" (Some (VDict [("results", VNull)]))).

End Cases.


(** * Properties *)

Unset Implicit Arguments.

Lemma filter_none {A : Type} (f : A -> bool) (l : list A) :
  (forall x, In x l -> f x = false) -> filter f l = [].
Proof.
  induction l as [|a l IH]; intros H; cbn; [reflexivity|].
  rewrite (H a) by now left. apply IH. intros x Hx. apply H. now right.
Qed.

(** ** Lists, results, labels *)

Lemma rmap_ok {A B : Type} (f : A -> Result B) : forall l l',
  rmap f l = Ok l' <-> Forall2 (fun a b => f a = Ok b) l l'.
Proof.
  induction l as [|a l IH]; intros l'; cbn.
  - split.
    + intros [= <-]. constructor.
    + intros H. inversion H. reflexivity.
  - destruct (f a) as [b|x] eqn:Hfa; cbn.
    + destruct (rmap f l) as [bs|x] eqn:Hl; cbn.
      * split.
        -- intros [= <-]. constructor; [assumption|]. now apply IH.
        -- intros H. inversion H as [|? b' ? bs' Hb Hbs]; subst.
           apply IH in Hbs. congruence.
      * split; [discriminate|].
        intros H. inversion H as [|? b' ? bs' Hb Hbs]; subst.
        apply IH in Hbs. discriminate.
    + split; [discriminate|].
      intros H. inversion H; subst. congruence.
Qed.

Lemma rmap_raise {A B : Type} (f : A -> Result B) : forall l x,
  rmap f l = Raise x -> exists a, In a l /\ f a = Raise x.
Proof.
  induction l as [|a l IH]; intros x; cbn; [discriminate|].
  destruct (f a) as [b|y] eqn:Hfa; cbn.
  - destruct (rmap f l) as [bs|y] eqn:Hl; cbn; [discriminate|].
    intros [= <-]. destruct (IH y eq_refl) as (a' & Hin & Ha'). exists a'. auto.
  - intros [= <-]. exists a. auto.
Qed.

Section Distinct.
Context {A : Type} (eqb : A -> A -> bool).
Hypothesis eqb_eq : forall x y, eqb x y = true <-> x = y.

Lemma existsb_eqb x l : existsb (eqb x) l = true <-> In x l.
Proof.
  rewrite existsb_exists. split.
  - intros (y & Hy & Heq). apply eqb_eq in Heq. now subst.
  - intros H. exists x. split; [assumption|]. now apply eqb_eq.
Qed.

Lemma distinct_step_spec : forall l acc,
  let out := fold_left (fun acc x => if existsb (eqb x) acc then acc else acc ++ [x]) l acc in
  (forall x, In x out <-> In x acc \/ In x l) /\ (NoDup acc -> NoDup out).
Proof.
  induction l as [|a l IH]; intros acc; cbn.
  - split; [intros x; tauto|auto].
  - destruct (existsb (eqb a) acc) eqn:Hex.
    + apply existsb_eqb in Hex. destruct (IH acc) as [Hin Hnd]. split; [|assumption].
      intros x. rewrite Hin. intuition (subst; auto).
    + destruct (IH (acc ++ [a])) as [Hin Hnd]. split.
      * intros x. rewrite Hin, in_app_iff. cbn. tauto.
      * intros Hacc. apply Hnd. apply NoDup_app; [assumption|repeat constructor; auto|].
        intros x Hx [<-|[]]. apply existsb_eqb in Hx. congruence.
Qed.

Lemma In_distinct_by l x : In x (distinct_by eqb l) <-> In x l.
Proof.
  unfold distinct_by. destruct (distinct_step_spec l []) as [Hin _].
  rewrite Hin. cbn. tauto.
Qed.

Lemma NoDup_distinct_by l : NoDup (distinct_by eqb l).
Proof.
  unfold distinct_by. destruct (distinct_step_spec l []) as [_ Hnd].
  apply Hnd. constructor.
Qed.
End Distinct.

Lemma insert_sorted_perm {A : Type} (leb : A -> A -> bool) x : forall l,
  Permutation (insert_sorted leb x l) (x :: l).
Proof.
  induction l as [|y l IH]; cbn; [reflexivity|].
  destruct (leb x y); [reflexivity|].
  rewrite IH. apply perm_swap.
Qed.

Lemma sort_perm {A : Type} (leb : A -> A -> bool) : forall l, Permutation (sort leb l) l.
Proof.
  induction l as [|x l IH]; cbn; [reflexivity|].
  rewrite insert_sorted_perm. now constructor.
Qed.

Lemma label_eqb_eq a b : label_eqb a b = true <-> a = b.
Proof.
  destruct a as [[p1 p2]|s|t], b as [[q1 q2]|s'|t']; cbn;
    try (split; [discriminate|congruence]).
  - rewrite andb_true_iff, Z.eqb_eq, Pos.eqb_eq. split; [intros [-> ->]; reflexivity|].
    intros [= -> ->]. auto.
  - rewrite String.eqb_eq. split; congruence.
  - rewrite Z.eqb_eq. split; congruence.
Qed.

Lemma key_eqb_eq : forall k1 k2, key_eqb k1 k2 = true <-> k1 = k2.
Proof.
  induction k1 as [|a k1 IH]; intros [|b k2]; cbn; try (split; [discriminate|congruence]).
  - tauto.
  - rewrite andb_true_iff, label_eqb_eq, IH. split; [intros [-> ->]; reflexivity|].
    intros [= -> ->]. auto.
Qed.

Lemma Forall2_compose {A B C : Type} (P : A -> B -> Prop) (Q : B -> C -> Prop) :
  forall l l'',
    Forall2 (fun a c => exists b, P a b /\ Q b c) l l'' <->
    exists l', Forall2 P l l' /\ Forall2 Q l' l''.
Proof.
  induction l as [|a l IH]; intros l''.
  - split.
    + intros H. inversion H. exists []. split; constructor.
    + intros (l' & H1 & H2). inversion H1; subst. inversion H2. constructor.
  - split.
    + intros H. inversion H as [|? c ? cs (b & Hab & Hbc) Hrest]; subst.
      apply IH in Hrest. destruct Hrest as (l' & H1 & H2).
      exists (b :: l'). split; constructor; assumption.
    + intros (l' & H1 & H2). inversion H1 as [|? b ? bs Hab Hrest1]; subst.
      inversion H2 as [|? c ? cs Hbc Hrest2]; subst.
      constructor; [eauto|]. apply IH. eauto.
Qed.

Lemma Forall2_map_l {A A' B : Type} (f : A -> A') (P : A' -> B -> Prop) : forall l l',
  Forall2 P (map f l) l' <-> Forall2 (fun a b => P (f a) b) l l'.
Proof.
  induction l as [|a l IH]; intros l'; cbn.
  - split; intros H; inversion H; constructor.
  - split; intros H; inversion H; subst; constructor; try assumption; now apply IH.
Qed.

Lemma Forall2_iff {A B : Type} (P Q : A -> B -> Prop) :
  (forall a b, P a b <-> Q a b) -> forall l l', Forall2 P l l' <-> Forall2 Q l l'.
Proof.
  intros H l l'. split; intros HF; induction HF; constructor; try assumption; now apply H.
Qed.


Lemma mem_In c l : mem c l = true <-> In c l.
Proof. apply (existsb_eqb String.eqb String.eqb_eq). Qed.

Lemma mem_false c l : mem c l = false <-> ~ In c l.
Proof. rewrite <- mem_In. destruct (mem c l); split; congruence. Qed.

Lemma mem_app c a b : mem c (a ++ b) = mem c a || mem c b.
Proof. apply existsb_app. Qed.

Lemma dict_get_app {V : Type} k (a b : Dict V) :
  dict_get k (a ++ b) = match dict_get k a with Some v => Some v | None => dict_get k b end.
Proof.
  induction a as [|[k' v] a IH]; cbn; [reflexivity|].
  destruct (String.eqb k k'); [reflexivity|apply IH].
Qed.

Lemma dict_get_tabulate {V : Type} (f : string -> V) k : forall l,
  dict_get k (map (fun c => (c, f c)) l) = if mem k l then Some (f k) else None.
Proof.
  induction l as [|c l IH]; cbn; [reflexivity|].
  destruct (String.eqb_spec k c) as [->|]; cbn; [reflexivity|apply IH].
Qed.

Lemma cell_reindex c cols r : In c cols -> cell c (reindex cols r) = cell c r.
Proof.
  intros Hc. unfold reindex. unfold cell at 1, dict_get_default.
  rewrite (dict_get_tabulate (fun c => cell c r)). now rewrite (proj2 (mem_In _ _) Hc).
Qed.

Lemma empty_false df : empty df = false <-> columns df <> [] /\ rows df <> [].
Proof.
  unfold empty. destruct (columns df), (rows df); split; try discriminate;
    try (intros [? ?]; congruence); (split; discriminate) || reflexivity.
Qed.

Lemma rbind_raise {A B : Type} (r : Result A) (k : A -> Result B) x :
  rbind r k = Raise x -> r = Raise x \/ exists a, r = Ok a /\ k a = Raise x.
Proof.
  destruct r as [a|y]; cbn; intros H; [right; eauto|left].
  injection H as ->. reflexivity.
Qed.

Lemma rbind_ok {A B : Type} (r : Result A) (k : A -> Result B) b :
  rbind r k = Ok b <-> exists a, r = Ok a /\ k a = Ok b.
Proof.
  destruct r as [a|y]; cbn.
  - split; [eauto|]. now intros (a' & [= <-] & H).
  - split; [discriminate|]. now intros (a' & H & _).
Qed.

Lemma rmap_map {A A' B : Type} (f : A' -> Result B) (g : A -> A') : forall l,
  rmap f (map g l) = rmap (fun a => f (g a)) l.
Proof. induction l as [|a l IH]; cbn; [reflexivity|]. now rewrite IH. Qed.

Lemma rmap_length {A B : Type} (f : A -> Result B) l l' :
  rmap f l = Ok l' -> List.length l' = List.length l.
Proof. intros H. apply rmap_ok, Forall2_length in H. now symmetry. Qed.

(** ** Python objects *)

Lemma records_of_map records : records_of (map VDict records) = Some records.
Proof. induction records as [|r records IH]; cbn; [reflexivity|]. now rewrite IH. Qed.

Lemma records_of_some : forall l records,
  records_of l = Some records -> l = map VDict records.
Proof.
  induction l as [|v l IH]; intros records; cbn.
  - now intros [= <-].
  - destruct v as [|q|s|t|d|b|l']; try discriminate.
    destruct (records_of l) as [records'|]; [|discriminate].
    intros [= <-]. cbn. now rewrite (IH records' eq_refl).
Qed.

(** The records of a table made of a true object: the object is the list
    of them, and there is one at least. *)
Lemma table_records_truthy v records :
  truthy v = true -> table_records v = Ok records ->
  v = VList (map VDict records) /\ records <> [].
Proof.
  destruct v as [|q|s|t|d|b|l]; cbn; try (intros; discriminate).
  intros Ht. destruct (records_of l) as [records'|] eqn:Hl; [|discriminate].
  intros [= <-]. apply records_of_some in Hl. subst l. split; [reflexivity|].
  destruct records'; discriminate.
Qed.

Lemma table_records_raise v x : table_records v = Raise x -> is_RequestException x = false.
Proof.
  destruct v as [|q|s|t|d|b|l]; cbn; try discriminate; try (intros [= <-]; reflexivity).
  destruct (records_of l); [discriminate|]. intros [= <-]. reflexivity.
Qed.

Lemma py_get_raise k v default x :
  py_get k v default = Raise x -> is_RequestException x = false.
Proof. destruct v; cbn; try discriminate; intros [= <-]; reflexivity. Qed.

Lemma py_len_raise v x : py_len v = Raise x -> is_RequestException x = false.
Proof. destruct v; cbn; try discriminate; intros [= <-]; reflexivity. Qed.

(** ** Traces *)

Lemma gets_app a b : gets (a ++ b) = gets a ++ gets b.
Proof. apply flat_map_app. Qed.

Lemma warnings_app tr1 tr2 : warnings (tr1 ++ tr2) = warnings tr1 ++ warnings tr2.
Proof. apply flat_map_app. Qed.

Lemma sleeps_app tr1 tr2 : sleeps (tr1 ++ tr2) = sleeps tr1 ++ sleeps tr2.
Proof. apply flat_map_app. Qed.

Lemma csv_tables_app a b : csv_tables (a ++ b) = csv_tables a ++ csv_tables b.
Proof. apply flat_map_app. Qed.

Lemma sleeps_get req tr : sleeps (HttpGet req :: tr) = sleeps tr.
Proof. reflexivity. Qed.

Lemma warnings_get req tr : warnings (HttpGet req :: tr) = warnings tr.
Proof. reflexivity. Qed.

Lemma gets_get req tr : gets (HttpGet req :: tr) = req :: gets tr.
Proof. reflexivity. Qed.

Lemma In_gets req tr : In (HttpGet req) tr -> In req (gets tr).
Proof.
  intros H. unfold gets. apply in_flat_map. exists (HttpGet req). split; [exact H|now left].
Qed.

Lemma length_pages_from : forall n page, List.length (pages_from page n) = n.
Proof. induction n as [|n IH]; intros page; cbn; [reflexivity|now rewrite IH]. Qed.

Lemma pages_from_snoc : forall n page,
  pages_from page (S n) = pages_from page n ++ [page + Z.of_nat n].
Proof.
  induction n as [|n IH]; intros page.
  - cbn. now rewrite Z.add_0_r.
  - change (pages_from page (S (S n))) with (page :: pages_from (page + 1) (S n)).
    rewrite IH. cbn [pages_from app]. do 3 f_equal. lia.
Qed.

Lemma In_pages_from x : forall k page,
  In x (pages_from page k) -> page <= x < page + Z.of_nat k.
Proof.
  induction k as [|k IH]; intros page; [intros []|].
  cbn [pages_from]. intros [<-|H]; [lia|]. apply IH in H. lia.
Qed.

(** ** The page loop *)

Section FetchProperties.

Variable server : Server.
Variable self : Collector.
Variable location_id : Value.
Variables start_date end_date : string.
Variable max_pages : Z.

Local Notation request := (measurements_request self location_id start_date end_date).
Local Notation iteration := (iteration server self location_id start_date end_date).
Local Notation page_loop :=
  (page_loop server self location_id start_date end_date max_pages).
Local Notation parameter_loop :=
  (parameter_loop server self location_id start_date end_date max_pages).
Local Notation for_each_parameter :=
  (for_each_parameter server self location_id start_date end_date max_pages).
Local Notation page_outcome := (page_outcome server self location_id start_date end_date).
Local Notation served := (served server self location_id start_date end_date).
Local Notation page_log := (page_log location_id).
Local Notation error_log := (error_log location_id).
Local Notation full_events := (full_events self location_id start_date end_date).
Local Notation contribution :=
  (contribution server self location_id start_date end_date max_pages).
Local Notation events_of :=
  (events_of server self location_id start_date end_date max_pages).
Local Notation failure :=
  (failure server self location_id start_date end_date max_pages).
Local Notation ran := (ran server self location_id start_date end_date max_pages).
Local Notation first_failure :=
  (first_failure server self location_id start_date end_date max_pages).
Local Notation silent := (silent server self location_id start_date end_date max_pages).

(** An iteration, by what its [try] block obtains: a [RequestException]
    is logged and ends the loop, any other exception leaves the
    iteration. *)
Lemma iteration_spec parameter page vars tr :
  iteration parameter page vars tr =
  match page_outcome parameter page with
  | Raise e =>
      if is_RequestException e
      then (Ok (Break, vars),
            tr ++ HttpGet (request parameter page) :: error_log parameter page e)
      else (Raise e, tr ++ [HttpGet (request parameter page)])
  | Ok [] => (Ok (Break, vars), tr ++ [HttpGet (request parameter page)])
  | Ok results =>
      if Z.of_nat (List.length results) <? 100
      then (Ok (Break, add_page parameter results vars),
            tr ++ HttpGet (request parameter page) :: page_log parameter page results)
      else (Ok (Continue, add_page parameter results vars),
            tr ++ HttpGet (request parameter page) ::
            page_log parameter page results ++ [Slept 200])
  end.
Proof.
  unfold DataCollector.iteration, page_outcome, try_except, bind, requests_get, emit,
    raise_for_status, ret, raise, lift, response_json.
  cbn.
  destruct (server (request parameter page)) as [|r]; cbn.
  { rewrite <- app_assoc. reflexivity. }
  destruct ((400 <=? status_code r) && (status_code r <? 600)); cbn.
  { rewrite <- !app_assoc. reflexivity. }
  destruct (json r) as [data|]; cbn.
  2:{ rewrite <- !app_assoc. reflexivity. }
  destruct (py_get "results" data (VList [])) as [results|x] eqn:Hget; cbn.
  2:{ now rewrite (py_get_raise _ _ _ _ Hget). }
  destruct (truthy results) eqn:Htrue; cbn; [|reflexivity].
  unfold pd_DataFrame_of.
  destruct (table_records results) as [records|x] eqn:Hrec; cbn.
  2:{ now rewrite (table_records_raise _ _ Hrec). }
  destruct (table_records_truthy results records Htrue Hrec) as [-> Hne].
  destruct records as [|row records]; [contradiction|].
  unfold add_page, page_log, fetched, log, emit, py_len. rewrite length_map.
  change (Z.of_nat (List.length (row :: records)))
    with (Z.pos (Pos.of_succ_nat (List.length records))).
  destruct (Z.pos (Pos.of_succ_nat (List.length records)) <? 100);
    destruct (empty (pd_DataFrame (row :: records))) eqn:He; cbn;
    rewrite <- ?app_assoc; reflexivity.
Qed.

Lemma page_loop_step parameter page vars tr :
  page_loop parameter page vars tr =
  if page <=? max_pages then
    match iteration parameter page vars tr with
    | (Ok (Continue, vars'), tr') => page_loop parameter (page + 1) vars' tr'
    | (Ok (Break, vars'), tr') => (Ok vars', tr')
    | (Raise e, tr') => (Raise e, tr')
    end
  else (Ok vars, tr).
Proof.
  rewrite page_loop_equation_1.
  destruct (Z_le_gt_dec page max_pages) as [H|H]; cbn.
  - destruct (Z.leb_spec page max_pages); [|lia].
    destruct (iteration parameter page vars tr) as [[[[]]|]]; reflexivity.
  - destruct (Z.leb_spec page max_pages); [lia|]. reflexivity.
Qed.

Lemma add_page_extend parameter results vars :
  add_page parameter results vars =
  mkLocals (all_data vars ++ all_data (add_page parameter results fresh))
           (total_results vars + total_results (add_page parameter results fresh)).
Proof.
  unfold add_page. destruct (fetched parameter results); cbn.
  - reflexivity.
  - rewrite app_nil_r, Z.add_0_r. destruct vars; reflexivity.
Qed.

Lemma extend_extend vars tr v e out :
  extend vars tr (extend v e out) =
  extend (mkLocals (all_data vars ++ all_data v) (total_results vars + total_results v))
         (tr ++ e) out.
Proof.
  destruct out as [[w|x] f]; cbn; rewrite <- ?app_assoc, ?Z.add_assoc; reflexivity.
Qed.

Lemma snd_extend vars tr out : snd (extend vars tr out) = tr ++ snd out.
Proof. destruct out as [[v|x] e]; reflexivity. Qed.

Lemma page_loop_extend_aux n : forall parameter page vars tr,
  Z.to_nat (max_pages + 1 - page) = n ->
  page_loop parameter page vars tr = extend vars tr (page_loop parameter page fresh []).
Proof.
  induction n as [n IH] using lt_wf_ind. intros parameter page vars tr Hn.
  rewrite (page_loop_step parameter page vars tr), (page_loop_step parameter page fresh []).
  destruct (Z.leb_spec page max_pages) as [Hle|Hgt].
  - rewrite !iteration_spec.
    destruct (page_outcome parameter page) as [[|row results]|e]; cbn [app].
    + cbn. rewrite app_nil_r, Z.add_0_r. destruct vars; reflexivity.
    + destruct (Z.of_nat (List.length (row :: results)) <? 100).
      * cbn [extend]. rewrite (add_page_extend _ _ vars). reflexivity.
      * rewrite (IH (Z.to_nat (max_pages + 1 - (page + 1)))) by lia.
        rewrite (IH (Z.to_nat (max_pages + 1 - (page + 1))) ltac:(lia) parameter (page + 1)
                    (add_page parameter (row :: results) fresh)) by lia.
        rewrite extend_extend. rewrite <- add_page_extend. reflexivity.
    + destruct (is_RequestException e); cbn; [|reflexivity].
      rewrite app_nil_r, Z.add_0_r. destruct vars; reflexivity.
  - cbn. rewrite app_nil_r, app_nil_r, Z.add_0_r. destruct vars; reflexivity.
Qed.

(** A run of the page loop is the run from empty locals and an empty
    trace, replayed after the locals and the trace it starts from. *)
Lemma page_loop_extend parameter page vars tr :
  page_loop parameter page vars tr = extend vars tr (page_loop parameter page fresh []).
Proof. eapply page_loop_extend_aux; reflexivity. Qed.

Lemma gets_page_log parameter page results : gets (page_log parameter page results) = [].
Proof. unfold page_log. destruct (fetched parameter results); reflexivity. Qed.

Lemma gets_error_log parameter page e : gets (error_log parameter page e) = [].
Proof. unfold error_log. destruct (response_text e); reflexivity. Qed.

Lemma warnings_page_log parameter page results :
  warnings (page_log parameter page results) = [].
Proof. unfold page_log. destruct (fetched parameter results); reflexivity. Qed.

Lemma warnings_error_log parameter page e : warnings (error_log parameter page e) = [].
Proof. unfold error_log. destruct (response_text e); reflexivity. Qed.

Lemma sleeps_page_log parameter page results :
  sleeps (page_log parameter page results) = [].
Proof. unfold page_log. destruct (fetched parameter results); reflexivity. Qed.

Lemma sleeps_error_log parameter page e : sleeps (error_log parameter page e) = [].
Proof. unfold error_log. destruct (response_text e); reflexivity. Qed.

Lemma page_log_events parameter page results :
  Forall is_fetch_event (page_log parameter page results).
Proof. unfold page_log. destruct (fetched parameter results); repeat constructor. Qed.

Lemma error_log_events parameter page e : Forall is_fetch_event (error_log parameter page e).
Proof. unfold error_log. destruct (response_text e); repeat constructor. Qed.

Lemma gets_full_events parameter : forall pages page,
  gets (full_events parameter page pages) =
  map (request parameter) (pages_from page (List.length pages)).
Proof.
  induction pages as [|results rest IH]; intros page; cbn [full_events List.length pages_from map].
  - reflexivity.
  - change (HttpGet ?r :: ?l) with ([HttpGet r] ++ l).
    rewrite !gets_app, gets_page_log. cbn. rewrite IH. reflexivity.
Qed.

Lemma sleeps_full_events parameter : forall pages page,
  sleeps (full_events parameter page pages) = repeat 200 (List.length pages).
Proof.
  induction pages as [|results rest IH]; intros page; [reflexivity|].
  cbn [full_events List.length repeat].
  change (HttpGet (request parameter page) :: page_log parameter page results ++
          Slept 200 :: full_events parameter (page + 1) rest)
    with ([HttpGet (request parameter page)] ++ page_log parameter page results ++
          [Slept 200] ++ full_events parameter (page + 1) rest).
  rewrite !sleeps_app, sleeps_page_log, IH. reflexivity.
Qed.

Lemma all_data_add_page parameter results vars :
  all_data (add_page parameter results vars) =
  all_data vars ++ option_to_list (fetched parameter results).
Proof.
  unfold add_page. destruct (fetched parameter results); cbn; [reflexivity|].
  now rewrite app_nil_r.
Qed.

Lemma fetched_rows parameter results df :
  fetched parameter results = Some df -> List.length (rows df) = List.length results.
Proof.
  unfold fetched. destruct (empty (pd_DataFrame results)); [discriminate|].
  intros [= <-]. cbn. now rewrite !length_map.
Qed.

Lemma fetched_none parameter results :
  fetched parameter results = None <-> empty (pd_DataFrame results) = true.
Proof.
  unfold fetched. destruct (empty (pd_DataFrame results)); split; congruence.
Qed.

Lemma fetched_shape parameter results df :
  fetched parameter results = Some df ->
  empty df = false /\ forall r, In r (rows df) -> cell "parameter" r = VStr parameter.
Proof.
  unfold fetched. destruct (empty (pd_DataFrame results)) eqn:He; [discriminate|].
  intros [= <-]. apply empty_false in He. destruct He as [Hc Hr]. split.
  - apply empty_false. unfold set_column, assign_column. cbn [columns rows]. split.
    + destruct (mem "parameter" (columns (pd_DataFrame results))); [assumption|].
      intros H. apply app_eq_nil in H. destruct H; discriminate.
    + intros H. apply map_eq_nil in H. contradiction.
  - unfold set_column, assign_column. cbn [rows]. intros r Hr'.
    apply in_map_iff in Hr'. destruct Hr' as (r0 & <- & _).
    unfold cell, dict_get_default.
    rewrite (dict_get_tabulate
               (fun c' => if String.eqb c' "parameter" then VStr parameter else cell c' r0)).
    destruct (mem "parameter" (columns (pd_DataFrame results))) eqn:Hm.
    + rewrite Hm. reflexivity.
    + rewrite mem_app. cbn. rewrite orb_true_r. reflexivity.
Qed.

(** The columns of a kept frame are the fields of its records and
    [parameter]. *)
Lemma fetched_columns parameter results df c :
  fetched parameter results = Some df ->
  In c (columns df) ->
  c = "parameter" \/ exists r, In r results /\ In c (keys r).
Proof.
  unfold fetched. destruct (empty (pd_DataFrame results)); [discriminate|].
  intros [= <-]. unfold set_column, assign_column, pd_DataFrame. cbn [columns].
  assert (Hcols : In c (distinct (flat_map keys results)) ->
                  exists r, In r results /\ In c (keys r)).
  { intros H. apply (proj1 (In_distinct_by String.eqb String.eqb_eq (flat_map keys results) c)) in H.
    apply in_flat_map in H. exact H. }
  destruct (mem "parameter" (distinct (flat_map keys results))).
  - intros H. right. now apply Hcols.
  - intros H. apply in_app_or in H. destruct H as [H|[<-|[]]]; [right; now apply Hcols|now left].
Qed.

Lemma In_frames parameter pages df :
  In df (frames parameter pages) -> exists results, In results pages /\ fetched parameter results = Some df.
Proof.
  unfold frames. rewrite in_flat_map. intros (results & Hin' & Hin).
  exists results. split; [exact Hin'|].
  destruct (fetched parameter results); cbn in Hin; [|destruct Hin].
  destruct Hin as [<-|[]]. reflexivity.
Qed.

(** The counter of a page that is kept is positive. *)
Lemma add_page_totals parameter results :
  0 <= total_results (add_page parameter results fresh) /\
  (total_results (add_page parameter results fresh) = 0 <->
   all_data (add_page parameter results fresh) = []).
Proof.
  unfold add_page. destruct (fetched parameter results) as [df|] eqn:Hf; cbn.
  - destruct (fetched_shape _ _ _ Hf) as [He _]. apply empty_false in He.
    destruct He as [_ Hr]. unfold len. destruct (rows df); [contradiction|].
    cbn [List.length]. split; [lia|]. split; [lia|discriminate].
  - split; [lia|]. split; reflexivity.
Qed.

(** Full pages: the loop fetches each of them, appends its frame and goes
    on with the page after them. *)
Lemma page_loop_full_pages parameter : forall full page vars tr,
  served parameter page full ->
  Forall (fun results => 100 <= Z.of_nat (List.length results)) full ->
  page + Z.of_nat (List.length full) - 1 <= max_pages ->
  exists vars',
    all_data vars' = all_data vars ++ frames parameter full /\
    page_loop parameter page vars tr =
    page_loop parameter (page + Z.of_nat (List.length full)) vars'
              (tr ++ full_events parameter page full).
Proof.
  induction full as [|results rest IH]; intros page vars tr Hs Hfull Hcap.
  - exists vars. cbn. rewrite !app_nil_r, Z.add_0_r. auto.
  - destruct Hs as [Hpage Hrest]. inversion Hfull as [|? ? Hlen Hfull']; subst.
    cbn [List.length] in Hcap.
    rewrite page_loop_step. destruct (Z.leb_spec page max_pages); [|lia].
    rewrite iteration_spec, Hpage.
    destruct results as [|row results]; [cbn in Hlen; lia|].
    destruct (Z.ltb_spec (Z.of_nat (List.length (row :: results))) 100); [lia|].
    destruct (IH (page + 1) (add_page parameter (row :: results) vars)
                (tr ++ HttpGet (request parameter page)
                    :: page_log parameter page (row :: results) ++ [Slept 200]))
      as [vars' [Hdata Hloop]]; [assumption|assumption|lia|].
    exists vars'. split.
    + rewrite Hdata, all_data_add_page. unfold frames. cbn [flat_map].
      now rewrite <- app_assoc.
    + rewrite Hloop. f_equal; [cbn [List.length]; lia|].
      cbn [full_events]. rewrite <- !app_assoc. cbn. rewrite <- app_assoc. reflexivity.
Qed.

(** What every run of the page loop does, whatever the service answers.
    It returns (the recursion is on the pages left below the cap).  Its
    requests are those of the pages [page], [page + 1], ... up to the cap at
    most; it pauses after every request but the last, or after all of them;
    it logs no warning and writes no file.  When it ends normally, the
    frames it kept are those of pages the service answered and the counter
    is zero exactly when none was kept; when it raises, the exception is
    no [RequestException]. *)
Lemma page_loop_run_aux n : forall parameter page,
  Z.to_nat (max_pages + 1 - page) = n ->
  exists k j pages,
    (k <= n)%nat /\
    gets (snd (page_loop parameter page fresh [])) =
      map (request parameter) (pages_from page k) /\
    sleeps (snd (page_loop parameter page fresh [])) = repeat 200 j /\
    (j <= k <= S j)%nat /\
    warnings (snd (page_loop parameter page fresh [])) = [] /\
    Forall is_fetch_event (snd (page_loop parameter page fresh [])) /\
    Forall (fun results => exists page', page_outcome parameter page' = Ok results) pages /\
    match fst (page_loop parameter page fresh []) with
    | Ok v =>
        all_data v = frames parameter pages /\ 0 <= total_results v /\
        (total_results v = 0 <-> all_data v = [])
    | Raise x => is_RequestException x = false
    end.
Proof.
  induction n as [n IH] using lt_wf_ind. intros parameter page Hn.
  rewrite page_loop_step.
  destruct (Z.leb_spec page max_pages) as [Hle|Hgt].
  2:{ exists 0%nat, 0%nat, []. cbn. repeat split; try lia; constructor. }
  rewrite iteration_spec.
  destruct (page_outcome parameter page) as [[|row results]|x] eqn:Hout.
  - exists 1%nat, 0%nat, []. cbn. repeat split; try lia; repeat constructor.
  - pose proof (add_page_totals parameter (row :: results)) as [H0 Hiff].
    destruct (Z.of_nat (List.length (row :: results)) <? 100).
    + exists 1%nat, 0%nat, [row :: results]. cbn [fst snd app].
      rewrite gets_get, sleeps_get, warnings_get, gets_page_log, sleeps_page_log,
        warnings_page_log.
      split; [lia|]. split; [reflexivity|]. split; [reflexivity|]. split; [lia|].
      split; [reflexivity|]. split; [constructor; [exact I|apply page_log_events]|].
      split; [constructor; [now exists page|constructor]|].
      split; [|split; [exact H0|exact Hiff]].
      rewrite all_data_add_page. unfold frames. cbn. now rewrite app_nil_r.
    + rewrite page_loop_extend.
      destruct (IH (Z.to_nat (max_pages + 1 - (page + 1))) ltac:(lia) parameter (page + 1)
                  eq_refl) as (k & j & pages & Hk & Hg & Hsl & Hj & Hw & Hev & Hpages & Hres).
      exists (S k), (S j), ((row :: results) :: pages).
      rewrite snd_extend. cbn [app].
      rewrite gets_get, sleeps_get, warnings_get, !gets_app, !sleeps_app, !warnings_app,
        gets_page_log, sleeps_page_log, warnings_page_log, Hg, Hsl, Hw.
      split; [lia|]. split; [reflexivity|]. split; [reflexivity|]. split; [lia|].
      split; [reflexivity|]. split.
      { constructor; [exact I|]. apply Forall_app. split; [|exact Hev].
        apply Forall_app. split; [apply page_log_events|repeat constructor]. }
      split; [constructor; [now exists page|exact Hpages]|].
      destruct (page_loop parameter (page + 1) fresh []) as [[v|y] e]; cbn [fst extend] in Hres |- *;
        [|exact Hres].
      destruct Hres as (Hdata & Hv0 & Hviff). cbn [all_data total_results].
      split; [rewrite all_data_add_page, Hdata; reflexivity|]. split; [lia|]. split.
      * intros H. assert (Ha : total_results (add_page parameter (row :: results) fresh) = 0)
          by lia.
        assert (Hb : total_results v = 0) by lia.
        apply Hiff in Ha. apply Hviff in Hb. now rewrite Ha, Hb.
      * intros H. apply app_eq_nil in H. destruct H as [Ha Hb].
        apply Hiff in Ha. apply Hviff in Hb. lia.
  - destruct (is_RequestException x) eqn:Hx.
    + exists 1%nat, 0%nat, []. cbn [fst snd app].
      rewrite gets_get, sleeps_get, warnings_get, gets_error_log, sleeps_error_log,
        warnings_error_log.
      split; [lia|]. split; [reflexivity|]. split; [reflexivity|]. split; [lia|].
      split; [reflexivity|]. split; [constructor; [exact I|apply error_log_events]|].
      split; [constructor|]. cbn. repeat split; lia.
    + exists 1%nat, 0%nat, []. cbn [fst snd app].
      split; [lia|]. split; [reflexivity|]. split; [reflexivity|]. split; [lia|].
      split; [reflexivity|]. split; [repeat constructor|].
      split; [constructor|exact Hx].
Qed.

Lemma page_loop_run parameter :
  exists k j pages,
    (k <= Z.to_nat max_pages)%nat /\
    gets (snd (page_loop parameter 1 fresh [])) = map (request parameter) (pages_from 1 k) /\
    sleeps (snd (page_loop parameter 1 fresh [])) = repeat 200 j /\
    (j <= k <= S j)%nat /\
    warnings (snd (page_loop parameter 1 fresh [])) = [] /\
    Forall is_fetch_event (snd (page_loop parameter 1 fresh [])) /\
    Forall (fun results => exists page', page_outcome parameter page' = Ok results) pages /\
    match fst (page_loop parameter 1 fresh []) with
    | Ok v =>
        all_data v = frames parameter pages /\ 0 <= total_results v /\
        (total_results v = 0 <-> all_data v = [])
    | Raise x => is_RequestException x = false
    end.
Proof.
  destruct (page_loop_run_aux _ parameter 1 eq_refl) as (k & j & pages & Hk & H).
  exists k, j, pages. split; [lia|exact H].
Qed.

(** The loop of a parameter, by its page loop: the warning follows when
    the counter is zero. *)
Lemma parameter_loop_of_page_loop parameter :
  match page_loop parameter 1 fresh [] with
  | (Ok v, e) =>
      failure parameter = None /\ contribution parameter = all_data v /\
      events_of parameter =
        e ++ (if total_results v =? 0
              then [Logged LvWarning (MsgNoData parameter location_id)] else [])
  | (Raise x, e) =>
      failure parameter = Some x /\ contribution parameter = [] /\ events_of parameter = e
  end.
Proof.
  unfold failure, contribution, events_of, DataCollector.parameter_loop, bind.
  change (mkLocals [] 0) with fresh.
  destruct (page_loop parameter 1 fresh []) as [[v|x] e]; [|auto].
  destruct (total_results v =? 0); cbn; rewrite ?app_nil_r; auto.
Qed.

Lemma parameter_loop_spec data parameter tr :
  parameter_loop data parameter tr =
  (match failure parameter with
   | None => Ok (data ++ contribution parameter)
   | Some e => Raise e
   end, tr ++ events_of parameter).
Proof.
  pose proof (parameter_loop_of_page_loop parameter) as H.
  unfold DataCollector.parameter_loop, bind. rewrite page_loop_extend.
  destruct (page_loop parameter 1 fresh []) as [[v|x] e]; cbn [extend].
  - destruct H as (-> & -> & ->). cbn [all_data total_results]. rewrite Z.add_0_l.
    destruct (total_results v =? 0); cbn; rewrite <- ?app_assoc, ?app_nil_r; reflexivity.
  - destruct H as (-> & _ & ->). reflexivity.
Qed.

Lemma for_each_parameter_spec : forall parameters data tr,
  for_each_parameter parameters data tr =
  (match first_failure parameters with
   | None => Ok (data ++ flat_map contribution parameters)
   | Some e => Raise e
   end, tr ++ flat_map events_of (ran parameters)).
Proof.
  induction parameters as [|p ps IH]; intros data tr; cbn.
  - unfold ret. now rewrite !app_nil_r.
  - unfold bind. rewrite parameter_loop_spec.
    destruct (failure p) as [e|].
    + cbn. now rewrite app_nil_r.
    + rewrite IH, <- !app_assoc. reflexivity.
Qed.

(** When no loop raises, all the parameters are run. *)
Lemma ran_all parameters : first_failure parameters = None -> ran parameters = parameters.
Proof.
  induction parameters as [|p ps IH]; cbn; [reflexivity|].
  destruct (failure p); [discriminate|]. intros H. now rewrite IH.
Qed.

Lemma ran_incl parameters p : In p (ran parameters) -> In p parameters.
Proof.
  induction parameters as [|q ps IH]; cbn; [tauto|].
  intros [H|H]; [now left|]. destruct (failure q); [destruct H|]. right. now apply IH.
Qed.

Lemma ran_app before after :
  first_failure before = None -> ran (before ++ after) = before ++ ran after.
Proof.
  induction before as [|p ps IH]; cbn; [reflexivity|].
  destruct (failure p); [discriminate|]. intros H. now rewrite IH.
Qed.

Lemma first_failure_app before after :
  first_failure before = None -> first_failure (before ++ after) = first_failure after.
Proof.
  induction before as [|p ps IH]; cbn; [reflexivity|].
  destruct (failure p); [discriminate|]. exact IH.
Qed.

Lemma failure_raise parameter x : failure parameter = Some x -> is_RequestException x = false.
Proof.
  pose proof (parameter_loop_of_page_loop parameter) as H.
  destruct (page_loop_run parameter) as (k & j & pages & _ & _ & _ & _ & _ & _ & _ & Hres).
  destruct (page_loop parameter 1 fresh []) as [[v|y] e]; cbn [fst] in Hres.
  - destruct H as (-> & _). discriminate.
  - destruct H as (-> & _). now intros [= <-].
Qed.

Lemma first_failure_raise parameters x :
  first_failure parameters = Some x -> is_RequestException x = false.
Proof.
  induction parameters as [|p ps IH]; cbn; [discriminate|].
  destruct (failure p) as [e|] eqn:Hp; [|exact IH].
  intros [= <-]. eapply failure_raise, Hp.
Qed.

Lemma gets_warning tr msg : gets (tr ++ [Logged LvWarning msg]) = gets tr.
Proof. rewrite gets_app. cbn. apply app_nil_r. Qed.

Lemma sleeps_warning tr msg : sleeps (tr ++ [Logged LvWarning msg]) = sleeps tr.
Proof. rewrite sleeps_app. cbn. apply app_nil_r. Qed.

(** The requests and the pauses of the loop of a parameter are those of
    its page loop. *)
Lemma events_of_page_loop parameter :
  gets (events_of parameter) = gets (snd (page_loop parameter 1 fresh [])) /\
  sleeps (events_of parameter) = sleeps (snd (page_loop parameter 1 fresh [])).
Proof.
  pose proof (parameter_loop_of_page_loop parameter) as H.
  destruct (page_loop parameter 1 fresh []) as [[v|x] e]; cbn [snd].
  - destruct H as (_ & _ & ->). destruct (total_results v =? 0).
    + now rewrite gets_warning, sleeps_warning.
    + now rewrite app_nil_r.
  - destruct H as (_ & _ & ->). auto.
Qed.

Lemma events_of_gets parameter :
  exists k, (k <= Z.to_nat max_pages)%nat /\
    gets (events_of parameter) = map (request parameter) (pages_from 1 k).
Proof.
  destruct (page_loop_run parameter) as (k & j & pages & Hk & Hg & _).
  exists k. split; [exact Hk|]. now rewrite (proj1 (events_of_page_loop parameter)).
Qed.

Lemma events_of_events parameter : Forall is_fetch_event (events_of parameter).
Proof.
  pose proof (parameter_loop_of_page_loop parameter) as H.
  destruct (page_loop_run parameter) as (k & j & pages & _ & _ & _ & _ & _ & Hev & _).
  destruct (page_loop parameter 1 fresh []) as [[v|x] e]; cbn [snd] in Hev.
  - destruct H as (_ & _ & ->). apply Forall_app. split; [exact Hev|].
    destruct (total_results v =? 0); repeat constructor.
  - destruct H as (_ & _ & ->). exact Hev.
Qed.

(** The warning of a parameter: logged when its loop ends normally
    without a frame. *)
Lemma parameter_loop_warnings parameter :
  warnings (events_of parameter) =
  if silent parameter then [MsgNoData parameter location_id] else [].
Proof.
  pose proof (parameter_loop_of_page_loop parameter) as H. unfold silent.
  destruct (page_loop_run parameter) as (k & j & pages & _ & _ & _ & _ & Hw & _ & _ & Hres).
  destruct (page_loop parameter 1 fresh []) as [[v|x] e]; cbn [fst snd] in Hw, Hres.
  - destruct H as (-> & -> & ->).
    destruct Hres as (_ & _ & Hiff). rewrite warnings_app, Hw.
    destruct (Z.eqb_spec (total_results v) 0) as [Hz|Hz]; cbn.
    + apply Hiff in Hz. now rewrite Hz.
    + destruct (all_data v) eqn:Hd; [|reflexivity].
      exfalso. apply Hz. apply Hiff. reflexivity.
  - destruct H as (-> & _ & ->). exact Hw.
Qed.

Lemma page_loop_first_get parameter page :
  page <= max_pages ->
  exists e, snd (page_loop parameter page fresh []) = HttpGet (request parameter page) :: e.
Proof.
  intros Hle. rewrite page_loop_step. destruct (Z.leb_spec page max_pages); [|lia].
  rewrite iteration_spec.
  destruct (page_outcome parameter page) as [[|row results]|e]; cbn [app];
    try (eexists; reflexivity).
  - destruct (Z.of_nat (List.length (row :: results)) <? 100); [eexists; reflexivity|].
    rewrite page_loop_extend.
    destruct (page_loop parameter (page + 1) fresh []) as [[v|x] e]; cbn; eexists; reflexivity.
  - destruct (is_RequestException e); eexists; reflexivity.
Qed.

Lemma served_app parameter : forall a b page,
  served parameter page (a ++ b) <->
  served parameter page a /\ served parameter (page + Z.of_nat (List.length a)) b.
Proof.
  induction a as [|results a IH]; intros b page; cbn [app served List.length].
  - rewrite Z.add_0_r. tauto.
  - rewrite IH. replace (page + 1 + Z.of_nat (List.length a))
      with (page + Z.of_nat (S (List.length a))) by lia. tauto.
Qed.

(** C1 (as amended).  When the service answers the pages 1, 2, ... of a
    parameter with full pages (100 rows or more) and then with a page of
    fewer than 100 rows, and the cap allows that page, the page loop
    requests exactly these pages and stops.  The frame of every page is
    appended to the accumulated data unless it is empty ([df.empty]: no row,
    or rows without any field); the frame of the short page, when appended,
    holds all the rows of the page. *)
Theorem short_page_ends_page_loop parameter full last vars tr :
  served parameter 1 (full ++ [last]) ->
  Forall (fun results => 100 <= Z.of_nat (List.length results)) full ->
  Z.of_nat (List.length last) < 100 ->
  1 + Z.of_nat (List.length full) <= max_pages ->
  exists vars' tr',
    page_loop parameter 1 vars tr = (Ok vars', tr') /\
    gets tr' = gets tr ++ map (request parameter) (pages_from 1 (S (List.length full))) /\
    all_data vars' =
      all_data vars ++ frames parameter full ++ option_to_list (fetched parameter last) /\
    (forall df, fetched parameter last = Some df ->
                In df (all_data vars') /\ List.length (rows df) = List.length last) /\
    (fetched parameter last = None <-> empty (pd_DataFrame last) = true).
Proof.
  intros Hs Hfull Hshort Hcap.
  apply served_app in Hs. destruct Hs as [Hs [Hlast _]].
  destruct (page_loop_full_pages parameter full 1 vars tr Hs Hfull ltac:(lia))
    as [vars1 [Hdata Hloop]].
  rewrite Hloop, page_loop_step.
  destruct (Z.leb_spec (1 + Z.of_nat (List.length full)) max_pages); [|lia].
  rewrite iteration_spec, Hlast.
  assert (Hgets : forall evs, gets evs = [] ->
            gets ((tr ++ full_events parameter 1 full) ++
                  HttpGet (request parameter (1 + Z.of_nat (List.length full))) :: evs) =
            gets tr ++ map (request parameter) (pages_from 1 (S (List.length full)))).
  { intros evs Hevs. change (HttpGet ?r :: ?l) with ([HttpGet r] ++ l).
    rewrite !gets_app, gets_full_events, Hevs, pages_from_snoc, map_app, <- app_assoc.
    reflexivity. }
  assert (Hin : forall data df, fetched parameter last = Some df ->
            In df (data ++ option_to_list (fetched parameter last)) /\
            List.length (rows df) = List.length last).
  { intros data df Hdf. split; [|eapply fetched_rows; eassumption].
    rewrite Hdf. apply in_or_app. right. now left. }
  destruct last as [|row last].
  - assert (Hnone : fetched parameter [] = None) by reflexivity.
    do 2 eexists. split; [reflexivity|]. split; [apply (Hgets []); reflexivity|].
    rewrite Hnone. cbn [option_to_list]. rewrite app_nil_r.
    split; [exact Hdata|]. split; [discriminate|]. rewrite <- Hnone. apply fetched_none.
  - destruct (Z.ltb_spec (Z.of_nat (List.length (row :: last))) 100); [|lia].
    do 2 eexists. split; [reflexivity|]. split; [apply Hgets, gets_page_log|].
    rewrite all_data_add_page, Hdata, <- app_assoc.
    split; [reflexivity|]. split; [|apply fetched_none].
    intros df Hdf. rewrite app_assoc. apply Hin, Hdf.
Qed.

Lemma events_of_first_get parameter :
  1 <= max_pages -> exists e, events_of parameter = HttpGet (request parameter 1) :: e.
Proof.
  intros Hcap. pose proof (parameter_loop_of_page_loop parameter) as H.
  destruct (page_loop_first_get parameter 1 Hcap) as [e He].
  destruct (page_loop parameter 1 fresh []) as [[v|x] e']; cbn [snd] in He; subst e'.
  - destruct H as (_ & _ & ->). eexists. reflexivity.
  - destruct H as (_ & _ & ->). eexists. reflexivity.
Qed.

Lemma request_parameter_request parameter page :
  request_parameter (request parameter page) = Some parameter.
Proof. reflexivity. Qed.

Lemma requests_for_app parameter a b :
  requests_for parameter (a ++ b) = requests_for parameter a ++ requests_for parameter b.
Proof. unfold requests_for. now rewrite gets_app, filter_app. Qed.

Lemma requests_for_events_of parameter q :
  (List.length (requests_for parameter (events_of q)) <=
   if string_dec q parameter then Z.to_nat max_pages else 0)%nat.
Proof.
  unfold requests_for. destruct (events_of_gets q) as (k & Hk & ->).
  destruct (string_dec q parameter) as [->|Hne].
  - etransitivity; [apply filter_length_le|]. now rewrite length_map, length_pages_from.
  - rewrite filter_none; [reflexivity|].
    intros req Hin. apply in_map_iff in Hin. destruct Hin as (page & <- & _).
    rewrite request_parameter_request. now apply String.eqb_neq.
Qed.

Lemma requests_for_parameters parameter : forall parameters,
  (List.length (requests_for parameter (flat_map events_of (ran parameters))) <=
   count_occ string_dec parameters parameter * Z.to_nat max_pages)%nat.
Proof.
  induction parameters as [|q parameters IH]; cbn [ran flat_map count_occ].
  - reflexivity.
  - rewrite requests_for_app, length_app.
    pose proof (requests_for_events_of parameter q) as Hq.
    assert (Hrest : (List.length
                       (requests_for parameter
                          (flat_map events_of match failure q with
                                              | None => ran parameters
                                              | Some _ => []
                                              end)) <=
                     count_occ string_dec parameters parameter * Z.to_nat max_pages)%nat).
    { destruct (failure q); [cbn; lia|exact IH]. }
    destruct (string_dec q parameter); lia.
Qed.

Lemma events_of_without_pages parameter :
  max_pages < 1 ->
  failure parameter = None /\
  contribution parameter = [] /\
  events_of parameter = [Logged LvWarning (MsgNoData parameter location_id)].
Proof.
  intros H. unfold failure, contribution, events_of, DataCollector.parameter_loop, bind.
  rewrite page_loop_step. destruct (Z.leb_spec 1 max_pages); [lia|]. repeat split; reflexivity.
Qed.

(** The frames a parameter contributes are frames of pages the service
    answered. *)
Lemma contribution_outcomes parameter df :
  In df (contribution parameter) ->
  exists page results,
    page_outcome parameter page = Ok results /\ fetched parameter results = Some df.
Proof.
  pose proof (parameter_loop_of_page_loop parameter) as H.
  destruct (page_loop_run parameter) as (k & j & pages & _ & _ & _ & _ & _ & _ & Hall & Hres).
  destruct (page_loop parameter 1 fresh []) as [[v|x] e]; cbn [fst] in Hres.
  - destruct H as (_ & -> & _). destruct Hres as (-> & _). intros Hin.
    apply In_frames in Hin. destruct Hin as (results & Hin & Hf).
    rewrite Forall_forall in Hall. destruct (Hall results Hin) as (page & Hpage).
    exists page, results. auto.
  - destruct H as (_ & -> & _). intros [].
Qed.

Lemma contribution_rows parameter df :
  In df (contribution parameter) ->
  empty df = false /\ In "parameter" (columns df) /\
  forall r, In r (rows df) -> cell "parameter" r = VStr parameter.
Proof.
  intros Hin. destruct (contribution_outcomes parameter df Hin) as (page & results & _ & Hf).
  destruct (fetched_shape _ _ _ Hf) as [Hne Hrows]. split; [exact Hne|]. split; [|exact Hrows].
  unfold fetched in Hf. destruct (empty (pd_DataFrame results)); [discriminate|].
  injection Hf as <-.
  unfold set_column, assign_column. cbn [columns].
  destruct (mem "parameter" (columns (pd_DataFrame results))) eqn:Hm.
  - now apply mem_In.
  - apply in_or_app. right. now left.
Qed.

Lemma accumulated_nonempty parameters df :
  In df (flat_map contribution parameters) -> empty df = false.
Proof.
  rewrite in_flat_map. intros (p & _ & Hin). now apply contribution_rows in Hin.
Qed.

Section Call.

Variable parse_datetime : option string -> string -> option Z.

Local Notation fetch_air_quality_data :=
  (fetch_air_quality_data server parse_datetime self location_id start_date end_date
     max_pages).

(** The events of a call are those of the loops it runs. *)
Lemma fetch_trace parameters tr :
  snd (fetch_air_quality_data parameters tr) =
  tr ++ flat_map events_of (ran (requested parameters)).
Proof.
  unfold DataCollector.fetch_air_quality_data, bind. fold (requested parameters).
  rewrite for_each_parameter_spec.
  destruct (first_failure (requested parameters)); [reflexivity|].
  cbn [app]. destruct (is_nil _); [reflexivity|]. unfold lift.
  destruct (pd_concat _); [|reflexivity].
  destruct (_process_data _ _); reflexivity.
Qed.

(** The value of a call: the exception of the first loop that raises, or
    the reshaped concatenation of what the loops contribute. *)
Lemma fetch_value parameters tr :
  fst (fetch_air_quality_data parameters tr) =
  match first_failure (requested parameters) with
  | Some e => Raise e
  | None =>
      let data := flat_map contribution (requested parameters) in
      if is_nil data then Ok empty_frame
      else rbind (pd_concat data) (_process_data parse_datetime)
  end.
Proof.
  unfold DataCollector.fetch_air_quality_data, bind. fold (requested parameters).
  rewrite for_each_parameter_spec.
  destruct (first_failure (requested parameters)); [reflexivity|].
  cbn [app]. cbn zeta. destruct (is_nil _); [reflexivity|]. unfold lift.
  destruct (pd_concat _); [|reflexivity]. cbn [rbind].
  destruct (_process_data _ _); reflexivity.
Qed.

(** C2.  Whatever the service answers, one run of the page loop of a
    parameter issues the requests of the pages 1, 2, ..., k for some k not
    above [max_pages]; and in a whole call the requests for a parameter are
    at most [max_pages] for each time the parameter is listed. *)
Theorem page_cap_bounds_requests :
  (forall parameter vars tr,
     exists k,
       Z.of_nat k <= Z.max 0 max_pages /\
       gets (snd (page_loop parameter 1 vars tr)) =
       gets tr ++ map (request parameter) (pages_from 1 k)) /\
  (forall parameters parameter,
     Z.of_nat (List.length (requests_for parameter
                              (snd (fetch_air_quality_data parameters [])))) <=
     Z.of_nat (count_occ string_dec
                 match parameters with
                 | None => default_parameters
                 | Some ps => ps
                 end parameter) * Z.max 0 max_pages).
Proof.
  split.
  - intros parameter vars tr.
    destruct (page_loop_run parameter) as (k & j & pages & Hk & Hg & _).
    exists k. split; [lia|]. rewrite page_loop_extend, snd_extend, gets_app, Hg. reflexivity.
  - intros parameters parameter. rewrite fetch_trace. cbn [app].
    pose proof (requests_for_parameters parameter (requested parameters)) as H.
    unfold requested in H.
    apply Nat2Z.inj_le in H. rewrite Nat2Z.inj_mul in H.
    etransitivity; [exact H|]. apply Z.mul_le_mono_nonneg_l; lia.
Qed.

(** C10.  With an explicitly empty parameter list the call returns the
    empty table and adds nothing to the trace, so it issues no request.
    With the argument omitted the call is the call for the six default
    pollutants, which, when the cap allows a page at all, begins with the
    request of page 1 of [pm25]. *)
Theorem empty_parameter_list_fetches_nothing tr :
  fetch_air_quality_data (Some []) tr = (Ok empty_frame, tr) /\
  gets (snd (fetch_air_quality_data (Some []) tr)) = gets tr /\
  fetch_air_quality_data None tr = fetch_air_quality_data (Some default_parameters) tr /\
  (1 <= max_pages ->
   exists rest,
     gets (snd (fetch_air_quality_data None tr)) = gets tr ++ request "pm25" 1 :: rest).
Proof.
  split; [reflexivity|]. split; [reflexivity|]. split; [reflexivity|].
  intros Hcap. rewrite fetch_trace, gets_app.
  cbn [requested default_parameters ran flat_map].
  destruct (events_of_first_get "pm25" Hcap) as [e ->].
  cbn [gets flat_map app]. eexists. reflexivity.
Qed.

End Call.

End FetchProperties.

(** ** The reshape step *)

(** Two passes over a list, the second with the results of the first,
    succeed exactly when both steps succeed on every element. *)
Lemma rmap_with {A B C : Type} (f : A -> Result B) (h : A * B -> Result C) : forall l cs,
  (exists bs, rmap f l = Ok bs /\ rmap h (combine l bs) = Ok cs) <->
  Forall2 (fun a c => exists b, f a = Ok b /\ h (a, b) = Ok c) l cs.
Proof.
  induction l as [|a l IH]; intros cs.
  - cbn. split.
    + intros (bs & [= <-] & [= <-]). constructor.
    + intros H. inversion H. exists []. split; reflexivity.
  - split.
    + intros (bs & Hf & Hh). cbn [rmap] in Hf.
      apply rbind_ok in Hf. destruct Hf as (b & Hb & Hf).
      apply rbind_ok in Hf. destruct Hf as (bs' & Hbs & [= <-]).
      cbn [combine rmap] in Hh.
      apply rbind_ok in Hh. destruct Hh as (c & Hc & Hh).
      apply rbind_ok in Hh. destruct Hh as (cs' & Hcs & [= <-]).
      constructor; [eauto|]. apply IH. eauto.
    + intros H. inversion H as [|? c ? cs' (b & Hb & Hc) Hrest]; subst.
      apply IH in Hrest. destruct Hrest as (bs & Hbs & Hcs).
      exists (b :: bs). cbn [rmap combine]. rewrite Hb, Hbs. cbn [rbind].
      rewrite Hc, Hcs. split; reflexivity.
Qed.

Lemma rmap_with_l {A B C : Type} (f : A -> Result B) (h : B * A -> Result C) : forall l cs,
  (exists bs, rmap f l = Ok bs /\ rmap h (combine bs l) = Ok cs) <->
  Forall2 (fun a c => exists b, f a = Ok b /\ h (b, a) = Ok c) l cs.
Proof.
  induction l as [|a l IH]; intros cs.
  - cbn. split.
    + intros (bs & [= <-] & [= <-]). constructor.
    + intros H. inversion H. exists []. split; reflexivity.
  - split.
    + intros (bs & Hf & Hh). cbn [rmap] in Hf.
      apply rbind_ok in Hf. destruct Hf as (b & Hb & Hf).
      apply rbind_ok in Hf. destruct Hf as (bs' & Hbs & [= <-]).
      cbn [combine rmap] in Hh.
      apply rbind_ok in Hh. destruct Hh as (c & Hc & Hh).
      apply rbind_ok in Hh. destruct Hh as (cs' & Hcs & [= <-]).
      constructor; [eauto|]. apply IH. eauto.
    + intros H. inversion H as [|? c ? cs' (b & Hb & Hc) Hrest]; subst.
      apply IH in Hrest. destruct Hrest as (bs & Hbs & Hcs).
      exists (b :: bs). cbn [rmap combine]. rewrite Hb, Hbs. cbn [rbind].
      rewrite Hc, Hcs. split; reflexivity.
Qed.

Lemma Forall2_In_l {A B : Type} (P : A -> B -> Prop) l l' a :
  Forall2 P l l' -> In a l -> exists b, In b l' /\ P a b.
Proof.
  induction 1 as [|x y l l' Hxy _ IH]; intros Hin; [destruct Hin|].
  destruct Hin as [<-|Hin].
  - exists y. split; [now left|assumption].
  - destruct (IH Hin) as (b & Hb & Hab). exists b. split; [now right|assumption].
Qed.

Lemma Forall2_In_r {A B : Type} (P : A -> B -> Prop) l l' b :
  Forall2 P l l' -> In b l' -> exists a, In a l /\ P a b.
Proof.
  induction 1 as [|x y l l' Hxy _ IH]; intros Hin; [destruct Hin|].
  destruct Hin as [<-|Hin].
  - exists x. split; [now left|assumption].
  - destruct (IH Hin) as (a & Ha & Hab). exists a. split; [now right|assumption].
Qed.

(** *** The reshaped table *)

Lemma In_kept es e :
  In e (kept_entries es) <-> In (Some e) es /\ is_some (entry_value e) = true.
Proof.
  unfold kept_entries. rewrite filter_In, in_flat_map. split.
  - intros [(o & Ho & He) Hv]. destruct o as [e'|]; cbn in He; [|tauto].
    destruct He as [<-|[]]. auto.
  - intros [He Hv]. split; [|assumption]. exists (Some e). cbn. auto.
Qed.

Lemma In_pivot_labels kept c :
  In c (pivot_labels kept) <-> exists e, In e kept /\ entry_column e = c.
Proof.
  unfold pivot_labels.
  rewrite (Permutation_in' eq_refl (sort_perm String.leb _)).
  rewrite (In_distinct_by String.eqb String.eqb_eq), in_map_iff. split.
  - intros (e & He & Hin). eauto.
  - intros (e & Hin & He). eauto.
Qed.

Lemma In_pivot_index kept k :
  In k (pivot_index kept) <-> exists e, In e kept /\ entry_key e = k.
Proof.
  unfold pivot_index.
  rewrite (Permutation_in' eq_refl (sort_perm key_leb _)).
  rewrite (In_distinct_by key_eqb key_eqb_eq), in_map_iff. split.
  - intros (e & He & Hin). eauto.
  - intros (e & Hin & He). eauto.
Qed.

Lemma NoDup_pivot_index kept : NoDup (pivot_index kept).
Proof.
  unfold pivot_index. eapply Permutation_NoDup; [symmetry; apply sort_perm|].
  apply (NoDup_distinct_by key_eqb key_eqb_eq).
Qed.

Lemma NoDup_pivot_labels kept : NoDup (pivot_labels kept).
Proof.
  unfold pivot_labels. eapply Permutation_NoDup; [symmetry; apply sort_perm|].
  apply (NoDup_distinct_by String.eqb String.eqb_eq).
Qed.

Lemma composite_key_table_row kept k :
  List.length k = 4%nat -> composite_key (table_row kept k) = map value_of_label k.
Proof.
  destruct k as [|a [|b [|c [|d [|]]]]]; try discriminate. intros _. reflexivity.
Qed.

Lemma cell_table_row kept k c :
  List.length k = 4%nat -> mem c key_fields = false ->
  cell c (table_row kept k) =
  if mem c (pivot_labels kept) then group_mean kept k c else VNull.
Proof.
  intros Hk Hc. unfold cell, dict_get_default, table_row.
  rewrite dict_get_app, dict_get_tabulate.
  destruct k as [|a [|b [|c' [|d [|]]]]]; try discriminate.
  cbn in Hc |- *.
  destruct (String.eqb c "date"); [discriminate|].
  destruct (String.eqb c "location"); [discriminate|].
  destruct (String.eqb c "city"); [discriminate|].
  destruct (String.eqb c "country"); [discriminate|].
  destruct (mem c (pivot_labels kept)); reflexivity.
Qed.

Lemma value_of_label_inj a b : value_of_label a = value_of_label b -> a = b.
Proof. destruct a, b; cbn; congruence. Qed.

Lemma map_value_of_label_inj : forall k1 k2,
  map value_of_label k1 = map value_of_label k2 -> k1 = k2.
Proof.
  induction k1 as [|a k1 IH]; intros [|b k2]; cbn; try congruence.
  intros [= Hab Hk]. f_equal; [now apply value_of_label_inj|now apply IH].
Qed.

Lemma group_mean_some kept k c v :
  In (mkEntry k c (Some v)) kept -> exists q, group_mean kept k c = VNum q.
Proof.
  intros Hin. unfold group_mean.
  assert (Hv : In v (group_values kept k c)).
  { unfold group_values. apply in_flat_map. eexists. split; [exact Hin|]. cbn.
    rewrite (proj2 (key_eqb_eq k k) eq_refl), String.eqb_refl. now left. }
  destruct (group_values kept k c); [destruct Hv|]. eexists. reflexivity.
Qed.

Lemma all_some_length {A : Type} : forall (l : list (option A)) k,
  all_some l = Some k -> List.length k = List.length l.
Proof.
  induction l as [|[a|] l IH]; cbn; intros k; [intros [= <-]; reflexivity| |discriminate].
  destruct (all_some l) as [l0|]; [|discriminate]. intros [= <-]. cbn. now rewrite (IH l0).
Qed.

Lemma group_values_kept es k p :
  group_values (kept_entries es) k p = group_values (flat_map option_to_list es) k p.
Proof.
  unfold kept_entries, group_values.
  induction (flat_map option_to_list es) as [|e l IH]; [reflexivity|].
  cbn [filter flat_map]. destruct (entry_value e) as [v|] eqn:Hv; cbn [is_some].
  - cbn [flat_map]. rewrite IH, Hv. reflexivity.
  - rewrite IH. destruct (_ && _); reflexivity.
Qed.

Lemma length_distinct_by {A : Type} (eqb : A -> A -> bool)
    (Heqb : forall x y, eqb x y = true <-> x = y) (l : list A) :
  (List.length (distinct_by eqb l) <= List.length l)%nat.
Proof.
  apply NoDup_incl_length; [now apply NoDup_distinct_by|].
  intros x Hx. exact (proj1 (In_distinct_by eqb Heqb l x) Hx).
Qed.

Lemma ascending_insert_sorted x : forall l,
  ascending l -> ascending (insert_sorted String.leb x l).
Proof.
  induction l as [|y l IH]; intros Hl; [exact I|].
  cbn [insert_sorted]. destruct (String.leb x y) eqn:Hxy; [now split|].
  assert (Hyx : String.leb y x = true).
  { destruct (String.leb_total x y) as [H|H]; [congruence|exact H]. }
  destruct l as [|z l]; [now split|].
  destruct Hl as [Hyz Hl]. specialize (IH Hl). cbn [insert_sorted] in IH |- *.
  destruct (String.leb x z); now split.
Qed.

Lemma ascending_sort l : ascending (sort String.leb l).
Proof.
  induction l as [|x l IH]; [exact I|]. cbn [sort fold_right].
  now apply ascending_insert_sorted.
Qed.

Section ReshapeRows.

Variable parse_datetime : option string -> string -> option Z.
Variable source : option string.

Local Notation raw_entry := (raw_entry parse_datetime source).
Local Notation convert := (convert parse_datetime source).
Local Notation measured := (measured parse_datetime source).

(** A selected row with its date replaced, as [df['date'] = ...] leaves
    it. *)
Local Notation dated rd :=
  (map (fun cv : string * Value =>
          (fst cv, if String.eqb (fst cv) "date" then snd rd else snd cv)) (fst rd)).

(** The entry of a raw row is what the steps of [_process_data] make of
    it: the selection of the raw columns, the conversion of the date, the
    grouping and the reading of the value. *)
Lemma raw_entry_steps r :
  raw_entry r =
  rbind (convert (utc_of (cell "date" (reindex raw_columns r)))) (fun d =>
  rbind (group_of key_fields "parameter" (dated (reindex raw_columns r, d))) (fun g =>
  entry_of "value" g (dated (reindex raw_columns r, d)))).
Proof.
  unfold raw_entry, group_of, entry_of.
  change (cell "date" (reindex raw_columns r)) with (cell "date" r).
  destruct (convert (utc_of (cell "date" r))) as [d|x]; cbn [rbind]; [|reflexivity].
  change (rmap (fun c => label_of (cell c (dated (reindex raw_columns r, d)))) key_fields)
    with (rmap label_of [d; cell "location" r; cell "city" r; cell "country" r]).
  change (cell "parameter" (dated (reindex raw_columns r, d))) with (cell "parameter" r).
  change (cell "value" (dated (reindex raw_columns r, d))) with (cell "value" r).
  destruct (rmap label_of _) as [ks|x]; cbn [rbind]; [|reflexivity].
  destruct (column_label_of (cell "parameter" r)) as [c|x]; cbn [rbind]; [|reflexivity].
  destruct (all_some ks) as [k|]; [|reflexivity]. destruct c as [c|]; reflexivity.
Qed.

(** A raw table is read row by row: the passes of [_process_data] over
    the table (the dates, then the groups, then the values of the rows
    that have a group) all succeed exactly when every row has an entry. *)
Lemma entries_by_passes (raw : list Row) es :
  Forall2 (fun r e => raw_entry r = Ok e) raw es <->
  exists dates,
    rmap (fun r' => convert (utc_of (cell "date" r'))) (map (reindex raw_columns) raw) =
      Ok dates /\
    exists groups,
      rmap (group_of key_fields "parameter")
           (map (fun rd => dated rd) (combine (map (reindex raw_columns) raw) dates)) =
        Ok groups /\
      rmap (fun gr => entry_of "value" (fst gr) (snd gr))
           (combine groups
              (map (fun rd => dated rd) (combine (map (reindex raw_columns) raw) dates))) =
        Ok es.
Proof.
  set (K := fun rd : Row * Value =>
              rbind (group_of key_fields "parameter" (dated rd)) (fun g =>
              entry_of "value" g (dated rd))).
  assert (Hrow : forall r e,
            raw_entry r = Ok e <->
            exists d, convert (utc_of (cell "date" (reindex raw_columns r))) = Ok d /\
                      K (reindex raw_columns r, d) = Ok e).
  { intros r e. rewrite raw_entry_steps. apply rbind_ok. }
  assert (Hgroups : forall rows'' es,
            (exists groups,
               rmap (group_of key_fields "parameter") rows'' = Ok groups /\
               rmap (fun gr => entry_of "value" (fst gr) (snd gr)) (combine groups rows'') =
                 Ok es) <->
            Forall2 (fun r'' e => rbind (group_of key_fields "parameter" r'') (fun g =>
                                  entry_of "value" g r'') = Ok e) rows'' es).
  { intros rows'' es'.
    rewrite (rmap_with_l (group_of key_fields "parameter")
               (fun gr => entry_of "value" (fst gr) (snd gr)) rows'' es').
    apply Forall2_iff. intros r'' e. symmetry. apply rbind_ok. }
  rewrite (Forall2_iff _ _ Hrow raw es).
  rewrite <- (Forall2_map_l (reindex raw_columns)
                (fun r' e => exists d, convert (utc_of (cell "date" r')) = Ok d /\
                                       K (r', d) = Ok e)).
  rewrite <- (rmap_with (fun r' => convert (utc_of (cell "date" r'))) K).
  split; intros (dates & Hd & H); exists dates; (split; [exact Hd|]).
  - apply Hgroups. apply Forall2_map_l. apply rmap_ok in H. exact H.
  - apply Hgroups in H. apply Forall2_map_l in H. apply rmap_ok. exact H.
Qed.

(** A raw row that contributes an entry has a string for parameter and a
    composite key of four labels. *)
Lemma raw_entry_some r e :
  raw_entry r = Ok (Some e) ->
  cell "parameter" r = VStr (entry_column e) /\ List.length (entry_key e) = 4%nat.
Proof.
  unfold raw_entry.
  destruct (convert _) as [d|]; cbn [rbind]; [|discriminate].
  destruct (rmap label_of _) as [ks|] eqn:Hks; cbn [rbind]; [|discriminate].
  apply rmap_length in Hks.
  destruct (cell "parameter" r) as [|q|s|t|d'|b|l]; cbn; try discriminate.
  - destruct (all_some ks); discriminate.
  - destruct (all_some ks) as [k|] eqn:Hk; [|discriminate].
    destruct (numeric_of _) as [v|]; cbn; [|discriminate].
    intros [= <-]. cbn. split; [reflexivity|].
    rewrite (all_some_length _ _ Hk), Hks. reflexivity.
Qed.

(** The unit of a raw row is not read. *)
Lemma raw_entry_ext r r' :
  (forall c, c <> "unit" -> cell c r = cell c r') -> raw_entry r = raw_entry r'.
Proof.
  intros H. unfold raw_entry.
  rewrite (H "date"), (H "location"), (H "city"), (H "country"), (H "parameter"),
    (H "value") by discriminate.
  reflexivity.
Qed.

Lemma raw_entry_raise r x : raw_entry r = Raise x -> is_RequestException x = false.
Proof.
  unfold raw_entry. intros H.
  apply rbind_raise in H. destruct H as [H|(d & _ & H)].
  { unfold DataCollector.convert in H.
    destruct (utc_of (cell "date" r)) as [|q|s|t|d|b|l]; try discriminate;
      try (injection H as <-; reflexivity).
    destruct (is_nat_string s); [discriminate|].
    destruct (parse_datetime source s); [discriminate|]. injection H as <-. reflexivity. }
  apply rbind_raise in H. destruct H as [H|(ks & _ & H)].
  { apply rmap_raise in H. destruct H as (v & _ & H).
    destruct v; cbn in H; try discriminate; injection H as <-; reflexivity. }
  apply rbind_raise in H. destruct H as [H|(c & _ & H)].
  { destruct (cell "parameter" r); cbn in H; try discriminate; injection H as <-;
      reflexivity. }
  destruct (all_some ks); [|discriminate]. destruct c; [|discriminate].
  apply rbind_raise in H. destruct H as [H|(v & _ & H)]; [|discriminate].
  destruct (cell "value" r); cbn in H; try discriminate; injection H as <-; reflexivity.
Qed.

Lemma group_values_raw raw es k p :
  Forall2 (fun r e => raw_entry r = Ok e) raw es ->
  group_values (kept_entries es) k p =
  flat_map (fun r => match raw_entry r with
                     | Ok (Some e) =>
                         if key_eqb (entry_key e) k && String.eqb (entry_column e) p
                         then option_to_list (entry_value e)
                         else []
                     | _ => []
                     end) raw.
Proof.
  intros Hes. rewrite group_values_kept. unfold group_values.
  induction Hes as [|r e raw' es' Hr _ IH]; [reflexivity|].
  cbn [flat_map]. rewrite flat_map_app, IH, Hr.
  destruct e as [e|]; cbn [option_to_list flat_map]; [|reflexivity].
  now rewrite app_nil_r.
Qed.

Lemma length_kept raw es :
  Forall2 (fun r e => raw_entry r = Ok e) raw es ->
  (List.length (kept_entries es) <= List.length raw)%nat.
Proof.
  intros Hes. unfold kept_entries.
  etransitivity; [apply filter_length_le|].
  induction Hes as [|r e raw' es' _ _ IH]; [reflexivity|].
  cbn [flat_map]. rewrite length_app. destruct e; cbn; lia.
Qed.

Section Entries.

Variable raw : list Row.
Variable es : list (option Entry).
Hypothesis Hes : Forall2 (fun r e => raw_entry r = Ok e) raw es.

Lemma reshaped_labels p :
  In p (pivot_labels (kept_entries es)) <-> exists r k, In r raw /\ measured r k p.
Proof.
  rewrite In_pivot_labels. split.
  - intros (e & He & <-). apply In_kept in He. destruct He as [He Hv].
    destruct (Forall2_In_r _ _ _ _ Hes He) as (r & Hr & Hre).
    destruct e as [k c [v|]]; [|discriminate]. exists r, k. split; [assumption|].
    exists v. exact Hre.
  - intros (r & k & Hr & v & Hre).
    destruct (Forall2_In_l _ _ _ _ Hes Hr) as (e & He & Hre').
    rewrite Hre in Hre'. injection Hre' as <-.
    exists (mkEntry k p (Some v)). split; [|reflexivity]. apply In_kept. auto.
Qed.

Lemma kept_key_length e :
  In e (kept_entries es) -> List.length (entry_key e) = 4%nat.
Proof.
  intros He. apply In_kept in He. destruct He as [He _].
  destruct (Forall2_In_r _ _ _ _ Hes He) as (r & _ & Hre).
  now apply raw_entry_some in Hre.
Qed.

Lemma reshaped_keys :
  map composite_key (rows (reshaped es)) =
  map (map value_of_label) (pivot_index (kept_entries es)).
Proof.
  unfold reshaped. cbn [rows]. rewrite map_map. apply map_ext_in.
  intros k Hk. apply composite_key_table_row.
  apply In_pivot_index in Hk. destruct Hk as (e & He & <-).
  now apply kept_key_length.
Qed.

(** The shape of the reshaped table of a raw table whose rows all have an
    entry. *)
Lemma reshaped_shape :
  (forall c, In c (pivot_labels (kept_entries es)) -> mem c key_fields = false) ->
  NoDup (pivot_labels (kept_entries es)) /\
  (forall p, In p (pivot_labels (kept_entries es)) -> ~ In p key_fields) /\
  (forall p, In p (pivot_labels (kept_entries es)) <->
             exists r k, In r raw /\ measured r k p) /\
  NoDup (map composite_key (rows (reshaped es))) /\
  (forall r1 r2 k p1 p2,
     In r1 raw -> In r2 raw -> measured r1 k p1 -> measured r2 k p2 ->
     exists row q1 q2,
       In row (rows (reshaped es)) /\ composite_key row = map value_of_label k /\
       cell p1 row = VNum q1 /\ cell p2 row = VNum q2).
Proof.
  intros Hclash.
  split; [apply NoDup_pivot_labels|].
  split; [intros p Hp; apply mem_false, Hclash, Hp|].
  split; [exact reshaped_labels|].
  split.
  - rewrite reshaped_keys.
    apply NoDup_map_NoDup_ForallPairs; [|apply NoDup_pivot_index].
    intros k1 k2 _ _. apply map_value_of_label_inj.
  - intros r1 r2 k p1 p2 Hr1 Hr2 [v1 H1] [v2 H2].
    destruct (Forall2_In_l _ _ _ _ Hes Hr1) as (e1 & He1 & He1'). rewrite H1 in He1'.
    injection He1' as <-.
    destruct (Forall2_In_l _ _ _ _ Hes Hr2) as (e2 & He2 & He2'). rewrite H2 in He2'.
    injection He2' as <-.
    assert (Hk1 : In (mkEntry k p1 (Some v1)) (kept_entries es)) by (apply In_kept; auto).
    assert (Hk2 : In (mkEntry k p2 (Some v2)) (kept_entries es)) by (apply In_kept; auto).
    pose proof (kept_key_length _ Hk1) as Hlen. cbn in Hlen.
    destruct (group_mean_some _ _ _ _ Hk1) as [q1 Hq1].
    destruct (group_mean_some _ _ _ _ Hk2) as [q2 Hq2].
    exists (table_row (kept_entries es) k), q1, q2.
    assert (Hp : forall p v, In (mkEntry k p (Some v)) (kept_entries es) ->
                  In p (pivot_labels (kept_entries es)))
      by (intros p v Hin; apply In_pivot_labels; eexists; split; [exact Hin|reflexivity]).
    split; [|split; [now apply composite_key_table_row|split]].
    + unfold reshaped. cbn [rows]. apply in_map, In_pivot_index.
      eexists; split; [exact Hk1|reflexivity].
    + rewrite cell_table_row by (try assumption; apply Hclash; eapply Hp; eassumption).
      rewrite (proj2 (mem_In _ _) (Hp _ _ Hk1)). exact Hq1.
    + rewrite cell_table_row by (try assumption; apply Hclash; eapply Hp; eassumption).
      rewrite (proj2 (mem_In _ _) (Hp _ _ Hk2)). exact Hq2.
Qed.

End Entries.

End ReshapeRows.


Section ReshapeProperties.

Variable parse_datetime : option string -> string -> option Z.

Local Notation _process_data := (_process_data parse_datetime).
Local Notation raw_entry := (raw_entry parse_datetime).
Local Notation to_datetime := (to_datetime parse_datetime).
Local Notation measured := (measured parse_datetime).

(** [_process_data] returns a table exactly when the raw columns are
    there, every row has an entry, the dates being read by the format of
    the column, and no parameter with a value bears the name of a key
    field; the table is the reshaped one. *)
Lemma process_data_iff df t :
  empty df = false ->
  _process_data df = Ok t <->
  (forall c, In c raw_columns -> mem c (columns df) = true) /\
  exists es,
    Forall2 (fun r e => raw_entry (date_source (rows df)) r = Ok e) (rows df) es /\
    (forall c, In c (pivot_labels (kept_entries es)) -> mem c key_fields = false) /\
    t = reshaped es.
Proof.
  intros Hne. unfold DataCollector._process_data. rewrite Hne. unfold getitem_columns.
  destruct (filter (fun c => negb (mem c (columns df))) raw_columns) eqn:Hf.
  2:{ split; [discriminate|]. intros [Hcols _].
      rewrite filter_none in Hf by (intros c Hc; now rewrite Hcols). discriminate. }
  assert (Hcols : forall c, In c raw_columns -> mem c (columns df) = true).
  { intros c Hc. destruct (mem c (columns df)) eqn:Hm; [reflexivity|].
    assert (Hin : In c (filter (fun c => negb (mem c (columns df))) raw_columns))
      by (apply filter_In; now rewrite Hm).
    rewrite Hf in Hin. destruct Hin. }
  cbn [rbind]. unfold DataCollector.to_datetime, column_cells. cbn [rows columns].
  assert (Hsrc : format_source
                   (map utc_of (map (cell "date") (map (reindex raw_columns) (rows df)))) =
                 date_source (rows df)).
  { unfold date_source. rewrite !map_map. reflexivity. }
  rewrite Hsrc, !rmap_map.
  unfold pivot_table_mean, assign_values. cbn [columns rows].
  change (filter _ (key_fields ++ ["parameter"; "value"])) with (@nil string).
  assert (Hreset : forall es t,
            reset_index
              (mkPivotTable key_fields (pivot_labels (kept_entries es))
                 (map (fun k => (k, map (fun c => (c, group_mean (kept_entries es) k c))
                                        (pivot_labels (kept_entries es))))
                      (pivot_index (kept_entries es)))) = Ok t <->
            (forall c, In c (pivot_labels (kept_entries es)) -> mem c key_fields = false) /\
            t = reshaped es).
  { intros es t'. unfold reset_index. cbn [index_names table_columns table_rows].
    destruct (filter _ (pivot_labels (kept_entries es))) eqn:Hclash.
    - split.
      + intros [= <-]. split.
        * intros c Hc. destruct (mem c key_fields) eqn:Hm; [|reflexivity].
          assert (Hin : In c (filter (fun c => mem c key_fields)
                                (pivot_labels (kept_entries es))))
            by (apply filter_In; auto).
          rewrite Hclash in Hin. destruct Hin.
        * unfold reshaped. rewrite map_map. reflexivity.
      + intros [_ ->]. unfold reshaped. rewrite map_map. reflexivity.
    - split; [discriminate|]. intros [Hno _].
      rewrite filter_none in Hclash by exact Hno. discriminate. }
  split.
  - intros H. split; [exact Hcols|].
    apply rbind_ok in H. destruct H as (dates & Hd & H).
    apply rbind_ok in H. destruct H as (table & H & Ht).
    apply rbind_ok in H. destruct H as (groups & Hg & H).
    apply rbind_ok in H. destruct H as (es & He & [= <-]).
    apply Hreset in Ht. exists es. split; [|exact Ht].
    apply (entries_by_passes parse_datetime (date_source (rows df))).
    rewrite rmap_map. eauto.
  - intros (_ & es & Hes & Hclash & ->).
    apply (entries_by_passes parse_datetime (date_source (rows df))) in Hes.
    destruct Hes as (dates & Hd & groups & Hg & He). rewrite rmap_map in Hd.
    apply rbind_ok. exists dates. split; [exact Hd|].
    apply rbind_ok. eexists. split.
    + apply rbind_ok. exists groups. split; [exact Hg|].
      apply rbind_ok. exists es. split; [exact He|reflexivity].
    + apply Hreset. auto.
Qed.

Lemma process_data_inv df t :
  empty df = false ->
  _process_data df = Ok t ->
  exists es,
    Forall2 (fun r e => raw_entry (date_source (rows df)) r = Ok e) (rows df) es /\
    (forall c, In c (pivot_labels (kept_entries es)) -> mem c key_fields = false) /\
    (forall c, In c raw_columns -> mem c (columns df) = true) /\
    t = reshaped es.
Proof.
  intros Hne H. apply (process_data_iff df t Hne) in H.
  destruct H as (Hcols & es & Hes & Hclash & Ht). exists es. auto.
Qed.

Lemma process_data_ok df es :
  empty df = false ->
  (forall c, In c raw_columns -> mem c (columns df) = true) ->
  Forall2 (fun r e => raw_entry (date_source (rows df)) r = Ok e) (rows df) es ->
  (forall c, In c (pivot_labels (kept_entries es)) -> mem c key_fields = false) ->
  _process_data df = Ok (reshaped es).
Proof.
  intros Hne Hcols Hes Hclash. apply (process_data_iff df _ Hne).
  split; [exact Hcols|]. exists es. auto.
Qed.

Lemma reshaped_table_shape df t :
  empty df = false ->
  _process_data df = Ok t ->
  exists labels,
    columns t = key_fields ++ labels /\
    NoDup labels /\
    (forall p, In p labels -> ~ In p key_fields) /\
    (forall p, In p labels <->
               exists r k, In r (rows df) /\ measured (date_source (rows df)) r k p) /\
    NoDup (map composite_key (rows t)) /\
    (forall r1 r2 k p1 p2,
       In r1 (rows df) -> In r2 (rows df) ->
       measured (date_source (rows df)) r1 k p1 ->
       measured (date_source (rows df)) r2 k p2 ->
       exists row q1 q2,
         In row (rows t) /\ composite_key row = map value_of_label k /\
         cell p1 row = VNum q1 /\ cell p2 row = VNum q2).
Proof.
  intros Hne H. destruct (process_data_inv df t Hne H) as (es & Hes & Hclash & _ & ->).
  exists (pivot_labels (kept_entries es)). split; [reflexivity|].
  exact (reshaped_shape parse_datetime (date_source (rows df)) (rows df) es Hes Hclash).
Qed.

Lemma table_columns_origin df t :
  empty df = false ->
  _process_data df = Ok t ->
  forall c, In c (columns t) ->
    In c key_fields \/ exists r, In r (rows df) /\ cell "parameter" r = VStr c.
Proof.
  intros Hne H.
  destruct (reshaped_table_shape df t Hne H) as (labels & -> & _ & _ & Hlabels & _).
  intros c Hc. apply in_app_or in Hc. destruct Hc as [Hc|Hc]; [now left|right].
  apply Hlabels in Hc. destruct Hc as (r & k & Hr & v & Hre).
  exists r. split; [assumption|]. now apply raw_entry_some in Hre.
Qed.

Lemma date_source_ext raw raw' :
  Forall2 (fun r r' => cell "date" r = cell "date" r') raw raw' ->
  date_source raw = date_source raw'.
Proof.
  intros H. unfold date_source. f_equal.
  induction H as [|r r' l l' Hr _ IH]; [reflexivity|]. cbn [map]. now rewrite Hr, IH.
Qed.

(** What a reshape keeps of the raw table: key fields and parameters for
    columns, and nothing of the unit cells. *)
Lemma process_data_discards_unit df t :
  empty df = false ->
  _process_data df = Ok t ->
  (forall c, In c (columns t) ->
     In c key_fields \/ exists r, In r (rows df) /\ cell "parameter" r = VStr c) /\
  (forall c, In c ["unit"; "value"; "parameter"] ->
     (forall r, In r (rows df) -> cell "parameter" r <> VStr c) ->
     ~ In c (columns t)) /\
  (forall df',
     columns df' = columns df ->
     Forall2 (fun r r' => forall c, c <> "unit" -> cell c r = cell c r') (rows df) (rows df') ->
     _process_data df' = Ok t).
Proof.
  intros Hne H. pose proof (table_columns_origin df t Hne H) as Hcols.
  split; [exact Hcols|]. split.
  - intros c Hc Hno Hin. apply Hcols in Hin. destruct Hin as [Hin|(r & Hr & Hp)].
    + cbn in Hc, Hin. intuition congruence.
    + exact (Hno r Hr Hp).
  - intros df' Hc Hrows.
    destruct (process_data_inv df t Hne H) as (es & Hes & Hclash & Hraw & ->).
    apply process_data_ok.
    + apply empty_false in Hne. apply empty_false. rewrite Hc. split; [tauto|].
      destruct Hne as [_ Hr]. apply Forall2_length in Hrows.
      destruct (rows df), (rows df'); cbn in Hrows; congruence.
    + now rewrite Hc.
    + assert (Hsrc : date_source (rows df') = date_source (rows df)).
      { symmetry. apply date_source_ext.
        eapply Forall2_impl; [|exact Hrows]. intros r r' Hrr'. apply Hrr'. discriminate. }
      rewrite Hsrc. clear - Hes Hrows. revert es Hes.
      generalize (date_source (rows df)). intros source.
      induction Hrows as [|r r' l l' Hrr' _ IH]; intros es Hes; inversion Hes; subst;
        constructor; [|now apply IH].
      now rewrite <- (raw_entry_ext parse_datetime source r r').
    + exact Hclash.
Qed.

(** C5 (as amended).  [_process_data] returns its own output unchanged
    only when that output is an empty table.  Applied to an output with at
    least one row it does not return the table: the wide table has no
    [parameter], [value] or [unit] column (no raw parameter bearing such a
    name), and the selection of the raw columns raises [KeyError] for these
    three. *)
Theorem reshape_of_reshaped_table df t :
  _process_data df = Ok t ->
  (empty t = true -> _process_data t = Ok t) /\
  (empty t = false ->
   (forall r c, In r (rows df) -> In c ["parameter"; "value"; "unit"] ->
                cell "parameter" r <> VStr c) ->
   _process_data t = Raise (KeyError ["parameter"; "value"; "unit"])).
Proof.
  intros H. split.
  - intros He. unfold DataCollector._process_data. now rewrite He.
  - intros Hne Hno.
    destruct (empty df) eqn:Hdf.
    { unfold DataCollector._process_data in H. rewrite Hdf in H. congruence. }
    pose proof (table_columns_origin df t Hdf H) as Hout.
    destruct (reshaped_table_shape df t Hdf H) as (labels & Hcols & _).
    assert (Hm : forall c, In c ["unit"; "value"; "parameter"] -> mem c labels = false).
    { intros c Hc. apply mem_false. intros Hin.
      destruct (Hout c) as [Hk|(r & Hr & Hp)].
      - rewrite Hcols. apply in_or_app. now right.
      - cbn in Hc, Hk. intuition congruence.
      - apply (Hno r c); [assumption| |assumption]. cbn in Hc |- *. tauto. }
    unfold DataCollector._process_data. rewrite Hne. unfold getitem_columns. rewrite Hcols.
    cbn [raw_columns filter]. rewrite !mem_app.
    rewrite (Hm "unit"), (Hm "value"), (Hm "parameter") by (cbn; tauto).
    reflexivity.
Qed.

(** C6 (as amended).  A raw table with the raw columns and exactly two
    rows that agree on date, location, city, country and parameter (a date
    that [to_datetime] reads, in the column of the two, as the timestamp
    [t]; strings for location, city and country; a parameter that is not the
    name of a key field) and hold the values 10 and 20 is reshaped to a
    single row for that composite key, whose cell for the parameter is
    15. *)
Theorem colliding_values_are_averaged df r1 r2 d t location city country parameter :
  rows df = [r1; r2] ->
  (forall c, In c raw_columns -> In c (columns df)) ->
  (forall r, In r [r1; r2] ->
     cell "date" r = d /\ cell "location" r = VStr location /\ cell "city" r = VStr city /\
     cell "country" r = VStr country /\ cell "parameter" r = VStr parameter) ->
  cell "value" r1 = VNum (inject_Z 10) ->
  cell "value" r2 = VNum (inject_Z 20) ->
  to_datetime [utc_of d; utc_of d] = Ok [VTimestamp t; VTimestamp t] ->
  ~ In parameter key_fields ->
  _process_data df =
  Ok (mkDataFrame (key_fields ++ [parameter])
        [[("date", VTimestamp t); ("location", VStr location); ("city", VStr city);
          ("country", VStr country); (parameter, VNum (inject_Z 15))]]).
Proof.
  intros Hrows Hcols Hcells Hv1 Hv2 Hd Hp.
  set (k := [LTimestamp t; LStr location; LStr city; LStr country]).
  assert (Hkk : key_eqb k k = true) by now apply key_eqb_eq.
  assert (Hsrc : date_source (rows df) = format_source [utc_of d; utc_of d]).
  { rewrite Hrows. unfold date_source. cbn [map].
    destruct (Hcells r1 ltac:(now left)) as (-> & _).
    destruct (Hcells r2 ltac:(right; now left)) as (-> & _). reflexivity. }
  assert (Hconv : convert parse_datetime (date_source (rows df)) (utc_of d) =
                  Ok (VTimestamp t)).
  { rewrite Hsrc. unfold DataCollector.to_datetime in Hd. cbn [rmap] in Hd.
    destruct (convert parse_datetime _ (utc_of d)) as [v|]; [|discriminate].
    cbn in Hd. now injection Hd as ->. }
  assert (Hraw : forall r v, In r [r1; r2] -> cell "value" r = VNum v ->
                   raw_entry (date_source (rows df)) r =
                   Ok (Some (mkEntry k parameter (Some v)))).
  { intros r v Hr Hv. unfold raw_entry.
    destruct (Hcells r Hr) as (-> & -> & -> & -> & ->). rewrite Hconv, Hv. reflexivity. }
  assert (Hlabels : pivot_labels
            [mkEntry k parameter (Some (inject_Z 10)); mkEntry k parameter (Some (inject_Z 20))]
            = [parameter]).
  { unfold pivot_labels, distinct_by. cbn [map entry_column fold_left existsb app].
    rewrite String.eqb_refl. reflexivity. }
  rewrite (process_data_ok df
             [Some (mkEntry k parameter (Some (inject_Z 10)));
              Some (mkEntry k parameter (Some (inject_Z 20)))]).
  - unfold reshaped, table_row. cbn [kept_entries flat_map option_to_list app filter
                                      entry_value is_some].
    rewrite Hlabels. unfold pivot_index, distinct_by.
    cbn [map entry_key fold_left existsb app]. rewrite Hkk.
    cbn [orb sort fold_right insert_sorted map].
    unfold group_mean, group_values. cbn [flat_map entry_key entry_column entry_value].
    rewrite Hkk, String.eqb_refl. reflexivity.
  - apply empty_false. rewrite Hrows. split; [|discriminate].
    intros Hnil. specialize (Hcols "date" ltac:(now left)). rewrite Hnil in Hcols.
    destruct Hcols.
  - intros c Hc. apply mem_In, Hcols, Hc.
  - revert Hraw. generalize (date_source (rows df)). intros src Hraw.
    rewrite Hrows. repeat constructor; apply Hraw; cbn; auto.
  - cbn [kept_entries flat_map option_to_list app filter entry_value is_some].
    rewrite Hlabels. intros c [<-|[]]. now apply mem_false.
Qed.

(** [_process_data] raises no [RequestException]. *)
Lemma process_data_raise df x :
  _process_data df = Raise x -> is_RequestException x = false.
Proof.
  unfold DataCollector._process_data. destruct (empty df); [discriminate|]. intros H.
  apply rbind_raise in H. destruct H as [H|(df1 & _ & H)].
  { unfold getitem_columns in H. destruct (filter _ _); [discriminate|].
    injection H as <-. reflexivity. }
  apply rbind_raise in H. destruct H as [H|(dates & _ & H)].
  { unfold DataCollector.to_datetime in H. apply rmap_raise in H.
    destruct H as (v & _ & H). unfold convert in H.
    destruct v as [|q|s|t|d|b|l]; try discriminate; try (injection H as <-; reflexivity).
    destruct (is_nat_string s); [discriminate|].
    destruct (parse_datetime _ s); [discriminate|]. injection H as <-. reflexivity. }
  apply rbind_raise in H. destruct H as [H|(table & _ & H)].
  { unfold pivot_table_mean in H. destruct (filter _ _).
    - apply rbind_raise in H. destruct H as [H|(groups & _ & H)].
      + apply rmap_raise in H. destruct H as (r & _ & H). unfold group_of in H.
        apply rbind_raise in H. destruct H as [H|(ks & _ & H)].
        { apply rmap_raise in H. destruct H as (c & _ & H).
          destruct (cell c r); cbn in H; try discriminate; injection H as <-; reflexivity. }
        apply rbind_raise in H. destruct H as [H|(c & _ & H)]; [|discriminate].
        destruct (cell "parameter" r); cbn in H; try discriminate; injection H as <-;
          reflexivity.
      + apply rbind_raise in H. destruct H as [H|(es & _ & H)]; [|discriminate].
        apply rmap_raise in H. destruct H as ([g r] & _ & H). unfold entry_of in H.
        cbn [fst snd] in H. destruct g as [[k c]|]; [|discriminate].
        apply rbind_raise in H. destruct H as [H|(v & _ & H)]; [|discriminate].
        destruct (cell "value" r); cbn in H; try discriminate; injection H as <-;
          reflexivity.
    - injection H as <-. reflexivity. }
  unfold reset_index in H. destruct (filter _ _); [discriminate|].
  injection H as <-. reflexivity.
Qed.

End ReshapeProperties.
(** ** The whole call *)

Lemma pd_concat_nonempty dfs :
  dfs <> [] -> (forall df, In df dfs -> empty df = false) ->
  exists combined, pd_concat dfs = Ok combined /\ empty combined = false.
Proof.
  intros Hne Hall. destruct dfs as [|df dfs]; [contradiction|].
  eexists. split; [reflexivity|]. apply empty_false.
  destruct (proj1 (empty_false df) (Hall df ltac:(now left))) as [Hc Hr].
  cbn [columns rows]. split.
  - destruct (columns df) as [|c cs] eqn:Hcols; [contradiction|].
    intros H.
    assert (Hin : In c (distinct (flat_map columns (df :: dfs)))).
    { apply (In_distinct_by String.eqb String.eqb_eq). cbn [flat_map]. rewrite Hcols.
      now left. }
    rewrite H in Hin. destruct Hin.
  - cbn [flat_map]. destruct (rows df); [contradiction|]. discriminate.
Qed.

Lemma pd_concat_ok dfs combined :
  pd_concat dfs = Ok combined ->
  combined =
  mkDataFrame (distinct (flat_map columns dfs))
    (flat_map (fun df => map (reindex (distinct (flat_map columns dfs))) (rows df)) dfs).
Proof. unfold pd_concat. destruct dfs; [discriminate|]. now intros [= <-]. Qed.

Lemma pd_concat_rows dfs combined r :
  pd_concat dfs = Ok combined -> In r (rows combined) ->
  exists df r0, In df dfs /\ In r0 (rows df) /\ r = reindex (columns combined) r0.
Proof.
  intros H. rewrite (pd_concat_ok dfs combined H). cbn [rows columns].
  rewrite in_flat_map. intros (df & Hdf & Hr).
  apply in_map_iff in Hr. destruct Hr as (r0 & <- & Hr0). eauto.
Qed.

Lemma pd_concat_columns dfs combined df c :
  pd_concat dfs = Ok combined -> In df dfs -> In c (columns df) -> In c (columns combined).
Proof.
  intros H Hdf Hc. rewrite (pd_concat_ok dfs combined H). cbn [columns].
  apply (In_distinct_by String.eqb String.eqb_eq). apply in_flat_map. eauto.
Qed.

Lemma is_nil_true {A : Type} (l : list A) : is_nil l = true <-> l = [].
Proof. destruct l; cbn; split; congruence. Qed.

Section WholeCall.

Variable server : Server.
Variable parse_datetime : option string -> string -> option Z.
Variable self : Collector.
Variable location_id : Value.
Variables start_date end_date : string.
Variable max_pages : Z.

Local Notation request := (measurements_request self location_id start_date end_date).
Local Notation page_loop :=
  (page_loop server self location_id start_date end_date max_pages).
Local Notation fetch_air_quality_data :=
  (fetch_air_quality_data server parse_datetime self location_id start_date end_date
     max_pages).
Local Notation page_outcome := (page_outcome server self location_id start_date end_date).
Local Notation served := (served server self location_id start_date end_date).
Local Notation page_log := (page_log location_id).
Local Notation error_log := (error_log location_id).
Local Notation full_events := (full_events self location_id start_date end_date).
Local Notation contribution :=
  (contribution server self location_id start_date end_date max_pages).
Local Notation events_of :=
  (events_of server self location_id start_date end_date max_pages).
Local Notation failure :=
  (failure server self location_id start_date end_date max_pages).
Local Notation ran := (ran server self location_id start_date end_date max_pages).
Local Notation first_failure :=
  (first_failure server self location_id start_date end_date max_pages).
Local Notation _process_data := (_process_data parse_datetime).
Local Notation measured := (measured parse_datetime).
Local Notation raw_entry := (raw_entry parse_datetime).
Local Notation fetch_value :=
  (fetch_value server self location_id start_date end_date max_pages parse_datetime).
Local Notation fetch_trace :=
  (fetch_trace server self location_id start_date end_date max_pages parse_datetime).

(** A call raises no [RequestException]. *)
Lemma fetch_raise parameters tr x :
  fst (fetch_air_quality_data parameters tr) = Raise x -> is_RequestException x = false.
Proof.
  rewrite fetch_value.
  destruct (first_failure (requested parameters)) as [e|] eqn:Hf.
  { intros [= <-]. eapply first_failure_raise, Hf. }
  cbn zeta. destruct (is_nil _); [discriminate|].
  destruct (pd_concat _) as [combined|y] eqn:Hc; cbn [rbind].
  - apply process_data_raise.
  - intros [= <-]. unfold pd_concat in Hc. destruct (flat_map _ _); [|discriminate].
    injection Hc as <-. reflexivity.
Qed.


(** C7 (as amended).  When something was accumulated and the call returns a
    table, its columns are the four key fields followed by distinct
    parameter columns: exactly the parameters of the accumulated rows that
    are measured, that is whose date, location, city and country are all
    present and whose value is present (a parameter with rows but no
    measured row gets no column).  No composite key occurs in two rows, and
    two measured rows with the same composite key, whatever their
    parameters, populate their two parameter columns in one row.  The call
    does return a table, the reshaped one, when no loop raises, the
    accumulated rows have the raw columns, each of them can be read (a date
    that converts by the format of the column, hashable key cells, and for
    a row with a complete key a numeric or missing value) and no parameter
    with a value is named like a key field. *)
Theorem returned_table_shape parameters tr :
  let data := flat_map contribution match parameters with
                                    | None => default_parameters
                                    | Some ps => ps
                                    end in
  data <> [] ->
  (forall t,
     fst (fetch_air_quality_data parameters tr) = Ok t ->
     exists combined labels,
       pd_concat data = Ok combined /\
       columns t = key_fields ++ labels /\
       NoDup labels /\
       (forall p, In p labels -> ~ In p key_fields) /\
       (forall p, In p labels <->
                  exists r k, In r (rows combined) /\
                              measured (date_source (rows combined)) r k p) /\
       NoDup (map composite_key (rows t)) /\
       (forall r1 r2 k p1 p2,
          In r1 (rows combined) -> In r2 (rows combined) ->
          measured (date_source (rows combined)) r1 k p1 ->
          measured (date_source (rows combined)) r2 k p2 ->
          exists row q1 q2,
            In row (rows t) /\ composite_key row = map value_of_label k /\
            cell p1 row = VNum q1 /\ cell p2 row = VNum q2)) /\
  (forall combined es,
     first_failure match parameters with
                   | None => default_parameters
                   | Some ps => ps
                   end = None ->
     pd_concat data = Ok combined ->
     (forall c, In c raw_columns -> In c (columns combined)) ->
     Forall2 (fun r e => raw_entry (date_source (rows combined)) r = Ok e)
             (rows combined) es ->
     (forall c, In c (pivot_labels (kept_entries es)) -> ~ In c key_fields) ->
     fst (fetch_air_quality_data parameters tr) = Ok (reshaped es)).
Proof.
  intros data Hne.
  destruct (pd_concat_nonempty data Hne
              (accumulated_nonempty server self location_id start_date end_date max_pages _))
    as (combined & Hc & He).
  assert (Hfetch : first_failure (requested parameters) = None ->
                   fst (fetch_air_quality_data parameters tr) = _process_data combined).
  { intros Hnone. rewrite fetch_value, Hnone. cbn zeta.
    change (flat_map contribution (requested parameters)) with data.
    destruct data as [|df data'] eqn:Hdata; [contradiction|]. cbn [is_nil].
    rewrite Hc. reflexivity. }
  split.
  - intros t H.
    assert (Hnone : first_failure (requested parameters) = None).
    { rewrite fetch_value in H. destruct (first_failure (requested parameters));
        [discriminate|reflexivity]. }
    rewrite (Hfetch Hnone) in H. exists combined.
    destruct (reshaped_table_shape parse_datetime combined t He H) as (labels & Hshape).
    exists labels. split; [exact Hc|exact Hshape].
  - intros combined' es Hnone Hc' Hcols Hes Hclash. rewrite Hc in Hc'. injection Hc' as <-.
    rewrite (Hfetch Hnone). apply process_data_ok; try assumption.
    + intros c Hin. apply mem_In, Hcols, Hin.
    + intros c Hin. apply mem_false, Hclash, Hin.
Qed.

End WholeCall.
(** ** [get_locations] *)

Section LocationsProperties.

Variable server : Server.
Variable self : Collector.

Local Notation get_locations := (get_locations server self).
Local Notation locations_request := (locations_request self).

Lemma get_locations_spec city country limit tr :
  get_locations city country limit tr =
  let req := locations_request city country limit in
  let tr1 := tr ++ [Logged LvInfo (MsgMakingRequest (url req));
                    Logged LvInfo (MsgWithParams (params req));
                    Logged LvInfo (MsgUsingHeaders (headers req));
                    HttpGet req] in
  match server req with
  | NoReply =>
      (Ok (VList []),
       tr1 ++ [Logged LvError (MsgLocationsError city country ConnectionError)])
  | Reply r =>
      let tr2 := tr1 ++ [Logged LvInfo (MsgStatusCode (status_code r));
                         Logged LvInfo MsgResponseHeaders] in
      if (400 <=? status_code r) && (status_code r <? 600)
      then (Ok (VList []),
            tr2 ++ [Logged LvError
                      (MsgLocationsError city country
                         (HTTPError (status_code r) (text r)));
                    Logged LvError (MsgResponseText (text r))])
      else
        match json r with
        | None =>
            (Ok (VList []),
             tr2 ++ [Logged LvError (MsgLocationsError city country JSONDecodeError)])
        | Some data =>
            match py_get "results" data (VList []) with
            | Raise x => (Raise x, tr2)
            | Ok locations =>
                if truthy locations
                then match py_len locations with
                     | Ok n =>
                         (Ok locations,
                          tr2 ++ [Logged LvInfo (MsgFoundLocations n city country)])
                     | Raise x => (Raise x, tr2)
                     end
                else (Ok locations, tr2 ++ [Logged LvWarning (MsgNoLocations city country)])
            end
        end
  end.
Proof.
  unfold DataCollector.get_locations, locations_request.
  unfold try_except, bind, log, requests_get, emit, raise_for_status, ret, raise, lift,
    response_json.
  cbn zeta. cbn [url params headers].
  destruct (server _) as [|r]; cbn.
  { now rewrite <- !app_assoc. }
  destruct ((400 <=? status_code r) && (status_code r <? 600)); cbn.
  { now rewrite <- !app_assoc. }
  destruct (json r) as [data|]; cbn.
  2:{ now rewrite <- !app_assoc. }
  destruct (py_get "results" data (VList [])) as [locations|x] eqn:Hget; cbn.
  2:{ rewrite (py_get_raise _ _ _ _ Hget). now rewrite <- !app_assoc. }
  destruct (truthy locations); cbn.
  - destruct (py_len locations) as [n|x] eqn:Hlen; cbn.
    + now rewrite <- !app_assoc.
    + rewrite (py_len_raise _ _ Hlen). now rewrite <- !app_assoc.
  - now rewrite <- !app_assoc.
Qed.

(** A call of [get_locations] replayed after a trace. *)
Lemma get_locations_extend city country limit tr :
  get_locations city country limit tr =
  (fst (get_locations city country limit []),
   tr ++ snd (get_locations city country limit [])).
Proof.
  rewrite !get_locations_spec. cbn zeta.
  destruct (server _) as [|r]; [cbn; now rewrite <- !app_assoc|].
  destruct ((400 <=? status_code r) && (status_code r <? 600));
    [cbn; now rewrite <- !app_assoc|].
  destruct (json r) as [data|]; [|cbn; now rewrite <- !app_assoc].
  destruct (py_get "results" data (VList [])) as [locations|x];
    [|cbn; now rewrite <- !app_assoc].
  destruct (truthy locations); [|cbn; now rewrite <- !app_assoc].
  destruct (py_len locations); cbn; now rewrite <- !app_assoc.
Qed.

Lemma get_locations_gets city country limit :
  gets (snd (get_locations city country limit [])) = [locations_request city country limit].
Proof.
  rewrite get_locations_spec. cbn zeta.
  destruct (server _) as [|r]; [reflexivity|].
  destruct ((400 <=? status_code r) && (status_code r <? 600)); [reflexivity|].
  destruct (json r) as [data|]; [|reflexivity].
  destruct (py_get "results" data (VList [])) as [locations|x]; [|reflexivity].
  destruct (truthy locations); [|reflexivity].
  destruct (py_len locations); reflexivity.
Qed.

Lemma get_locations_csv city country limit :
  csv_tables (snd (get_locations city country limit [])) = [].
Proof.
  rewrite get_locations_spec. cbn zeta.
  destruct (server _) as [|r]; [reflexivity|].
  destruct ((400 <=? status_code r) && (status_code r <? 600)); [reflexivity|].
  destruct (json r) as [data|]; [|reflexivity].
  destruct (py_get "results" data (VList [])) as [locations|x]; [|reflexivity].
  destruct (truthy locations); [|reflexivity].
  destruct (py_len locations); reflexivity.
Qed.

(** What the call returns for a reply that is read as a success. *)
Lemma get_locations_value city country limit tr r data :
  server (locations_request city country limit) = Reply r ->
  (400 <=? status_code r) && (status_code r <? 600) = false ->
  json r = Some data ->
  fst (get_locations city country limit tr) =
  rbind (py_get "results" data (VList [])) (fun locations =>
  if truthy locations
  then rbind (py_len locations) (fun _ => Ok locations)
  else Ok locations).
Proof.
  intros Hs Hstatus Hjson. rewrite get_locations_spec. cbn zeta.
  rewrite Hs, Hstatus, Hjson.
  destruct (py_get "results" data (VList [])) as [locations|x]; [|reflexivity].
  cbn [rbind]. destruct (truthy locations); [|reflexivity].
  destruct (py_len locations); reflexivity.
Qed.


End LocationsProperties.

(** ** The driver of the OpenAQ collector *)

Lemma sat_ret {A : Type} (a : A) (Q : A -> Prop) : Q a -> sat (ret a) Q.
Proof.
  intros Ha tr. exists []. cbn. rewrite app_nil_r. repeat split; [constructor|].
  intros a' [= <-]. exact Ha.
Qed.

Lemma sat_lift {A : Type} (r : Result A) (Q : A -> Prop) :
  (forall a, r = Ok a -> Q a) -> sat (lift r) Q.
Proof.
  intros Hr tr. exists []. cbn. rewrite app_nil_r. repeat split; [constructor|exact Hr].
Qed.

Lemma sat_raise {A : Type} (e : Exn) (Q : A -> Prop) : sat (raise e) Q.
Proof.
  intros tr. exists []. cbn. rewrite app_nil_r. repeat split; [constructor|discriminate].
Qed.

Lemma sat_emit ev : writes_default_columns ev -> sat (emit ev) (fun _ => True).
Proof.
  intros Hev tr. exists [ev]. cbn. repeat split. now constructor.
Qed.

Lemma sat_bind {A B : Type} (m : M A) (k : A -> M B) (Q : A -> Prop) (R : B -> Prop) :
  sat m Q -> (forall a, Q a -> sat (k a) R) -> sat (bind m k) R.
Proof.
  intros Hm Hk tr. destruct (Hm tr) as (evs & Htr & Hevs & HQ).
  unfold bind. destruct (m tr) as [[a|x] tr'] eqn:Hrun; cbn in Htr; subst tr'.
  - destruct (Hk a (HQ a eq_refl) (tr ++ evs)) as (evs' & Htr' & Hevs' & HR).
    exists (evs ++ evs'). rewrite Htr', app_assoc. repeat split; [|exact HR].
    now apply Forall_app.
  - exists evs. cbn. repeat split; [assumption|discriminate].
Qed.

Lemma sat_weaken {A : Type} (m : M A) (Q R : A -> Prop) :
  sat m Q -> (forall a, Q a -> R a) -> sat m R.
Proof.
  intros Hm HQR tr. destruct (Hm tr) as (evs & Htr & Hevs & HQ).
  exists evs. repeat split; auto.
Qed.

Lemma sat_try_except {A : Type} (body : M A) catches (handler : Exn -> M A) (Q : A -> Prop) :
  sat body Q -> (forall e, sat (handler e) Q) -> sat (try_except body catches handler) Q.
Proof.
  intros Hb Hh tr. destruct (Hb tr) as (evs & Htr & Hevs & HQ).
  unfold try_except. destruct (body tr) as [[a|x] tr'] eqn:Hrun; cbn in Htr; subst tr'.
  - exists evs. cbn. repeat split; assumption.
  - destruct (catches x).
    + destruct (Hh x (tr ++ evs)) as (evs' & Htr' & Hevs' & HR).
      exists (evs ++ evs'). rewrite Htr', app_assoc. repeat split; [|exact HR].
      now apply Forall_app.
    + exists evs. cbn. repeat split; [assumption|discriminate].
Qed.

Lemma sat_for_each {A : Type} (body : A -> M unit) : forall l,
  (forall a, sat (body a) (fun _ => True)) -> sat (for_each l body) (fun _ => True).
Proof.
  induction l as [|a l IH]; intros Hbody; cbn [for_each].
  - now apply sat_ret.
  - eapply sat_bind; [apply Hbody|]. intros _ _. now apply IH.
Qed.

Lemma sat_log lvl msg : sat (log lvl msg) (fun _ => True).
Proof. apply sat_emit. exact I. Qed.

Lemma fetch_event_writes ev : is_fetch_event ev -> writes_default_columns ev.
Proof. destruct ev; cbn; tauto. Qed.

Lemma csv_tables_default evs df :
  Forall writes_default_columns evs -> In df (csv_tables evs) -> default_columns df.
Proof.
  induction 1 as [|ev evs Hev _ IH]; cbn; [tauto|].
  destruct ev; cbn; auto. intros [<-|Hin]; auto.
Qed.

Lemma csv_tables_none evs :
  csv_tables evs = [] -> Forall writes_default_columns evs.
Proof.
  induction evs as [|ev evs IH]; [constructor|].
  destruct ev; cbn; try (intros H; constructor; [exact I|now apply IH]). discriminate.
Qed.

Section MainProperties.

Variable server : Server.
Variable parse_datetime : option string -> string -> option Z.

Section OneCall.

Variable self : Collector.
Variable location_id : Value.
Variables start_date end_date : string.
Variable max_pages : Z.

Local Notation contribution :=
  (contribution server self location_id start_date end_date max_pages).
Local Notation events_of :=
  (events_of server self location_id start_date end_date max_pages).
Local Notation ran := (ran server self location_id start_date end_date max_pages).
Local Notation first_failure :=
  (first_failure server self location_id start_date end_date max_pages).
Local Notation fetch_air_quality_data :=
  (fetch_air_quality_data server parse_datetime self location_id start_date end_date
     max_pages).
Local Notation _process_data := (_process_data parse_datetime).

(** The table a call returns has no column besides the four key fields
    and the parameters that were asked for. *)
Lemma fetch_columns parameters tr t :
  fst (fetch_air_quality_data parameters tr) = Ok t ->
  forall c, In c (columns t) -> In c key_fields \/ In c (requested parameters).
Proof.
  rewrite (fetch_value server self location_id start_date end_date max_pages
             parse_datetime).
  destruct (first_failure (requested parameters)); [discriminate|]. cbn zeta.
  destruct (flat_map contribution (requested parameters)) as [|df0 data] eqn:Hdata.
  { cbn. intros [= <-] c []. }
  cbn [is_nil].
  assert (Hall : forall d, In d (df0 :: data) ->
            exists p, In p (requested parameters) /\ In d (contribution p)).
  { intros d Hd. rewrite <- Hdata in Hd. apply in_flat_map in Hd. exact Hd. }
  destruct (pd_concat_nonempty (df0 :: data) ltac:(discriminate)) as (combined & Hc & Hne).
  { intros d Hd. destruct (Hall d Hd) as (p & _ & Hp).
    now apply (contribution_rows server self location_id start_date end_date max_pages)
      in Hp. }
  rewrite Hc. cbn [rbind]. intros Hp c Hcol.
  destruct (table_columns_origin parse_datetime combined t Hne Hp c Hcol)
    as [Hk|(r & Hr & Hparam)]; [now left|right].
  destruct (pd_concat_rows _ _ _ Hc Hr) as (d & r0 & Hd & Hr0 & ->).
  destruct (Hall d Hd) as (p & Hp' & Hdp).
  destruct (contribution_rows server self location_id start_date end_date max_pages
              p d Hdp) as (_ & Hcolp & Hrows).
  rewrite cell_reindex in Hparam by (eapply pd_concat_columns; eassumption).
  rewrite (Hrows r0 Hr0) in Hparam. injection Hparam as <-. exact Hp'.
Qed.

Lemma sat_fetch_default :
  sat (fetch_air_quality_data None) default_columns.
Proof.
  intros tr. exists (flat_map events_of (ran (requested None))).
  split; [apply (fetch_trace server self location_id start_date end_date max_pages
                   parse_datetime None tr)|].
  split.
  - apply Forall_flat_map, Forall_forall. intros p _.
    eapply Forall_impl; [apply fetch_event_writes|apply events_of_events].
  - intros df Hdf. exact (fetch_columns None tr df Hdf).
Qed.

End OneCall.

Variable OPENAQ_API_KEY : option string.
Variables start_date_str end_date_str : string.

Local Notation main :=
  (DataCollector.main server parse_datetime OPENAQ_API_KEY start_date_str end_date_str).

Lemma sat_get_locations self city country limit :
  sat (get_locations server self city country limit) (fun _ => True).
Proof.
  intros tr. exists (snd (get_locations server self city country limit [])).
  split; [now rewrite get_locations_extend|]. split; [|auto].
  apply csv_tables_none, get_locations_csv.
Qed.

Lemma sat_collect_location self city loc :
  sat (collect_location server parse_datetime start_date_str end_date_str self city loc)
      (fun _ => True).
Proof.
  unfold collect_location.
  eapply sat_bind; [apply sat_lift; intros; exact I|]. intros location_id _.
  eapply sat_bind; [apply sat_lift; intros; exact I|]. intros location_name _.
  eapply sat_bind; [apply sat_log|]. intros _ _.
  eapply sat_bind; [apply sat_fetch_default|]. intros df Hdf.
  destruct (negb (empty df)); [|apply sat_log].
  eapply sat_bind; [apply sat_emit; exact I|]. intros _ _.
  eapply sat_bind; [apply sat_lift; intros; exact I|]. intros name _.
  eapply sat_bind; [apply sat_emit; exact Hdf|]. intros _ _.
  apply sat_log.
Qed.

Lemma sat_main : sat main (fun _ => True).
Proof.
  unfold DataCollector.main. apply sat_try_except.
  - eapply sat_bind with (Q := fun _ => True).
    + unfold init. destruct OPENAQ_API_KEY as [[|c key]|]; try apply sat_raise.
      eapply sat_bind; [apply sat_log|]. intros _ _. now apply sat_ret.
    + intros collector _. apply sat_for_each. intros city. unfold collect_city.
      eapply sat_bind; [apply sat_log|]. intros _ _.
      eapply sat_bind; [apply sat_get_locations|]. intros locations _.
      destruct (negb (truthy locations)); [apply sat_log|].
      eapply sat_bind; [apply sat_lift; intros; exact I|]. intros locs _.
      apply sat_for_each. intros loc. apply sat_collect_location.
  - intros e. destruct (is_ValueError e); [|apply sat_log].
    eapply sat_bind; [apply sat_log|]. intros _ _. apply sat_log.
Qed.

(** Every table the driver writes to a CSV file has only key fields and
    default parameters for columns. *)
Lemma main_writes_default_columns tr df :
  In df (csv_tables (snd (main tr))) -> In df (csv_tables tr) \/ default_columns df.
Proof.
  destruct (sat_main tr) as (evs & -> & Hevs & _).
  rewrite csv_tables_app, in_app_iff. intros [H|H]; [now left|right].
  eapply csv_tables_default; eassumption.
Qed.

End MainProperties.

(** C9 (as amended).  Every column of the table [_process_data] returns
    for a non-empty raw table is a key field or the parameter of a raw row.
    So the table has no [unit], [value] or [parameter] column unless a raw
    row bears that very word as its parameter, which the six default
    pollutants never do; and the unit cells are discarded: a raw table that
    differs only in its [unit] cells is reshaped to the same table.  The
    driver fetches with the default parameters, so no table it writes to a
    CSV file has a [unit], [value] or [parameter] column. *)
Theorem unit_never_reaches_the_table :
  (forall parse_datetime df t,
     empty df = false ->
     _process_data parse_datetime df = Ok t ->
     (forall c, In c (columns t) ->
        In c key_fields \/ exists r, In r (rows df) /\ cell "parameter" r = VStr c) /\
     (forall c, In c ["unit"; "value"; "parameter"] ->
        (forall r, In r (rows df) -> cell "parameter" r <> VStr c) ->
        ~ In c (columns t)) /\
     (forall df',
        columns df' = columns df ->
        Forall2 (fun r r' => forall c, c <> "unit" -> cell c r = cell c r')
                (rows df) (rows df') ->
        _process_data parse_datetime df' = Ok t)) /\
  (forall server parse_datetime OPENAQ_API_KEY start_date_str end_date_str tr df c,
     In df (csv_tables
              (snd (DataCollector.main server parse_datetime OPENAQ_API_KEY
                      start_date_str end_date_str tr))) ->
     In c ["unit"; "value"; "parameter"] ->
     In df (csv_tables tr) \/ ~ In c (columns df)).
Proof.
  split; [exact process_data_discards_unit|].
  intros server parse_datetime key start_date_str end_date_str tr df c Hdf Hc.
  destruct (main_writes_default_columns _ _ _ _ _ _ _ Hdf) as [Hold|Hnew]; [now left|right].
  intros Hin. destruct (Hnew c Hin) as [H|H]; cbn in Hc, H; intuition congruence.
Qed.

(** ** The EPA driver *)

Section EpaProperties.

Variable server : Server.
Variables bdate edate timestamp : string.

Local Notation fetch_epa_data := (CollectData.fetch_epa_data server bdate edate).
Local Notation epa_main := (CollectData.main server bdate edate timestamp).
Local Notation epa_request := (epa_request bdate edate).

(** C8.  When the EPA request gets no reply or a reply whose status is not
    200, [fetch_epa_data] prints the failure and returns no data; the
    driver then only creates the output directory and prints: it writes no
    CSV file, and its run ends with the line that no measurements were
    collected. *)
Theorem epa_failure_writes_no_csv tr :
  epa_failure (server epa_request) ->
  fetch_epa_data tr =
    (Ok VNull, tr ++ HttpGet epa_request :: epa_failure_report (server epa_request)) /\
  epa_main tr =
    (Ok tt,
     tr ++ [MadeDirs "data/raw"; Printed MsgGettingStations; Printed (MsgFoundStations 4);
            Printed MsgFetchingEpa; HttpGet epa_request] ++
     epa_failure_report (server epa_request) ++ [Printed MsgNoMeasurements]) /\
  csv_tables (snd (epa_main tr)) = csv_tables tr.
Proof.
  intros Hfail.
  assert (Hfetch : forall tr',
            fetch_epa_data tr' =
            (Ok VNull, tr' ++ HttpGet epa_request :: epa_failure_report (server epa_request))).
  { intros tr'. unfold CollectData.fetch_epa_data, try_except, bind, requests_get, emit,
      ret, raise.
    change (mkRequest _ _ _) with epa_request.
    destruct (server epa_request) as [|r]; cbn in Hfail |- *.
    - now rewrite <- !app_assoc.
    - destruct (Z.eqb_spec (status_code r) 200); [contradiction|].
      now rewrite <- !app_assoc. }
  assert (Hmain : epa_main tr =
            (Ok tt,
             tr ++ [MadeDirs "data/raw"; Printed MsgGettingStations;
                    Printed (MsgFoundStations 4); Printed MsgFetchingEpa;
                    HttpGet epa_request] ++
             epa_failure_report (server epa_request) ++ [Printed MsgNoMeasurements])).
  { unfold CollectData.main, bind at 1 2 3 4 5. unfold emit at 1 2 3 4. rewrite Hfetch.
    cbn. unfold emit. now rewrite <- !app_assoc. }
  split; [apply Hfetch|]. split; [exact Hmain|].
  rewrite Hmain. cbn [snd]. unfold csv_tables. rewrite !flat_map_app.
  destruct (server epa_request); cbn; now rewrite app_nil_r.
Qed.

End EpaProperties.
(** * Worked examples

    The theorems above applied to the sample service, and the inputs at
    which the statements the theorems amend fail. *)

Local Notation sample_request :=
  (measurements_request Sample.collector Sample.location_id Sample.start_date
     Sample.end_date).
Local Notation sample_page_outcome :=
  (page_outcome Sample.server Sample.collector Sample.location_id Sample.start_date
     Sample.end_date).
Local Notation sample_served :=
  (served Sample.server Sample.collector Sample.location_id Sample.start_date
     Sample.end_date).
Local Notation sample_page_loop :=
  (page_loop Sample.server Sample.collector Sample.location_id Sample.start_date
     Sample.end_date 10).
Local Notation sample_contribution :=
  (contribution Sample.server Sample.collector Sample.location_id Sample.start_date
     Sample.end_date 10).
Local Notation sample_first_failure :=
  (first_failure Sample.server Sample.collector Sample.location_id Sample.start_date
     Sample.end_date 10).
Local Notation sample_fetch :=
  (fetch_air_quality_data Sample.server Sample.parse Sample.collector Sample.location_id
     Sample.start_date Sample.end_date 10).

(** The sample service answers [pm25] with a full page and a short one: the
    loop requests the two pages and keeps their two frames. *)
Lemma short_page_ends_page_loop_witness :
  sample_served "pm25" 1 ([Sample.full_page] ++ [Sample.short_page]) /\
  exists vars' tr',
    sample_page_loop "pm25" 1 fresh [] = (Ok vars', tr') /\
    gets tr' = [sample_request "pm25" 1; sample_request "pm25" 2] /\
    all_data vars' =
      frames "pm25" [Sample.full_page] ++ option_to_list (fetched "pm25" Sample.short_page).
Proof.
  assert (Hs : sample_served "pm25" 1 ([Sample.full_page] ++ [Sample.short_page])).
  { cbn [app served]. repeat split; vm_compute; reflexivity. }
  split; [exact Hs|].
  destruct (short_page_ends_page_loop Sample.server Sample.collector Sample.location_id
              Sample.start_date Sample.end_date 10 "pm25" [Sample.full_page]
              Sample.short_page fresh [] Hs)
    as (vars' & tr' & Hrun & Hgets & Hdata & _).
  - repeat constructor. vm_compute. discriminate.
  - vm_compute. reflexivity.
  - vm_compute. discriminate.
  - exists vars', tr'. repeat split; assumption.
Defined.

(** The statement C1 amends fails for a page of records without fields:
    page 1 of [no2] has one row, fewer than 100, the loop stops there, and
    nothing is accumulated. *)
Lemma field_less_page_is_not_accumulated :
  sample_page_outcome "no2" 1 = Ok [[]] /\
  sample_page_loop "no2" 1 fresh [] = (Ok fresh, [HttpGet (sample_request "no2" 1)]) /\
  sample_contribution "no2" = [].
Proof. split; [|split]; vm_compute; reflexivity. Qed.




(** The two colliding rows are reshaped to one row, which a second reshape
    refuses. *)
Lemma reshape_of_reshaped_table_witness :
  _process_data Sample.parse Sample.collided = Ok Sample.averaged /\
  _process_data Sample.parse Sample.averaged =
    Raise (KeyError ["parameter"; "value"; "unit"]).
Proof.
  assert (H : _process_data Sample.parse Sample.collided = Ok Sample.averaged)
    by (vm_compute; reflexivity).
  split; [exact H|].
  apply (proj2 (reshape_of_reshaped_table Sample.parse Sample.collided Sample.averaged H)).
  - reflexivity.
  - intros r c [<-|[<-|[]]] [<-|[<-|[<-|[]]]]; vm_compute; discriminate.
Defined.

(** The statement C5 amends fails on the table of the [so2] measurement:
    reshaped again it is not returned, [KeyError] is raised. *)
Lemma reshape_is_not_idempotent :
  _process_data Sample.parse
    (Sample.raw_table "so2" [Sample.measurement (inject_Z 5) Sample.los_angeles]) =
    Ok Sample.so2_table /\
  _process_data Sample.parse Sample.so2_table =
    Raise (KeyError ["parameter"; "value"; "unit"]) /\
  _process_data Sample.parse Sample.so2_table <> Ok Sample.so2_table.
Proof.
  split; [vm_compute; reflexivity|]. split; [vm_compute; reflexivity|].
  vm_compute. discriminate.
Qed.

(** The two sample rows with the values 10 and 20 give the cell 15. *)
Lemma colliding_values_are_averaged_witness :
  rows Sample.collided = [Sample.raw_row (inject_Z 10); Sample.raw_row (inject_Z 20)] /\
  _process_data Sample.parse Sample.collided =
    Ok (mkDataFrame (key_fields ++ ["pm25"])
          [[("date", VTimestamp 1704067200000000000); ("location", VStr "Downtown");
            ("city", VStr "Los Angeles"); ("country", VStr "US");
            ("pm25", VNum (inject_Z 15))]]).
Proof.
  split; [reflexivity|].
  apply (colliding_values_are_averaged Sample.parse Sample.collided
           (Sample.raw_row (inject_Z 10)) (Sample.raw_row (inject_Z 20))
           (VDict [("utc", VStr Sample.midnight);
                   ("local", VStr "2023-12-31T16:00:00-08:00")])).
  - reflexivity.
  - intros c Hc. cbn in Hc |- *. intuition (subst; auto 10).
  - intros r [<-|[<-|[]]]; repeat split; reflexivity.
  - reflexivity.
  - reflexivity.
  - reflexivity.
  - cbn. intuition discriminate.
Defined.

(** The statement C6 amends fails outside these conditions.  The two rows
    of the table without the column [unit] agree on the five fields and
    hold 10 and 20, and the reshape raises [KeyError]; the two rows whose
    city is missing are left out of the pivot, and the table has no row. *)
Lemma colliding_rows_without_unit_or_city :
  (exists key,
     map (fun r => map (fun c => cell c r) (key_fields ++ ["parameter"]))
         (rows Cases.without_unit) = [key; key]) /\
  map (cell "value") (rows Cases.without_unit) = [VNum (inject_Z 10); VNum (inject_Z 20)] /\
  _process_data Sample.parse Cases.without_unit = Raise (KeyError ["unit"]) /\
  (exists key,
     map (fun r => map (fun c => cell c r) (key_fields ++ ["parameter"]))
         (rows Cases.nowhere) = [key; key]) /\
  map (cell "value") (rows Cases.nowhere) = [VNum (inject_Z 10); VNum (inject_Z 20)] /\
  _process_data Sample.parse Cases.nowhere = Ok (mkDataFrame key_fields []).
Proof.
  split; [eexists; vm_compute; reflexivity|]. split; [vm_compute; reflexivity|].
  split; [vm_compute; reflexivity|].
  split; [eexists; vm_compute; reflexivity|]. split; vm_compute; reflexivity.
Qed.

(** The call for [so2] and [o3] returns the table of the [so2]
    measurement, with distinct composite keys. *)
Lemma returned_table_shape_witness :
  fst (sample_fetch (Some ["so2"; "o3"]) []) = Ok Sample.so2_table /\
  NoDup (map composite_key (rows Sample.so2_table)).
Proof.
  assert (H : fst (sample_fetch (Some ["so2"; "o3"]) []) = Ok Sample.so2_table)
    by (vm_compute; reflexivity).
  split; [exact H|].
  assert (Hne : flat_map sample_contribution ["so2"; "o3"] <> [])
    by (vm_compute; discriminate).
  destruct (proj1 (returned_table_shape Sample.server Sample.parse Sample.collector
                     Sample.location_id Sample.start_date Sample.end_date 10
                     (Some ["so2"; "o3"]) [] Hne) Sample.so2_table H)
    as (combined & labels & _ & _ & _ & _ & _ & Hkeys & _).
  exact Hkeys.
Defined.

(** The statement C7 amends fails when a parameter has accumulated rows of
    which none is measured: the [o3] measurement, whose city is missing, is
    accumulated, and the returned table has no [o3] column. *)
Lemma parameter_with_rows_gets_no_column :
  (exists df, sample_contribution "o3" = [df] /\ List.length (rows df) = 1%nat) /\
  fst (sample_fetch (Some ["so2"; "o3"]) []) = Ok Sample.so2_table /\
  columns Sample.so2_table = key_fields ++ ["so2"] /\
  ~ In "o3" (columns Sample.so2_table).
Proof.
  split; [eexists; split; vm_compute; reflexivity|].
  split; [vm_compute; reflexivity|]. split; [reflexivity|].
  cbn. intuition discriminate.
Qed.

(** The dates of a column are read by one format: the sample parser
    reads the first of these two dates, and the reshape raises
    [ValueError] for the second. *)
Lemma mixed_date_formats_are_refused :
  date_source (rows Cases.mixed_dates) = Some Sample.midnight /\
  _process_data Sample.parse Cases.mixed_dates =
    Raise (ValueError "time data doesn't match format").
Proof. split; vm_compute; reflexivity. Qed.

(** The sample EPA endpoint answers 500: no CSV file. *)
Lemma epa_failure_writes_no_csv_witness :
  epa_failure (Sample.server (epa_request "20231202" "20240101")) /\
  csv_tables
    (snd (CollectData.main Sample.server "20231202" "20240101" "20240101_120000" [])) = [].
Proof.
  assert (H : epa_failure (Sample.server (epa_request "20231202" "20240101")))
    by (vm_compute; discriminate).
  split; [exact H|].
  exact (proj2 (proj2 (epa_failure_writes_no_csv Sample.server "20231202" "20240101"
                         "20240101_120000" [] H))).
Defined.

(** The reshaped sample table has no [unit] column. *)
Lemma unit_never_reaches_the_table_witness :
  _process_data Sample.parse Sample.collided = Ok Sample.averaged /\
  ~ In "unit" (columns Sample.averaged).
Proof.
  assert (H : _process_data Sample.parse Sample.collided = Ok Sample.averaged)
    by (vm_compute; reflexivity).
  split; [exact H|].
  apply (proj1 (proj2 (proj1 unit_never_reaches_the_table Sample.parse Sample.collided
                         Sample.averaged eq_refl H))).
  - now left.
  - intros r [<-|[<-|[]]]; vm_compute; discriminate.
Defined.

(** The statement C9 amends fails for a parameter named [unit]: its
    measurements are reshaped to a table with a [unit] column. *)
Lemma parameter_named_unit_gets_a_unit_column :
  _process_data Sample.parse
    (Sample.raw_table "unit" [Sample.measurement (inject_Z 3) Sample.los_angeles]) =
    Ok Sample.unit_table /\
  fst (sample_fetch (Some ["unit"]) []) = Ok Sample.unit_table /\
  In "unit" (columns Sample.unit_table).
Proof.
  split; [vm_compute; reflexivity|]. split; [vm_compute; reflexivity|].
  cbn. auto 10.
Qed.

(** With the parameters omitted and a cap of 10 the first request is for
    page 1 of [pm25]. *)
Lemma empty_parameter_list_fetches_nothing_witness :
  1 <= 10 /\
  exists rest, gets (snd (sample_fetch None [])) = gets [] ++ sample_request "pm25" 1 :: rest.
Proof.
  assert (H : 1 <= 10) by lia.
  split; [exact H|].
  exact (proj2 (proj2 (proj2 (empty_parameter_list_fetches_nothing Sample.server
                                Sample.collector Sample.location_id Sample.start_date
                                Sample.end_date 10 Sample.parse []))) H).
Defined.

(** * Further properties

    What the code shows beyond the statements above: the edges of the page
    loop, the cells of the reshaped table, the events of the two drivers. *)

(** ** The page loop, the pauses and the warnings *)

Section FetchLoop.

Variable server : Server.
Variable self : Collector.
Variable location_id : Value.
Variables start_date end_date : string.
Variable max_pages : Z.

Local Notation request := (measurements_request self location_id start_date end_date).
Local Notation page_loop :=
  (page_loop server self location_id start_date end_date max_pages).
Local Notation page_outcome := (page_outcome server self location_id start_date end_date).
Local Notation served := (served server self location_id start_date end_date).
Local Notation contribution :=
  (contribution server self location_id start_date end_date max_pages).
Local Notation events_of :=
  (events_of server self location_id start_date end_date max_pages).
Local Notation failure :=
  (failure server self location_id start_date end_date max_pages).
Local Notation ran := (ran server self location_id start_date end_date max_pages).
Local Notation first_failure :=
  (first_failure server self location_id start_date end_date max_pages).
Local Notation silent := (silent server self location_id start_date end_date max_pages).
Local Notation page_loop_run :=
  (page_loop_run server self location_id start_date end_date max_pages).
Local Notation events_of_page_loop :=
  (events_of_page_loop server self location_id start_date end_date max_pages).
Local Notation events_of_gets :=
  (events_of_gets server self location_id start_date end_date max_pages).
Local Notation events_of_without_pages :=
  (events_of_without_pages server self location_id start_date end_date max_pages).
Local Notation contribution_rows :=
  (contribution_rows server self location_id start_date end_date max_pages).
Local Notation contribution_outcomes :=
  (contribution_outcomes server self location_id start_date end_date max_pages).

(** X1.  When the service answers the pages 1 to [max_pages] of a parameter
    with full pages, the loop stops at the cap: it requests exactly these
    pages, keeps the frame of each, pauses after each of them, the last
    included, and never asks whether more data follow. *)
Theorem page_cap_truncates_full_pages parameter full :
  served parameter 1 full ->
  Forall (fun results => 100 <= Z.of_nat (List.length results)) full ->
  Z.of_nat (List.length full) = max_pages ->
  contribution parameter = frames parameter full /\
  gets (events_of parameter) = map (request parameter) (pages_from 1 (List.length full)) /\
  sleeps (events_of parameter) = repeat 200 (List.length full).
Proof.
  intros Hs Hfull Hcap.
  destruct (page_loop_full_pages server self location_id start_date end_date max_pages
              parameter full 1 fresh [] Hs Hfull ltac:(lia))
    as (vars' & Hdata & Hrun).
  rewrite (page_loop_step server self location_id start_date end_date max_pages parameter
             (1 + Z.of_nat (List.length full))) in Hrun.
  destruct (Z.leb_spec (1 + Z.of_nat (List.length full)) max_pages) as [Hle|_]; [lia|].
  pose proof (parameter_loop_of_page_loop server self location_id start_date end_date
                max_pages parameter) as Hloop.
  destruct (events_of_page_loop parameter) as [Hg Hsl].
  rewrite Hrun in Hloop, Hg, Hsl. destruct Hloop as (_ & Hc & _).
  rewrite Hc, Hg, Hsl, Hdata. cbn [app fresh all_data snd].
  rewrite gets_full_events, sleeps_full_events. auto.
Qed.

(** X2.  The loop of a parameter pauses 200 ms after every page it goes on
    from, and only then: the pauses are as many as the requests, or one
    fewer, and never more than the page cap. *)
Theorem pauses_follow_requests parameter :
  exists j,
    sleeps (events_of parameter) = repeat 200 j /\
    (j <= List.length (gets (events_of parameter)) <= S j)%nat /\
    Z.of_nat j <= Z.max 0 max_pages.
Proof.
  destruct (page_loop_run parameter) as (k & j & pages & Hk & Hg & Hsl & Hj & _).
  destruct (events_of_page_loop parameter) as [Hg' Hsl'].
  exists j. rewrite Hsl', Hg', Hsl, Hg, length_map, length_pages_from.
  split; [reflexivity|]. split; [exact Hj|lia].
Qed.

Section Call.

Variable parse_datetime : option string -> string -> option Z.

Local Notation fetch_air_quality_data :=
  (fetch_air_quality_data server parse_datetime self location_id start_date end_date
     max_pages).
Local Notation fetch_value :=
  (fetch_value server self location_id start_date end_date max_pages parse_datetime).
Local Notation fetch_trace :=
  (fetch_trace server self location_id start_date end_date max_pages parse_datetime).



(** X5.  With a page cap below 1 a call issues no request at all: it logs
    the missing-data warning of every parameter and returns the empty
    table. *)
Theorem no_page_allowed_fetches_nothing parameters tr :
  max_pages < 1 ->
  fetch_air_quality_data parameters tr =
  (Ok empty_frame,
   tr ++ map (fun p => Logged LvWarning (MsgNoData p location_id)) (requested parameters)).
Proof.
  intros Hcap.
  assert (Hf : forall ps, first_failure ps = None).
  { induction ps as [|p ps IH]; [reflexivity|].
    cbn. now rewrite (proj1 (events_of_without_pages p Hcap)). }
  assert (Hd : forall ps, flat_map contribution ps = []).
  { induction ps as [|p ps IH]; [reflexivity|].
    cbn [flat_map]. rewrite IH.
    now rewrite (proj1 (proj2 (events_of_without_pages p Hcap))). }
  assert (He : forall ps, flat_map events_of ps =
                          map (fun p => Logged LvWarning (MsgNoData p location_id)) ps).
  { induction ps as [|p ps IH]; [reflexivity|].
    cbn [flat_map map]. rewrite IH.
    now rewrite (proj2 (proj2 (events_of_without_pages p Hcap))). }
  rewrite (surjective_pairing (fetch_air_quality_data parameters tr)).
  rewrite fetch_value, fetch_trace, Hf, Hd.
  rewrite (ran_all server self location_id start_date end_date max_pages _ (Hf _)), He.
  reflexivity.
Qed.

(** X6.  The table a call returns has no column besides the four key
    fields and the parameters that were asked for, whatever parameter
    names the records of the service carry. *)
Theorem returned_columns_are_requested parameters tr t :
  fst (fetch_air_quality_data parameters tr) = Ok t ->
  forall c, In c (columns t) -> In c key_fields \/ In c (requested parameters).
Proof.
  exact (fetch_columns server parse_datetime self location_id start_date end_date max_pages
           parameters tr t).
Qed.

(** X7.  Every request a call issues is the measurement request of a
    parameter that was asked for and of a page from 1 to the cap: the call
    asks for nothing else. *)
Theorem requests_stay_within_parameters_and_cap parameters tr req :
  In req (gets (snd (fetch_air_quality_data parameters tr))) ->
  In req (gets tr) \/
  exists p page,
    In p (requested parameters) /\ 1 <= page <= max_pages /\ req = request p page.
Proof.
  rewrite fetch_trace, gets_app. intros Hin.
  apply in_app_or in Hin. destruct Hin as [Hin|Hin]; [now left|right].
  assert (Hp : exists p, In p (ran (requested parameters)) /\ In req (gets (events_of p))).
  { induction (ran (requested parameters)) as [|p ps IH]; [destruct Hin|].
    cbn [flat_map] in Hin. rewrite gets_app in Hin. apply in_app_or in Hin.
    destruct Hin as [Hin|Hin].
    - exists p. split; [now left|exact Hin].
    - destruct (IH Hin) as (p' & Hp' & Hin'). exists p'. split; [now right|exact Hin']. }
  clear Hin. destruct Hp as (p & Hp & Hin).
  apply (ran_incl server self location_id start_date end_date max_pages) in Hp.
  destruct (events_of_gets p) as (k & Hk & Hg).
  rewrite Hg in Hin. apply in_map_iff in Hin. destruct Hin as (page & <- & Hpage).
  apply In_pages_from in Hpage. exists p, page. split; [exact Hp|]. split; [lia|reflexivity].
Qed.

(** X8.  The reshape step selects the raw columns by name.  When no record
    the service returns carries one of the fields [date], [value], [unit],
    [location], [city], [country], a call in which no loop raises and that
    accumulated a frame does not return a table: it raises the [KeyError]
    of the selection, which names that field. *)
Theorem missing_field_fails_the_call parameters tr c :
  In c raw_columns ->
  c <> "parameter" ->
  (forall p page results r,
     In p (requested parameters) ->
     page_outcome p page = Ok results -> In r results -> ~ In c (keys r)) ->
  first_failure (requested parameters) = None ->
  (exists p, In p (requested parameters) /\ contribution p <> []) ->
  exists missing,
    fst (fetch_air_quality_data parameters tr) = Raise (KeyError missing) /\
    In c missing.
Proof.
  intros Hraw Hc Hnone Hfail (p0 & Hp0 & Hsome).
  rewrite fetch_value, Hfail. cbn zeta.
  destruct (flat_map contribution (requested parameters)) as [|df0 data] eqn:Hdata.
  { exfalso. destruct (contribution p0) as [|df l] eqn:Hcp; [now apply Hsome|].
    assert (Hin : In df (flat_map contribution (requested parameters))).
    { apply in_flat_map. exists p0. split; [exact Hp0|]. rewrite Hcp. now left. }
    rewrite Hdata in Hin. destruct Hin. }
  cbn [is_nil].
  assert (Hall : forall d, In d (df0 :: data) ->
            exists p, In p (requested parameters) /\ In d (contribution p)).
  { intros d Hd. rewrite <- Hdata in Hd. apply in_flat_map in Hd. exact Hd. }
  destruct (pd_concat_nonempty (df0 :: data) ltac:(discriminate)) as (combined & Hcc & Hne).
  { intros d Hd. destruct (Hall d Hd) as (p & _ & Hp). now apply contribution_rows in Hp. }
  rewrite Hcc. cbn [rbind].
  assert (Hmiss : ~ In c (columns combined)).
  { rewrite (pd_concat_ok _ _ Hcc). cbn [columns]. intros Hin.
    apply (proj1 (In_distinct_by String.eqb String.eqb_eq (flat_map columns (df0 :: data)) c))
      in Hin.
    apply in_flat_map in Hin.
    destruct Hin as (d & Hd & Hcd). destruct (Hall d Hd) as (p & Hp & Hdp).
    destruct (contribution_outcomes p d Hdp) as (page & results & Hout & Hf).
    destruct (fetched_columns p results d c Hf Hcd) as [->|(r & Hr & Hk)];
      [now apply Hc|]. exact (Hnone p page results r Hp Hout Hr Hk). }
  unfold DataCollector._process_data. rewrite Hne. unfold getitem_columns.
  assert (Hin : In c (filter (fun c => negb (mem c (columns combined))) raw_columns)).
  { apply filter_In. split; [exact Hraw|]. now rewrite (proj2 (mem_false _ _) Hmiss). }
  destruct (filter _ raw_columns) as [|m ms]; [destruct Hin|].
  exists (m :: ms). split; [reflexivity|exact Hin].
Qed.

End Call.

End FetchLoop.

(** ** The reshaped table, cell by cell *)

Section ReshapeFurther.

Variable parse_datetime : option string -> string -> option Z.

Local Notation to_datetime := (to_datetime parse_datetime).
Local Notation _process_data := (_process_data parse_datetime).
Local Notation raw_entry := (raw_entry parse_datetime).
Local Notation measured := (measured parse_datetime).

(** X9.  The reshaped table has at most as many rows as the raw table, and
    it has no row at all exactly when no raw row is measured (a complete
    key, a parameter and a value). *)
Theorem reshaped_rows_are_bounded df t :
  empty df = false ->
  _process_data df = Ok t ->
  (List.length (rows t) <= List.length (rows df))%nat /\
  (rows t = [] <->
   forall r k p, In r (rows df) -> ~ measured (date_source (rows df)) r k p).
Proof.
  intros Hne Hp.
  destruct (process_data_inv parse_datetime df t Hne Hp) as (es & Hes & _ & _ & ->).
  unfold reshaped. cbn [rows]. split.
  - rewrite length_map. unfold pivot_index.
    rewrite (Permutation_length (sort_perm _ _)).
    etransitivity; [apply (length_distinct_by key_eqb key_eqb_eq)|].
    rewrite length_map. exact (length_kept parse_datetime _ _ _ Hes).
  - split.
    + intros Hnil r k p Hr (v & Hm).
      destruct (Forall2_In_l _ _ _ _ Hes Hr) as (e & He & Hre).
      rewrite Hm in Hre. injection Hre as <-.
      assert (Hk : In k (pivot_index (kept_entries es))).
      { apply In_pivot_index. exists (mkEntry k p (Some v)). split; [|reflexivity].
        apply In_kept. split; [exact He|reflexivity]. }
      apply map_eq_nil in Hnil. rewrite Hnil in Hk. destruct Hk.
    + intros Hnone. destruct (pivot_index (kept_entries es)) as [|k ks] eqn:Hidx;
        [reflexivity|exfalso].
      assert (Hk : In k (pivot_index (kept_entries es))) by (rewrite Hidx; now left).
      apply In_pivot_index in Hk. destruct Hk as (e & He & Hke).
      apply In_kept in He. destruct He as [He Hv].
      destruct (Forall2_In_r _ _ _ _ Hes He) as (r & Hr & Hre).
      destruct e as [k' p [v|]]; [|discriminate]. cbn in Hke. subst k'.
      apply (Hnone r k p Hr). now exists v.
Qed.

(** X10.  Every row of the reshaped table stands for the composite key of
    a measured raw row, and each of its parameter cells is the mean of all
    the values the raw rows hold for that key and that parameter, missing
    values left out; the cell is missing when there is no such value. *)
Theorem cells_are_means_of_raw_values df t row :
  empty df = false ->
  _process_data df = Ok t ->
  In row (rows t) ->
  exists k,
    composite_key row = map value_of_label k /\
    (exists r p, In r (rows df) /\ measured (date_source (rows df)) r k p) /\
    forall p, In p (columns t) -> ~ In p key_fields ->
      cell p row = match values_at parse_datetime (rows df) k p with
                   | [] => VNull
                   | vs => VNum (mean vs)
                   end.
Proof.
  intros Hne Hp Hrow.
  destruct (process_data_inv parse_datetime df t Hne Hp) as (es & Hes & _ & _ & ->).
  unfold reshaped in Hrow. cbn [rows] in Hrow. apply in_map_iff in Hrow.
  destruct Hrow as (k & <- & Hk). exists k.
  apply In_pivot_index in Hk. destruct Hk as (e & He & Hke).
  assert (Hlen : List.length k = 4%nat).
  { rewrite <- Hke. exact (kept_key_length parse_datetime _ _ _ Hes e He). }
  split; [now apply composite_key_table_row|]. split.
  - apply In_kept in He. destruct He as [He Hv].
    destruct (Forall2_In_r _ _ _ _ Hes He) as (r & Hr & Hre).
    destruct e as [k' p [v|]]; [|discriminate]. cbn in Hke. subst k'.
    exists r, p. split; [exact Hr|]. now exists v.
  - intros p Hcol Hkey. unfold reshaped in Hcol. cbn [columns] in Hcol.
    apply in_app_or in Hcol. destruct Hcol as [Hcol|Hcol]; [contradiction|].
    rewrite cell_table_row by (assumption || now apply mem_false).
    rewrite (proj2 (mem_In _ _) Hcol). unfold group_mean.
    now rewrite (group_values_raw parse_datetime _ _ _ k p Hes).
Qed.

(** X11.  Only the instant of a date is read: two raw tables that differ
    in their [date] cells alone, each pair of cells naming the same value
    once a nested object is replaced by its [utc] member, are reshaped
    alike, to the same table or the same exception. *)
Theorem nested_and_flat_dates_agree df df' :
  empty df = false ->
  columns df' = columns df ->
  Forall2 (fun r r' => utc_of (cell "date" r) = utc_of (cell "date" r') /\
                       forall c, c <> "date" -> cell c r = cell c r')
          (rows df) (rows df') ->
  _process_data df' = _process_data df.
Proof.
  intros Hne Hcols Hrows. unfold DataCollector._process_data.
  assert (He : empty df' = false).
  { apply empty_false in Hne. destruct Hne as [Hc Hr]. apply empty_false.
    rewrite Hcols. split; [exact Hc|]. intros H. rewrite H in Hrows. inversion Hrows.
    congruence. }
  rewrite Hne, He. unfold getitem_columns. rewrite Hcols.
  destruct (filter _ raw_columns); [|reflexivity].
  cbn [rbind]. unfold column_cells. cbn [rows columns].
  assert (Hdates : map utc_of (map (cell "date") (map (reindex raw_columns) (rows df'))) =
                   map utc_of (map (cell "date") (map (reindex raw_columns) (rows df)))).
  { rewrite !map_map. apply Forall2_flip in Hrows.
    induction Hrows as [|r' r rs' rs [Hd _] _ IH]; [reflexivity|].
    cbn [map]. rewrite IH. f_equal. exact (eq_sym Hd). }
  rewrite Hdates.
  destruct (to_datetime _) as [dates|x]; [|reflexivity]. cbn [rbind].
  assert (Hassign : assign_values "date" dates
                      (mkDataFrame raw_columns (map (reindex raw_columns) (rows df'))) =
                    assign_values "date" dates
                      (mkDataFrame raw_columns (map (reindex raw_columns) (rows df)))).
  { unfold assign_values. cbn [rows columns]. f_equal.
    apply Forall2_flip in Hrows. clear - Hrows. revert dates.
    induction Hrows as [|r' r rs' rs [_ Hc] _ IH]; intros dates; [reflexivity|].
    destruct dates as [|d dates]; [reflexivity|]. cbn [map combine]. rewrite IH. f_equal.
    cbn. rewrite !Hc by discriminate. reflexivity. }
  now rewrite Hassign.
Qed.


End ReshapeFurther.
(** ** Events of a run *)

Section Yields.

Context {A B : Type}.
Variable good : Event -> Prop.

Lemma yields_ret (a : A) (Q : A -> Prop) : Q a -> yields good (ret a) Q.
Proof.
  intros H tr. exists []. cbn. rewrite app_nil_r. split; [reflexivity|].
  split; [constructor|]. now intros a' [= <-].
Qed.

Lemma yields_lift (r : Result A) : yields good (lift r) (fun a => r = Ok a).
Proof.
  intros tr. exists []. cbn. rewrite app_nil_r. split; [reflexivity|].
  split; [constructor|]. auto.
Qed.

Lemma yields_raise (e : Exn) (Q : A -> Prop) : yields good (raise e) Q.
Proof.
  intros tr. exists []. cbn. rewrite app_nil_r. split; [reflexivity|].
  split; [constructor|]. discriminate.
Qed.

Lemma yields_emit ev : good ev -> yields good (emit ev) (fun _ => True).
Proof.
  intros H tr. exists [ev]. cbn. split; [reflexivity|]. split; [now constructor|]. auto.
Qed.

Lemma yields_bind (m : M A) (k : A -> M B) (Q : A -> Prop) (R : B -> Prop) :
  yields good m Q -> (forall a, Q a -> yields good (k a) R) -> yields good (bind m k) R.
Proof.
  intros Hm Hk tr. unfold bind. destruct (Hm tr) as (evs & Htr & Hevs & HQ).
  destruct (m tr) as [[a|e] tr']; cbn [fst snd] in *; subst tr'.
  - destruct (Hk a (HQ a eq_refl) (tr ++ evs)) as (evs' & Htr' & Hevs' & HR).
    exists (evs ++ evs'). rewrite app_assoc. split; [exact Htr'|].
    split; [now apply Forall_app|exact HR].
  - exists evs. split; [reflexivity|]. split; [exact Hevs|discriminate].
Qed.

Lemma yields_weaken (m : M A) (Q Q' : A -> Prop) :
  yields good m Q -> (forall a, Q a -> Q' a) -> yields good m Q'.
Proof.
  intros Hm HQ tr. destruct (Hm tr) as (evs & Htr & Hevs & H).
  exists evs. split; [exact Htr|]. split; [exact Hevs|]. intros a Ha. apply HQ, H, Ha.
Qed.

Lemma yields_try_except (body : M A) catches (handler : Exn -> M A) (Q : A -> Prop) :
  yields good body Q -> (forall e, yields good (handler e) Q) ->
  yields good (try_except body catches handler) Q.
Proof.
  intros Hb Hh tr. unfold try_except. destruct (Hb tr) as (evs & Htr & Hevs & HQ).
  destruct (body tr) as [[a|e] tr']; cbn [fst snd] in *; subst tr'.
  - exists evs. split; [reflexivity|]. split; [exact Hevs|exact HQ].
  - destruct (catches e).
    + destruct (Hh e (tr ++ evs)) as (evs' & Htr' & Hevs' & HR).
      exists (evs ++ evs'). rewrite app_assoc. split; [exact Htr'|].
      split; [now apply Forall_app|exact HR].
    + exists evs. split; [reflexivity|]. split; [exact Hevs|discriminate].
Qed.

End Yields.

Lemma yields_for_each {A : Type} good (body : A -> M unit) (l : list A) :
  (forall a, In a l -> yields good (body a) (fun _ => True)) ->
  yields good (for_each l body) (fun _ => True).
Proof.
  induction l as [|a l IH]; intros H; cbn [for_each].
  - now apply yields_ret.
  - eapply yields_bind; [apply H; now left|]. intros _ _. apply IH.
    intros a' Ha'. apply H. now right.
Qed.

(** ** [__init__] and [get_locations] *)

Lemma init_ok OPENAQ_API_KEY self tr0 :
  fst (init OPENAQ_API_KEY tr0) = Ok self ->
  exists key,
    OPENAQ_API_KEY = Some key /\ key <> EmptyString /\
    base_url self = "https://api.openaq.org/v3" /\
    dict_get "X-API-Key" (self_headers self) = Some key /\
    forall tr,
      init OPENAQ_API_KEY tr =
      (Ok self, tr ++ [Logged LvInfo (MsgApiKeyPrefix (substring 0 8 key))]).
Proof.
  unfold init. destruct OPENAQ_API_KEY as [[|c key]|]; try discriminate.
  cbn. intros [= <-]. exists (String c key). repeat split; try reflexivity. discriminate.
Qed.

Section Locations.

Variable server : Server.
Variable self : Collector.

Local Notation get_locations := (get_locations server self).
Local Notation locations_request := (locations_request self).

(** X13.  Whatever the service does, a call of [get_locations] issues one
    request, the one for its city, country and limit.  Before it the call
    logs the headers of the collector, and with them the API key in full,
    of which [__init__] had logged the first eight characters only. *)
Theorem get_locations_logs_the_api_key OPENAQ_API_KEY city country limit tr :
  fst (init OPENAQ_API_KEY []) = Ok self ->
  gets (snd (get_locations city country limit tr)) =
    gets tr ++ [locations_request city country limit] /\
  exists key,
    OPENAQ_API_KEY = Some key /\
    snd (init OPENAQ_API_KEY []) = [Logged LvInfo (MsgApiKeyPrefix (substring 0 8 key))] /\
    dict_get "X-API-Key" (headers (locations_request city country limit)) = Some key /\
    In (Logged LvInfo (MsgUsingHeaders (headers (locations_request city country limit))))
       (snd (get_locations city country limit tr)).
Proof.
  intros Hinit. rewrite get_locations_extend. cbn [snd].
  rewrite gets_app, get_locations_gets. split; [reflexivity|].
  destruct (init_ok _ _ _ Hinit) as (key & HK & _ & _ & Hkey & Hrun).
  exists key. split; [exact HK|]. split; [now rewrite Hrun|]. split; [exact Hkey|].
  apply in_or_app. right. rewrite get_locations_spec. cbn zeta.
  destruct (server _) as [|r]; [cbn; auto|].
  destruct ((400 <=? status_code r) && (status_code r <? 600)); [cbn; auto|].
  destruct (json r) as [data|]; [|cbn; auto].
  destruct (py_get "results" data (VList [])) as [locations|x]; [|cbn; auto].
  destruct (truthy locations); [|cbn; auto].
  destruct (py_len locations); cbn; auto.
Qed.

End Locations.

(** ** The OpenAQ driver *)

Section Driver.

Variable server : Server.
Variable parse_datetime : option string -> string -> option Z.
Variable OPENAQ_API_KEY : option string.
Variables start_date_str end_date_str : string.

Local Notation main :=
  (DataCollector.main server parse_datetime OPENAQ_API_KEY start_date_str end_date_str).
Local Notation collect_location :=
  (collect_location server parse_datetime start_date_str end_date_str).
Local Notation collect_city :=
  (collect_city server parse_datetime start_date_str end_date_str).
Local Notation good := (driver_event OPENAQ_API_KEY).

(** The [try] block of [main]. *)
Local Notation attempt :=
  (bind (init OPENAQ_API_KEY)
        (fun collector => for_each cities (collect_city collector "US"))).


(** X15.  Without an API key in the environment (unset or empty) the
    driver does nothing but log the error and the hint to set the key: no
    request is issued, no directory created and no file written. *)
Theorem main_without_api_key tr :
  OPENAQ_API_KEY = None \/ OPENAQ_API_KEY = Some EmptyString ->
  main tr =
  (Ok tt,
   tr ++ [Logged LvError
            (MsgError (ValueError
               "OpenAQ API key not found. Please set OPENAQ_API_KEY in .env file"));
          Logged LvError MsgSetApiKey]).
Proof.
  intros [H|H]; unfold DataCollector.main, try_except, bind, init, raise; rewrite H;
    cbn [is_Exception is_ValueError]; unfold log, emit; now rewrite <- app_assoc.
Qed.

Section WithCollector.

Variable self : Collector.
Hypothesis Hinit : fst (init OPENAQ_API_KEY []) = Ok self.

Local Notation lookup city := (get_locations server self city "US" 3).
Local Notation lookup_request city := (locations_request self city "US" 3).

Lemma yields_get_locations city :
  yields good (lookup city) (fun _ => True).
Proof.
  destruct (init_ok _ _ _ Hinit) as (key & HK & _ & Hbase & Hkey & _).
  intros tr. exists (snd (lookup city [])).
  split; [now rewrite get_locations_extend|]. split; [|auto].
  apply Forall_forall. intros ev Hev. destruct ev as [req| | | | |path df]; try exact I.
  - apply In_gets in Hev. rewrite get_locations_gets in Hev. destruct Hev as [<-|[]].
    exists key. split; [exact HK|]. split; [exact Hkey|]. left.
    unfold locations_request. cbn [url]. now rewrite Hbase.
  - exfalso. assert (H : In df (csv_tables (snd (lookup city [])))).
    { unfold csv_tables. apply in_flat_map. exists (CsvWritten path df). split; [exact Hev|now left]. }
    rewrite get_locations_csv in H. destruct H.
Qed.

Lemma yields_fetch location_id :
  yields good
    (fetch_air_quality_data server parse_datetime self location_id start_date_str
       end_date_str default_max_pages None)
    (fun _ => True).
Proof.
  destruct (init_ok _ _ _ Hinit) as (key & HK & _ & Hbase & Hkey & _).
  intros tr. eexists. split; [apply fetch_trace|]. split; [|auto].
  apply Forall_forall. intros ev Hev. apply in_flat_map in Hev. destruct Hev as (p & _ & Hev).
  destruct ev as [req| | | | |path df]; try exact I.
  - apply In_gets in Hev.
    destruct (events_of_gets server self location_id start_date_str end_date_str
                default_max_pages p) as (k & _ & Hg).
    rewrite Hg in Hev. apply in_map_iff in Hev. destruct Hev as (page & <- & _).
    exists key. split; [exact HK|]. split; [exact Hkey|]. right.
    unfold measurements_request. cbn [url]. now rewrite Hbase.
  - exfalso.
    pose proof (events_of_events server self location_id start_date_str end_date_str
                  default_max_pages p) as H.
    rewrite Forall_forall in H. exact (H _ Hev).
Qed.

Lemma yields_collect_location city loc :
  In city cities -> yields good (collect_location self city loc) (fun _ => True).
Proof.
  intros Hcity. unfold DataCollector.collect_location.
  eapply yields_bind; [apply yields_lift|]. intros location_id _.
  eapply yields_bind; [apply yields_lift|]. intros location_name _.
  eapply yields_bind; [apply yields_emit; exact I|]. intros _ _.
  eapply yields_bind; [apply yields_fetch|]. intros df _.
  destruct (empty df) eqn:He; cbn [negb]; [apply yields_emit; exact I|].
  eapply yields_bind; [apply yields_emit; exact I|]. intros _ _.
  eapply yields_bind; [apply yields_lift|]. intros name _.
  eapply yields_bind; [apply yields_emit|]; [|intros _ _; apply yields_emit; exact I].
  split; [exact He|]. exists city, name. split; [exact Hcity|reflexivity].
Qed.

Lemma yields_collect_city city :
  In city cities -> yields good (collect_city self "US" city) (fun _ => True).
Proof.
  intros Hcity. unfold DataCollector.collect_city.
  eapply yields_bind; [apply yields_emit; exact I|]. intros _ _.
  eapply yields_bind; [apply yields_get_locations|]. intros locations _.
  destruct (negb (truthy locations)); [apply yields_emit; exact I|].
  eapply yields_bind; [apply yields_lift|]. intros locs _.
  apply yields_for_each. intros loc _. now apply yields_collect_location.
Qed.

End WithCollector.

Lemma yields_main : yields good main (fun _ => True).
Proof.
  unfold DataCollector.main. apply yields_try_except.
  - eapply yields_bind with (Q := fun self => fst (init OPENAQ_API_KEY []) = Ok self).
    + intros tr. destruct (init OPENAQ_API_KEY []) as [[self|e] tr0] eqn:Hrun.
      * destruct (init_ok OPENAQ_API_KEY self [] ltac:(now rewrite Hrun))
          as (key & _ & _ & _ & _ & Hall).
        rewrite Hall. eexists. split; [reflexivity|]. split; [repeat constructor|].
        now intros a [= <-].
      * exists []. unfold init in *. destruct OPENAQ_API_KEY as [[|c key]|]; try discriminate;
          cbn; rewrite app_nil_r; (split; [reflexivity|]); (split; [constructor|discriminate]).
    + intros self Hself. apply yields_for_each. intros city Hcity.
      now apply yields_collect_city.
  - intros e. destruct (is_ValueError e); [|apply yields_emit; exact I].
    eapply yields_bind; [apply yields_emit; exact I|]. intros _ _. apply yields_emit; exact I.
Qed.

(** X16.  Every file a run of the driver writes holds a table that is not
    empty, and is the file of a location of Los Angeles, New York or
    Chicago in [data/raw]: city and location name in lower case, spaces
    replaced by underscores, then [_air_quality.csv]. *)
Theorem main_writes_collected_files tr path df :
  In (CsvWritten path df) (snd (main tr)) ->
  In (CsvWritten path df) tr \/
  (empty df = false /\
   exists city name, In city cities /\ path = collected_file city name).
Proof.
  destruct (yields_main tr) as (evs & -> & Hevs & _). rewrite in_app_iff.
  intros [H|H]; [now left|right]. rewrite Forall_forall in Hevs. exact (Hevs _ H).
Qed.

(** X17.  Every request of a run of the driver goes to the locations or
    the measurements endpoint of [api.openaq.org/v3] and carries the API
    key of the environment: the driver contacts no other address, and
    nothing at all without a key. *)
Theorem main_requests_only_openaq tr req :
  In (HttpGet req) (snd (main tr)) ->
  In (HttpGet req) tr \/
  exists key, OPENAQ_API_KEY = Some key /\ openaq_request key req.
Proof.
  destruct (yields_main tr) as (evs & -> & Hevs & _). rewrite in_app_iff.
  intros [H|H]; [now left|right]. rewrite Forall_forall in Hevs. exact (Hevs _ H).
Qed.

Section Lookups.

Variable self : Collector.

Local Notation lookup city := (get_locations server self city "US" 3).
Local Notation lookup_request city := (locations_request self city "US" 3).

(** A lookup without locations: it returns an object that is false (the
    empty list, [None], ...). *)
Local Notation nothing_found city :=
  (exists locations, fst (lookup city []) = Ok locations /\ truthy locations = false).

Lemma collect_city_skipped city tr :
  nothing_found city ->
  collect_city self "US" city tr =
  (Ok tt,
   tr ++ Logged LvInfo (MsgLookingUp city "US") :: snd (lookup city []) ++
         [Logged LvWarning (MsgSkippingCity city)]).
Proof.
  intros (locations & H & Hfalse). unfold DataCollector.collect_city, bind, log, emit.
  rewrite get_locations_extend, H, Hfalse. cbn [negb]. f_equal.
  rewrite <- !app_assoc. reflexivity.
Qed.

Lemma for_each_skipped : forall cs tr,
  (forall city, In city cs -> nothing_found city) ->
  exists evs,
    for_each cs (collect_city self "US") tr = (Ok tt, tr ++ evs) /\
    gets evs = map (fun city => lookup_request city) cs /\
    csv_tables evs = [] /\
    forall city, In city cs -> In (Logged LvWarning (MsgSkippingCity city)) evs.
Proof.
  induction cs as [|city cs IH]; intros tr H.
  - exists []. cbn. rewrite app_nil_r. repeat split. intros city [].
  - cbn [for_each]. unfold bind. rewrite collect_city_skipped by (apply H; now left).
    destruct (IH (tr ++ Logged LvInfo (MsgLookingUp city "US") :: snd (lookup city []) ++
                        [Logged LvWarning (MsgSkippingCity city)]))
      as (evs & Hrun & Hg & Hc & Hw); [intros c Hc; apply H; now right|].
    rewrite Hrun. eexists. rewrite <- app_assoc. split; [reflexivity|].
    cbn [app]. split; [|split].
    + cbn [gets flat_map app map]. fold (gets ((snd (lookup city []) ++
                                                [Logged LvWarning (MsgSkippingCity city)]) ++ evs)).
      rewrite !gets_app, get_locations_gets, Hg. reflexivity.
    + cbn [csv_tables flat_map app].
      fold (csv_tables ((snd (lookup city []) ++
                         [Logged LvWarning (MsgSkippingCity city)]) ++ evs)).
      rewrite !csv_tables_app, get_locations_csv, Hc. reflexivity.
    + intros c [<-|Hin].
      * right. apply in_or_app. left. apply in_or_app. right. now left.
      * right. apply in_or_app. right. now apply Hw.
Qed.

Lemma collect_location_without_field city loc field tr :
  field = "id" /\ dict_get "id" loc = None \/
  field = "name" /\ dict_get "id" loc <> None /\ dict_get "name" loc = None ->
  collect_location self city (VDict loc) tr = (Raise (KeyError [field]), tr).
Proof.
  unfold DataCollector.collect_location, bind, lift, py_getitem, getitem.
  intros [[-> H]|(-> & Hid & H)].
  - now rewrite H.
  - destruct (dict_get "id" loc); [|contradiction]. now rewrite H.
Qed.

End Lookups.

(** X18.  A city for which the lookup returns no location, be it for an
    error or for an empty answer, is skipped with a warning.  When that
    happens for all three cities, a run issues the three lookups and
    nothing else: no measurement is requested and no file written. *)
Theorem cities_without_locations_are_skipped self tr :
  fst (init OPENAQ_API_KEY []) = Ok self ->
  (forall city, In city cities ->
     exists locations,
       fst (get_locations server self city "US" 3 []) = Ok locations /\
       truthy locations = false) ->
  gets (snd (main tr)) =
    gets tr ++ map (fun city => locations_request self city "US" 3) cities /\
  csv_tables (snd (main tr)) = csv_tables tr /\
  forall city, In city cities -> In (Logged LvWarning (MsgSkippingCity city)) (snd (main tr)).
Proof.
  intros Hinit Hskip.
  destruct (init_ok _ _ _ Hinit) as (key & _ & _ & _ & _ & Hrun).
  destruct (for_each_skipped self cities
              (tr ++ [Logged LvInfo (MsgApiKeyPrefix (substring 0 8 key))]) Hskip)
    as (evs & Hfor & Hg & Hc & Hw).
  unfold DataCollector.main, try_except, bind. rewrite Hrun, Hfor. cbn [snd].
  rewrite !gets_app, !csv_tables_app, Hg, Hc. cbn [gets csv_tables flat_map app].
  rewrite !app_nil_r. split; [reflexivity|]. split; [reflexivity|].
  intros city Hcity. apply in_or_app. right. now apply Hw.
Qed.

(** X19.  The driver reads [id] and [name] of every location record.  When
    the first record of a city lacks one of them, the [KeyError] ends the
    whole run: it is logged as an unexpected error, the cities after that
    one are not looked up, and nothing is requested or written for the
    city.  (The cities before it are taken to have no location.) *)
Theorem location_without_id_ends_the_run self before city after loc rest field tr :
  fst (init OPENAQ_API_KEY []) = Ok self ->
  cities = before ++ city :: after ->
  (forall c, In c before ->
     exists locations,
       fst (get_locations server self c "US" 3 []) = Ok locations /\
       truthy locations = false) ->
  fst (get_locations server self city "US" 3 []) = Ok (VList (VDict loc :: rest)) ->
  field = "id" /\ dict_get "id" loc = None \/
  field = "name" /\ dict_get "id" loc <> None /\ dict_get "name" loc = None ->
  gets (snd (main tr)) =
    gets tr ++ map (fun c => locations_request self c "US" 3) (before ++ [city]) /\
  csv_tables (snd (main tr)) = csv_tables tr /\
  exists evs,
    main tr = (Ok tt, tr ++ evs ++ [Logged LvError (MsgUnexpected (KeyError [field]))]).
Proof.
  intros Hinit Hcities Hskip Hfound Hfield.
  destruct (init_ok _ _ _ Hinit) as (key & _ & _ & _ & _ & Hrun).
  assert (Hfor : forall tr0, exists evs,
            for_each (before ++ city :: after) (collect_city self "US") tr0 =
              (Raise (KeyError [field]), tr0 ++ evs) /\
            gets evs = map (fun c => locations_request self c "US" 3) (before ++ [city]) /\
            csv_tables evs = []).
  { clear Hcities. induction before as [|c before IH]; intros tr0.
    - cbn [app for_each]. unfold bind at 1. unfold DataCollector.collect_city, bind, log, emit.
      rewrite get_locations_extend, Hfound. cbn [truthy negb lift py_iter for_each].
      unfold bind.
      rewrite (collect_location_without_field self city loc field _ Hfield).
      eexists. rewrite <- app_assoc. split; [reflexivity|]. cbn [app].
      split.
      + cbn [gets flat_map app map]. fold (gets (snd (get_locations server self city "US" 3 []))).
        apply get_locations_gets.
      + cbn [csv_tables flat_map app].
        fold (csv_tables (snd (get_locations server self city "US" 3 []))).
        apply get_locations_csv.
    - cbn [app for_each]. unfold bind at 1.
      rewrite collect_city_skipped by (apply Hskip; now left).
      destruct (IH ltac:(intros c' Hc'; apply Hskip; now right)
                  (tr0 ++ Logged LvInfo (MsgLookingUp c "US") ::
                     snd (get_locations server self c "US" 3 []) ++
                     [Logged LvWarning (MsgSkippingCity c)]))
        as (evs & Hrun' & Hg & Hc).
      rewrite Hrun'. eexists. rewrite <- app_assoc. split; [reflexivity|].
      cbn [app]. split.
      + cbn [gets flat_map app map].
        fold (gets ((snd (get_locations server self c "US" 3 []) ++
                     [Logged LvWarning (MsgSkippingCity c)]) ++ evs)).
        rewrite !gets_app, get_locations_gets, Hg. reflexivity.
      + cbn [csv_tables flat_map app].
        fold (csv_tables ((snd (get_locations server self c "US" 3 []) ++
                           [Logged LvWarning (MsgSkippingCity c)]) ++ evs)).
        rewrite !csv_tables_app, get_locations_csv, Hc. reflexivity. }
  destruct (Hfor (tr ++ [Logged LvInfo (MsgApiKeyPrefix (substring 0 8 key))]))
    as (evs & Hforrun & Hg & Hc).
  unfold DataCollector.main, try_except, bind. rewrite Hrun, Hcities, Hforrun.
  cbn [is_Exception is_ValueError snd]. unfold log, emit. cbn [snd].
  rewrite !gets_app, !csv_tables_app, Hg, Hc. cbn [gets csv_tables flat_map app].
  rewrite !app_nil_r. split; [reflexivity|]. split; [reflexivity|].
  exists ([Logged LvInfo (MsgApiKeyPrefix (substring 0 8 key))] ++ evs).
  now rewrite <- !app_assoc.
Qed.

End Driver.

(** ** File names *)

Lemma slug_char c :
  let c' := if Ascii.eqb c " " then "_"%char else lower_char c in
  c' <> " "%char /\ is_upper c' = false /\
  (if Ascii.eqb c' " " then "_"%char else lower_char c') = c'.
Proof.
  destruct c as [[] [] [] [] [] [] [] []]; vm_compute; repeat split; discriminate.
Qed.

(** X20.  The part of a file name made of a city or location name keeps
    the length of the name and has no space and no ASCII capital letter;
    making it again from itself changes nothing. *)
Theorem slug_is_normal s :
  String.length (slug s) = String.length s /\
  (forall c, In c (list_ascii_of_string (slug s)) -> c <> " "%char /\ is_upper c = false) /\
  slug (slug s) = slug s.
Proof.
  induction s as [|c s (IHlen & IHin & IHid)]; cbn [slug String.length list_ascii_of_string].
  - split; [reflexivity|]. split; [intros c' []|reflexivity].
  - destruct (slug_char c) as (Hsp & Hup & Hid). split; [now rewrite IHlen|]. split.
    + intros c' [<-|Hc']; [now split|now apply IHin].
    + cbn zeta in Hid. rewrite Hid, IHid. reflexivity.
Qed.

(** ** The EPA driver *)

Section EpaFurther.

Variable server : Server.
Variables bdate edate timestamp : string.

Local Notation fetch_epa_data := (CollectData.fetch_epa_data server bdate edate).
Local Notation epa_main := (CollectData.main server bdate edate timestamp).
Local Notation epa_request := (epa_request bdate edate).
Local Notation stations := CollectData.get_nyc_stations.

(** X21.  [fetch_epa_data] never raises and issues one request.  It
    returns the decoded body for a reply of status 200 whose body is JSON,
    and no data otherwise: when there is no reply, for any other status,
    and for a reply of status 200 whose body is not JSON; in each of these
    cases it prints what went wrong. *)
Theorem fetch_epa_data_returns_body_on_200 tr :
  fetch_epa_data tr =
  match server epa_request with
  | NoReply =>
      (Ok VNull, tr ++ [HttpGet epa_request; Printed (MsgEpaException ConnectionError)])
  | Reply r =>
      if status_code r =? 200
      then match json r with
           | Some data => (Ok data, tr ++ [HttpGet epa_request])
           | None =>
               (Ok VNull,
                tr ++ [HttpGet epa_request; Printed (MsgEpaException JSONDecodeError)])
           end
      else (Ok VNull,
            tr ++ [HttpGet epa_request; Printed (MsgEpaStatus (status_code r));
                   Printed (MsgEpaResponse (text r))])
  end.
Proof.
  unfold CollectData.fetch_epa_data, requests_get, try_except, bind, emit, ret, raise, lift,
    response_json.
  change (mkRequest _ _ _) with epa_request.
  destruct (server epa_request) as [|r]; cbn [is_Exception fst snd].
  - now rewrite <- !app_assoc.
  - destruct (status_code r =? 200).
    + destruct (json r); cbn [is_Exception]; now rewrite <- ?app_assoc.
    + now rewrite <- !app_assoc.
Qed.

Local Notation station_names :=
  (map (fun kv : string * CollectData.Station => (fst kv, CollectData.name (snd kv))) stations).

Lemma dict_get_mem {V : Type} k (d : Dict V) v :
  dict_get k d = Some v -> mem k (keys d) = true.
Proof.
  induction d as [|[k' v'] d IH]; [discriminate|].
  unfold mem, keys in *. cbn [dict_get map fst existsb].
  destruct (String.eqb k k'); [reflexivity|]. exact IH.
Qed.

Lemma epa_fetch_ok records tr :
  epa_records (server epa_request) = Some records ->
  exists data recs,
    fetch_epa_data tr = (Ok data, tr ++ [HttpGet epa_request]) /\
    CollectData.has_data data = Ok true /\
    py_getitem "Data" data = Ok recs /\
    pd_DataFrame_of recs = Ok (pd_DataFrame records).
Proof.
  unfold epa_records.
  unfold CollectData.fetch_epa_data, requests_get, try_except, bind, emit, ret, raise, lift,
    response_json.
  change (mkRequest _ _ _) with epa_request.
  destruct (server epa_request) as [|r]; [discriminate|].
  destruct (status_code r =? 200); [|discriminate].
  destruct (json r) as [[|q|s|t|d|b|l]|]; try discriminate.
  destruct (dict_get "Data" d) as [recs|] eqn:Hd; [|discriminate].
  destruct (table_records recs) as [rows|] eqn:Hrows; [|discriminate].
  intros [= <-]. exists (VDict d), recs. split; [reflexivity|].
  pose proof (dict_get_mem _ _ _ Hd) as Hmem.
  split; [|split].
  - unfold CollectData.has_data. destruct d; [discriminate|]. cbn [truthy py_contains].
    now rewrite Hmem.
  - cbn [py_getitem]. unfold getitem. now rewrite Hd.
  - unfold pd_DataFrame_of. now rewrite Hrows.
Qed.

(** The run of the driver on the records of a successful fetch. *)
Lemma epa_main_run records tr :
  epa_records (server epa_request) = Some records ->
  epa_main tr =
  let tr1 := tr ++ [MadeDirs "data/raw"; Printed MsgGettingStations;
                    Printed (MsgFoundStations 4); Printed MsgFetchingEpa;
                    HttpGet epa_request] in
  match CollectData.filter_isin "site_number" (keys stations) (pd_DataFrame records) with
  | Raise e => (Raise e, tr1)
  | Ok kept =>
      let df := assign_column "station_name"
                  (fun r => CollectData.map_value station_names (cell "site_number" r))
                  kept in
      let tr2 := tr1 ++ [CsvWritten (epa_file timestamp) df;
                         Printed (MsgDataSaved (epa_file timestamp));
                         Printed MsgSummaryHeader; Printed (MsgTotal (len df));
                         Printed MsgParametersHeader] in
      match CollectData.value_counts "parameter_name" df with
      | Raise e => (Raise e, tr2)
      | Ok counts =>
          match CollectData.value_counts "station_name" df with
          | Raise e => (Raise e, tr2 ++ [Printed counts; Printed MsgStationsHeader])
          | Ok counts' =>
              (Ok tt, tr2 ++ [Printed counts; Printed MsgStationsHeader; Printed counts'])
          end
      end
  end.
Proof.
  intros Hrec. unfold CollectData.main, bind at 1 2 3 4 5. unfold emit at 1 2 3 4.
  destruct (epa_fetch_ok records
              ((((tr ++ [MadeDirs "data/raw"]) ++ [Printed MsgGettingStations]) ++
                [Printed (MsgFoundStations (Z.of_nat (List.length stations)))]) ++
               [Printed MsgFetchingEpa]) Hrec) as (data & recs & Hrun & Hdata & Hget & Hdf).
  rewrite Hrun. unfold bind at 1. unfold lift at 1. rewrite Hdata.
  unfold bind at 1. unfold lift at 1. rewrite Hget.
  unfold bind at 1. unfold lift at 1. rewrite Hdf.
  cbn zeta. unfold bind, lift, emit, epa_file.
  destruct (CollectData.filter_isin _ _ _) as [kept|e].
  - destruct (CollectData.value_counts "parameter_name" _) as [counts|e].
    + destruct (CollectData.value_counts "station_name" _) as [counts'|e];
        rewrite <- !app_assoc; reflexivity.
    + rewrite <- !app_assoc. reflexivity.
  - rewrite <- !app_assoc. reflexivity.
Qed.

Lemma In_columns_pd_DataFrame c records :
  In c (columns (pd_DataFrame records)) <-> exists rec, In rec records /\ In c (keys rec).
Proof.
  unfold pd_DataFrame. cbn [columns].
  rewrite (In_distinct_by String.eqb String.eqb_eq (flat_map keys records) c).
  apply in_flat_map.
Qed.

Lemma filter_map_comm {A B : Type} (f : B -> bool) (g : A -> B) l :
  filter f (map g l) = map g (filter (fun x => f (g x)) l).
Proof.
  induction l as [|a l IH]; [reflexivity|]. cbn. destruct (f (g a)); cbn; now rewrite IH.
Qed.

Lemma Forall2_map_self {A B : Type} (P : B -> A -> Prop) (F : A -> B) l :
  (forall x, In x l -> P (F x) x) -> Forall2 P (map F l) l.
Proof.
  induction l as [|a l IH]; intros H; cbn; constructor.
  - apply H. now left.
  - apply IH. intros x Hx. apply H. now right.
Qed.

Lemma station_of_record rec :
  is_station_record rec = true ->
  exists id station,
    cell "site_number" rec = VStr id /\ dict_get id stations = Some station /\
    CollectData.map_value station_names (cell "site_number" rec) =
      VStr (CollectData.name station).
Proof.
  unfold is_station_record.
  destruct (cell "site_number" rec) as [|q|s|t|d|b|l]; try discriminate.
  unfold mem, keys. cbn [map fst CollectData.get_nyc_stations existsb]. intros H.
  destruct (String.eqb s "36-005-0112") eqn:E;
    [apply String.eqb_eq in E; subst s; eexists _, _; repeat split; reflexivity|clear E].
  destruct (String.eqb s "36-081-0124") eqn:E;
    [apply String.eqb_eq in E; subst s; eexists _, _; repeat split; reflexivity|clear E].
  destruct (String.eqb s "36-047-0010") eqn:E;
    [apply String.eqb_eq in E; subst s; eexists _, _; repeat split; reflexivity|clear E].
  destruct (String.eqb s "36-061-0014") eqn:E;
    [apply String.eqb_eq in E; subst s; eexists _, _; repeat split; reflexivity|clear E].
  discriminate.
Qed.

(** X22.  When the fetch succeeds and the records carry a [site_number],
    the driver writes one file, [data/raw/nyc_air_quality_<timestamp>.csv],
    even if no record is kept.  Its rows are the records of the four
    stations, in the order of the reply and with their cells unchanged,
    each with the name of its station in the column [station_name];
    records of other sites are left out. *)
Theorem epa_csv_holds_the_station_records records tr :
  epa_records (server epa_request) = Some records ->
  (exists rec, In rec records /\ In "site_number" (keys rec)) ->
  exists df,
    csv_tables (snd (epa_main tr)) = csv_tables tr ++ [df] /\
    In (CsvWritten (epa_file timestamp) df) (snd (epa_main tr)) /\
    Forall2
      (fun row rec =>
         (forall c, In c (columns (pd_DataFrame records)) -> c <> "station_name" ->
                    cell c row = cell c rec) /\
         exists id station,
           cell "site_number" rec = VStr id /\ dict_get id stations = Some station /\
           cell "station_name" row = VStr (CollectData.name station))
      (rows df) (filter is_station_record records).
Proof.
  intros Hrec Hsite. apply In_columns_pd_DataFrame in Hsite.
  rewrite (epa_main_run records tr Hrec). cbn zeta.
  unfold CollectData.filter_isin. rewrite (proj2 (mem_In _ _) Hsite).
  set (cols := columns (pd_DataFrame records)) in *.
  set (kept := mkDataFrame cols _).
  set (df := assign_column "station_name" _ kept).
  exists df. split; [|split].
  - destruct (CollectData.value_counts "parameter_name" df) as [counts|e];
      [destruct (CollectData.value_counts "station_name" df) as [counts'|e]|];
      cbn [snd]; rewrite !csv_tables_app; cbn; now rewrite ?app_nil_r.
  - destruct (CollectData.value_counts "parameter_name" df) as [counts|e];
      [destruct (CollectData.value_counts "station_name" df) as [counts'|e]|];
      cbn [snd]; rewrite !in_app_iff; cbn; auto 10.
  - subst df kept. unfold assign_column. cbn [rows columns].
    change (rows (pd_DataFrame records)) with (map (reindex cols) records).
    rewrite filter_map_comm, map_map.
    rewrite (filter_ext _ is_station_record).
    2:{ intros rec. unfold is_station_record. now rewrite cell_reindex. }
    apply Forall2_map_self. intros rec Hin. apply filter_In in Hin. destruct Hin as [_ Hst].
    set (cols' := if mem "station_name" cols then cols else cols ++ ["station_name"]).
    assert (Hsub : forall c, In c cols -> mem c cols' = true).
    { intros c Hc. subst cols'. destruct (mem "station_name" cols).
      - now apply mem_In.
      - apply mem_In, in_or_app. now left. }
    assert (Hname : mem "station_name" cols' = true).
    { subst cols'. destruct (mem "station_name" cols) eqn:Hm; [exact Hm|].
      apply mem_In, in_or_app. right. now left. }
    split.
    + intros c Hc Hne. unfold cell at 1, dict_get_default.
      rewrite (dict_get_tabulate
                 (fun c' => if String.eqb c' "station_name"
                            then CollectData.map_value station_names
                                   (cell "site_number" (reindex cols rec))
                            else cell c' (reindex cols rec))).
      rewrite (Hsub c Hc). destruct (String.eqb_spec c "station_name"); [contradiction|].
      now apply cell_reindex.
    + destruct (station_of_record rec Hst) as (id & station & Hid & Hst' & Hmap).
      exists id, station. split; [exact Hid|]. split; [exact Hst'|].
      unfold cell at 1, dict_get_default.
      rewrite (dict_get_tabulate
                 (fun c' => if String.eqb c' "station_name"
                            then CollectData.map_value station_names
                                   (cell "site_number" (reindex cols rec))
                            else cell c' (reindex cols rec))).
      rewrite Hname. cbn [String.eqb Ascii.eqb Bool.eqb]. rewrite cell_reindex by exact Hsite.
      exact Hmap.
Qed.

(** X23.  When the fetch succeeds but no record carries a [site_number],
    also when the list of records is empty, the driver does not report
    that nothing was collected: the selection of the stations raises
    [KeyError], which the driver lets through, and no file is written. *)
Theorem epa_records_without_site_number records tr :
  epa_records (server epa_request) = Some records ->
  (forall rec, In rec records -> ~ In "site_number" (keys rec)) ->
  fst (epa_main tr) = Raise (KeyError ["site_number"]) /\
  csv_tables (snd (epa_main tr)) = csv_tables tr.
Proof.
  intros Hrec Hnone. rewrite (epa_main_run records tr Hrec). cbn zeta.
  unfold CollectData.filter_isin.
  assert (Hm : mem "site_number" (columns (pd_DataFrame records)) = false).
  { apply mem_false. intros H. apply In_columns_pd_DataFrame in H.
    destruct H as (rec & Hin & Hk). exact (Hnone rec Hin Hk). }
  rewrite Hm. split; [reflexivity|]. cbn [snd]. rewrite csv_tables_app. cbn.
  now rewrite app_nil_r.
Qed.

(** X24.  After the file is written the driver prints the counts per
    [parameter_name].  A run that writes the file returns normally exactly
    when some record carries that field; otherwise it ends in a [KeyError]
    with the file already written. *)
Theorem epa_summary_needs_parameter_name records tr :
  epa_records (server epa_request) = Some records ->
  (exists rec, In rec records /\ In "site_number" (keys rec)) ->
  (fst (epa_main tr) = Ok tt <->
   exists rec, In rec records /\ In "parameter_name" (keys rec)) /\
  (fst (epa_main tr) <> Ok tt ->
   fst (epa_main tr) = Raise (KeyError ["parameter_name"]) /\
   exists path df, In (CsvWritten path df) (snd (epa_main tr))).
Proof.
  intros Hrec Hsite. apply In_columns_pd_DataFrame in Hsite.
  rewrite (epa_main_run records tr Hrec). cbn zeta.
  unfold CollectData.filter_isin. rewrite (proj2 (mem_In _ _) Hsite).
  rewrite <- In_columns_pd_DataFrame.
  set (cols := columns (pd_DataFrame records)) in *.
  set (kept := mkDataFrame cols _).
  set (df := assign_column "station_name" _ kept).
  assert (Hcols : columns df = if mem "station_name" cols then cols else cols ++ ["station_name"])
    by reflexivity.
  assert (Hname : mem "station_name" (columns df) = true).
  { rewrite Hcols. destruct (mem "station_name" cols) eqn:Hm; [exact Hm|].
    apply mem_In, in_or_app. right. now left. }
  assert (Hparam : mem "parameter_name" (columns df) = mem "parameter_name" cols).
  { rewrite Hcols. destruct (mem "station_name" cols); [reflexivity|].
    unfold mem. rewrite existsb_app. cbn. now rewrite !orb_false_r. }
  unfold CollectData.value_counts. rewrite Hname, Hparam.
  destruct (mem "parameter_name" cols) eqn:Hm; cbn [fst snd].
  - split; [|intros H; now contradiction H].
    split; [intros _; now apply mem_In|reflexivity].
  - split.
    + split; [discriminate|]. intros H. apply mem_In in H. congruence.
    + intros _. split; [reflexivity|]. exists (epa_file timestamp), df.
      rewrite !in_app_iff. cbn. auto 10.
Qed.

End EpaFurther.
(** ** Worked examples of the further properties *)

Local Notation sample_events_of :=
  (events_of Sample.server Sample.collector Sample.location_id Sample.start_date
     Sample.end_date).
Local Notation sample_main server key :=
  (DataCollector.main server Sample.parse key Sample.start_date Sample.end_date).
Local Notation sample_key := "0123456789abcdef".
Local Notation bare_fetch :=
  (fetch_air_quality_data Cases.bare Sample.parse Sample.collector Sample.location_id
     Sample.start_date Sample.end_date 10).
Local Notation epa_main records :=
  (CollectData.main (Cases.epa records) "20240101" "20240131" "20240131_120000").

(** With a cap of one page the sample service's full first page of [pm25]
    is all the loop asks for. *)
Lemma page_cap_truncates_full_pages_witness :
  sample_served "pm25" 1 [Sample.full_page] /\
  gets (sample_events_of 1 "pm25") = [sample_request "pm25" 1] /\
  sleeps (sample_events_of 1 "pm25") = [200].
Proof.
  assert (Hs : sample_served "pm25" 1 [Sample.full_page])
    by (split; [vm_compute; reflexivity|exact I]).
  split; [exact Hs|].
  apply (page_cap_truncates_full_pages Sample.server Sample.collector Sample.location_id
           Sample.start_date Sample.end_date 1 "pm25" [Sample.full_page] Hs).
  - constructor; [vm_compute; discriminate|constructor].
  - reflexivity.
Defined.

(** With a cap of 0 the call for [so2] only warns. *)
Lemma no_page_allowed_fetches_nothing_witness :
  0 < 1 /\
  fetch_air_quality_data Sample.server Sample.parse Sample.collector Sample.location_id
    Sample.start_date Sample.end_date 0 (Some ["so2"]) [] =
  (Ok empty_frame, [Logged LvWarning (MsgNoData "so2" Sample.location_id)]).
Proof.
  assert (H : 0 < 1) by lia.
  split; [exact H|].
  exact (no_page_allowed_fetches_nothing Sample.server Sample.collector Sample.location_id
           Sample.start_date Sample.end_date 0 Sample.parse (Some ["so2"]) [] H).
Defined.

(** The table of the sample call for [so2] has the column [so2], which
    was asked for. *)
Lemma returned_columns_are_requested_witness :
  fst (sample_fetch (Some ["so2"]) []) = Ok Sample.so2_table /\
  In "so2" (columns Sample.so2_table) /\
  (In "so2" key_fields \/ In "so2" (requested (Some ["so2"]))).
Proof.
  assert (H : fst (sample_fetch (Some ["so2"]) []) = Ok Sample.so2_table)
    by (vm_compute; reflexivity).
  assert (Hc : In "so2" (columns Sample.so2_table)) by (cbn; auto 10).
  split; [exact H|]. split; [exact Hc|].
  exact (returned_columns_are_requested Sample.server Sample.collector Sample.location_id
           Sample.start_date Sample.end_date 10 Sample.parse (Some ["so2"]) []
           Sample.so2_table H "so2" Hc).
Defined.

(** The request of the sample call for [so2] is that of page 1. *)
Lemma requests_stay_within_parameters_and_cap_witness :
  In (sample_request "so2" 1) (gets (snd (sample_fetch (Some ["so2"]) []))) /\
  (In (sample_request "so2" 1) (gets []) \/
   exists p page,
     In p (requested (Some ["so2"])) /\ 1 <= page <= 10 /\
     sample_request "so2" 1 = sample_request p page).
Proof.
  assert (H : In (sample_request "so2" 1) (gets (snd (sample_fetch (Some ["so2"]) []))))
    by (vm_compute; now left).
  split; [exact H|].
  exact (requests_stay_within_parameters_and_cap Sample.server Sample.collector
           Sample.location_id Sample.start_date Sample.end_date 10 Sample.parse
           (Some ["so2"]) [] (sample_request "so2" 1) H).
Defined.

(** A page whose body is a JSON array makes the loop raise
    [AttributeError]: the call for [pm25] and [so2] ends there, after one
    request, without a warning and without a request for [so2]. *)
Lemma loop_that_raises_ends_the_call :
  fetch_air_quality_data Cases.listing Sample.parse Sample.collector Sample.location_id
    Sample.start_date Sample.end_date 10 (Some ["pm25"; "so2"]) [] =
  (Raise (AttributeError "object has no attribute 'get'"),
   [HttpGet (sample_request "pm25" 1)]) /\
  contribution Cases.listing Sample.collector Sample.location_id Sample.start_date
    Sample.end_date 10 "pm25" = [].
Proof. split; vm_compute; reflexivity. Qed.

(** The records of the bare service have no [date]: the call for [pm25]
    raises the [KeyError] of the six fields they lack. *)
Lemma missing_field_fails_the_call_witness :
  exists missing,
    fst (bare_fetch (Some ["pm25"]) []) = Raise (KeyError missing) /\ In "date" missing.
Proof.
  apply (missing_field_fails_the_call Cases.bare Sample.collector Sample.location_id
           Sample.start_date Sample.end_date 10 Sample.parse (Some ["pm25"]) [] "date").
  - now left.
  - discriminate.
  - intros p page results r _ Hout Hr.
    assert (H : page_outcome Cases.bare Sample.collector Sample.location_id
                  Sample.start_date Sample.end_date p page =
                Ok [[("value", VNum (inject_Z 1))]]) by reflexivity.
    rewrite H in Hout. injection Hout as <-. destruct Hr as [<-|[]].
    cbn. intros [H'|[]]. discriminate.
  - vm_compute. reflexivity.
  - exists "pm25". split; [now left|]. vm_compute. discriminate.
Defined.

(** The two colliding sample rows are reshaped to one row. *)
Lemma reshaped_rows_are_bounded_witness :
  _process_data Sample.parse Sample.collided = Ok Sample.averaged /\
  (List.length (rows Sample.averaged) <= List.length (rows Sample.collided))%nat.
Proof.
  assert (H : _process_data Sample.parse Sample.collided = Ok Sample.averaged)
    by (vm_compute; reflexivity).
  split; [exact H|].
  exact (proj1 (reshaped_rows_are_bounded Sample.parse Sample.collided Sample.averaged
                  eq_refl H)).
Defined.

(** The row of the two colliding sample rows stands for the key of a
    measured row. *)
Lemma cells_are_means_of_raw_values_witness :
  _process_data Sample.parse Sample.collided = Ok Sample.averaged /\
  exists k,
    composite_key (Sample.key_cells ++ [("pm25", VNum (inject_Z 15))]) =
      map value_of_label k /\
    exists r p, In r (rows Sample.collided) /\
                measured Sample.parse (date_source (rows Sample.collided)) r k p.
Proof.
  assert (H : _process_data Sample.parse Sample.collided = Ok Sample.averaged)
    by (vm_compute; reflexivity).
  split; [exact H|].
  destruct (cells_are_means_of_raw_values Sample.parse Sample.collided Sample.averaged
              (Sample.key_cells ++ [("pm25", VNum (inject_Z 15))]) eq_refl H
              (or_introl eq_refl)) as (k & Hk & Hm & _).
  exists k. split; [exact Hk|exact Hm].
Defined.

(** A raw row that is left out of the pivot may hold anything for value:
    of an [o3] row without city whose value is a string and the [so2]
    measurement, the table of the second is made. *)
Lemma dropped_row_value_is_not_read :
  _process_data Sample.parse
    (mkDataFrame (columns Sample.collided)
       [Sample.measurement (inject_Z 5) Sample.los_angeles ++ [("parameter", VStr "so2")];
        [("date", VStr Sample.midnight); ("value", VStr "n/a"); ("unit", VStr "ppm");
         ("location", VStr "Downtown"); ("city", VNull); ("country", VStr "US");
         ("parameter", VStr "o3")]]) =
  Ok Sample.so2_table.
Proof. vm_compute. reflexivity. Qed.

(** The colliding sample rows with flat dates are reshaped to the same
    table. *)
Lemma nested_and_flat_dates_agree_witness :
  _process_data Sample.parse Cases.flat_dates = _process_data Sample.parse Sample.collided.
Proof.
  apply (nested_and_flat_dates_agree Sample.parse Sample.collided Cases.flat_dates).
  - reflexivity.
  - reflexivity.
  - cbn [rows Cases.flat_dates Sample.collided map].
    constructor; [|constructor; [|constructor]];
      (split; [reflexivity|]); intros c Hc; unfold cell, dict_get_default;
      cbn [dict_get Sample.raw_row Sample.measurement app tl];
      rewrite (proj2 (String.eqb_neq c "date") Hc); reflexivity.
Defined.


(** The sample collector is the one [__init__] makes of the sample key;
    its lookup of Los Angeles issues one request. *)
Lemma get_locations_logs_the_api_key_witness :
  fst (init (Some sample_key) []) = Ok Sample.collector /\
  gets (snd (get_locations Sample.server Sample.collector "Los Angeles" "US" 3 [])) =
    gets [] ++ [locations_request Sample.collector "Los Angeles" "US" 3].
Proof.
  assert (H : fst (init (Some sample_key) []) = Ok Sample.collector) by reflexivity.
  split; [exact H|].
  exact (proj1 (get_locations_logs_the_api_key Sample.server Sample.collector
                  (Some sample_key) "Los Angeles" "US" 3 [] H)).
Defined.


(** A run without a key. *)
Lemma main_without_api_key_witness :
  (@None string = None \/ @None string = Some EmptyString) /\
  fst (sample_main Sample.server None []) = Ok tt.
Proof.
  assert (H : @None string = None \/ @None string = Some EmptyString) by now left.
  split; [exact H|].
  exact (f_equal fst (main_without_api_key Sample.server Sample.parse None Sample.start_date
                        Sample.end_date [] H)).
Defined.

(** The run on the sample service writes the file of the Downtown station
    of Los Angeles, a table that is not empty. *)
Lemma main_writes_collected_files_witness :
  exists df,
    In (CsvWritten (collected_file "Los Angeles" "Downtown") df)
       (snd (sample_main Sample.server (Some sample_key) [])) /\
    empty df = false.
Proof.
  assert (H : exists df,
            In (CsvWritten (collected_file "Los Angeles" "Downtown") df)
               (snd (sample_main Sample.server (Some sample_key) []))).
  { let tr := eval vm_compute in (snd (sample_main Sample.server (Some sample_key) [])) in
    change (snd (sample_main Sample.server (Some sample_key) [])) with tr.
    eexists. cbn [In]. repeat (first [left; reflexivity | right]). }
  destruct H as [df H]. exists df. split; [exact H|].
  destruct (main_writes_collected_files Sample.server Sample.parse (Some sample_key)
              Sample.start_date Sample.end_date [] _ df H) as [[]|[He _]].
  exact He.
Defined.

(** The lookup of Los Angeles in a run with no service goes to the
    locations endpoint with the key. *)
Lemma main_requests_only_openaq_witness :
  In (HttpGet (locations_request Sample.collector "Los Angeles" "US" 3))
     (snd (sample_main Cases.offline (Some sample_key) [])) /\
  exists key,
    Some sample_key = Some key /\
    openaq_request key (locations_request Sample.collector "Los Angeles" "US" 3).
Proof.
  assert (H : In (HttpGet (locations_request Sample.collector "Los Angeles" "US" 3))
                 (snd (sample_main Cases.offline (Some sample_key) [])))
    by (vm_compute; auto 10).
  split; [exact H|].
  destruct (main_requests_only_openaq Cases.offline Sample.parse (Some sample_key)
              Sample.start_date Sample.end_date [] _ H) as [[]|Hk].
  exact Hk.
Defined.

(** With no service the run issues the three lookups and writes nothing. *)
Lemma cities_without_locations_are_skipped_witness :
  gets (snd (sample_main Cases.offline (Some sample_key) [])) =
    gets [] ++ map (fun city => locations_request Sample.collector city "US" 3) cities /\
  csv_tables (snd (sample_main Cases.offline (Some sample_key) [])) = csv_tables [].
Proof.
  assert (Hinit : fst (init (Some sample_key) []) = Ok Sample.collector) by reflexivity.
  assert (Hskip : forall city, In city cities ->
            exists locations,
              fst (get_locations Cases.offline Sample.collector city "US" 3 []) =
                Ok locations /\ truthy locations = false)
    by (intros city _; exists (VList []); split; reflexivity).
  destruct (cities_without_locations_are_skipped Cases.offline Sample.parse
              (Some sample_key) Sample.start_date Sample.end_date Sample.collector []
              Hinit Hskip) as (Hg & Hc & _).
  split; [exact Hg|exact Hc].
Defined.

(** The location records of the bare service have no [id]: the run ends
    after the lookup of Los Angeles. *)
Lemma location_without_id_ends_the_run_witness :
  gets (snd (sample_main Cases.bare (Some sample_key) [])) =
    gets [] ++ [locations_request Sample.collector "Los Angeles" "US" 3] /\
  csv_tables (snd (sample_main Cases.bare (Some sample_key) [])) = csv_tables [].
Proof.
  assert (Hinit : fst (init (Some sample_key) []) = Ok Sample.collector) by reflexivity.
  assert (Hfound : fst (get_locations Cases.bare Sample.collector "Los Angeles" "US" 3 []) =
                   Ok (VList [VDict [("value", VNum (inject_Z 1))]])) by reflexivity.
  destruct (location_without_id_ends_the_run Cases.bare Sample.parse (Some sample_key)
              Sample.start_date Sample.end_date Sample.collector [] "Los Angeles"
              ["New York"; "Chicago"] [("value", VNum (inject_Z 1))] [] "id" []
              Hinit eq_refl (fun c (H : In c []) => match H with end) Hfound
              (or_introl (conj eq_refl eq_refl))) as (Hg & Hc & _).
  split; [exact Hg|exact Hc].
Defined.

(** A reply of status 200 whose body is not JSON: no data, and the
    exception is printed. *)
Lemma epa_body_that_is_not_json :
  CollectData.fetch_epa_data Cases.garbled "20240101" "20240131" [] =
  (Ok VNull,
   [HttpGet (epa_request "20240101" "20240131"); Printed (MsgEpaException JSONDecodeError)]).
Proof. reflexivity. Qed.

(** Of a record of the Bronx station and one of another site the EPA
    driver writes the first. *)
Lemma epa_csv_holds_the_station_records_witness :
  epa_records (Cases.epa [Cases.bronx; Cases.elsewhere] (epa_request "20240101" "20240131")) =
    Some [Cases.bronx; Cases.elsewhere] /\
  exists df,
    In (CsvWritten (epa_file "20240131_120000") df)
       (snd (epa_main [Cases.bronx; Cases.elsewhere] [])) /\
    List.length (rows df) = 1%nat.
Proof.
  assert (H : epa_records (Cases.epa [Cases.bronx; Cases.elsewhere]
                             (epa_request "20240101" "20240131")) =
              Some [Cases.bronx; Cases.elsewhere]) by reflexivity.
  split; [exact H|].
  destruct (epa_csv_holds_the_station_records (Cases.epa [Cases.bronx; Cases.elsewhere])
              "20240101" "20240131" "20240131_120000" [Cases.bronx; Cases.elsewhere] [] H
              (ex_intro _ Cases.bronx (conj (or_introl eq_refl) (or_introl eq_refl))))
    as (df & _ & Hin & Hrows).
  exists df. split; [exact Hin|]. exact (Forall2_length Hrows).
Defined.

(** An empty list of records ends the EPA driver in a [KeyError]. *)
Lemma epa_records_without_site_number_witness :
  epa_records (Cases.epa [] (epa_request "20240101" "20240131")) = Some [] /\
  fst (epa_main [] []) = Raise (KeyError ["site_number"]).
Proof.
  assert (H : epa_records (Cases.epa [] (epa_request "20240101" "20240131")) = Some [])
    by reflexivity.
  split; [exact H|].
  exact (proj1 (epa_records_without_site_number (Cases.epa []) "20240101" "20240131"
                  "20240131_120000" [] [] H (fun rec (Hin : In rec []) => match Hin with end))).
Defined.

(** The sample records carry a [parameter_name]: the EPA driver returns
    normally. *)
Lemma epa_summary_needs_parameter_name_witness :
  epa_records (Cases.epa [Cases.bronx; Cases.elsewhere] (epa_request "20240101" "20240131")) =
    Some [Cases.bronx; Cases.elsewhere] /\
  fst (epa_main [Cases.bronx; Cases.elsewhere] []) = Ok tt.
Proof.
  assert (H : epa_records (Cases.epa [Cases.bronx; Cases.elsewhere]
                             (epa_request "20240101" "20240131")) =
              Some [Cases.bronx; Cases.elsewhere]) by reflexivity.
  split; [exact H|].
  apply (proj1 (epa_summary_needs_parameter_name (Cases.epa [Cases.bronx; Cases.elsewhere])
                  "20240101" "20240131" "20240131_120000" [Cases.bronx; Cases.elsewhere] [] H
                  (ex_intro _ Cases.bronx (conj (or_introl eq_refl) (or_introl eq_refl))))).
  exists Cases.bronx. split; [now left|]. cbn. auto.
Defined.
